(** * Ticket workflow of the server-entry bot (bot.py)

    A shallow embedding of the configuration store ([load_config],
    [save_config]), of ticket creation ([create_verification_channel]) and
    of the two moderation commands ([approve], [deny]), followed by the
    properties proved about them.

    Conventions of the embedding.
    - A Python [str] is the list of the bytes of its UTF-8 encoding: a
      character is one byte below 128, or a leading byte with the
      continuation bytes that follow it.  Lengths and slices count
      characters ([str_len], [take_chars]).  [lower] is computed on the
      ASCII letters; what it writes for a character beyond ASCII comes
      from the interpreter's Unicode tables, which are no part of the
      program and are carried by the [Platform] record
      ([lower_beyond_ascii]).  [replace], [split], [startswith] and [in]
      are used with ASCII arguments and work on the bytes.  [title] is
      applied to request types only, and [strip]/[int] know the ASCII
      blanks and digits only: a text they cannot parse that the
      interpreter could holds a blank or a digit beyond ASCII.  The
      interpreter's cap on the number of digits of an integer conversion is
      not modelled.
    - config.json, when it exists, holds a JSON object; JSON values are
      null, integers, strings and objects (the kinds the bot writes).
      Booleans, floats and arrays are left out, so a statement about the
      value of a key covers these four kinds and says so.
    - A lookup in the guild by a configured id is a lookup by integer: it
      finds nothing for null and for a string.  An id that is an object, on
      which the library's lookup raises, is outside the embedding.
    - A handler yields the list of calls it issued, in order, and how it
      ended: normally, or with an exception raised by a configuration
      lookup.  Platform calls the source guards with try/except take their
      answer from a [Platform] record, whose answers are success and the
      exceptions the source catches; a call the source leaves unguarded
      returns normally. *)

From Stdlib Require Import ZArith NArith Ascii String List Lia Bool.
From stdpp Require Import gmap strings list fin_maps.

Set Warnings "-register-all".

Open Scope Z_scope.

(* ===================================================================== *)
(** ** Python strings *)
(* ===================================================================== *)

Definition str := list ascii.

Abbreviation txt s := (list_ascii_of_string s%string) (only parsing).

Definition nl : str := ["010"%char].

Definition code (c : ascii) : N := N_of_ascii c.

Definition in_range (lo hi : N) (c : ascii) : bool :=
  ((lo <=? code c) && (code c <=? hi))%N.

Definition is_upper (c : ascii) : bool := in_range 65 90 c.
Definition is_lower (c : ascii) : bool := in_range 97 122 c.

Definition lower_char (c : ascii) : ascii :=
  if is_upper c then ascii_of_N (code c + 32) else c.

Definition upper_char (c : ascii) : ascii :=
  if is_lower c then ascii_of_N (code c - 32) else c.

(** A byte that continues a character of several bytes. *)
Definition is_continuation (c : ascii) : bool := in_range 128 191 c.

(** A character of one byte. *)
Definition is_ascii (c : ascii) : bool := (code c <? 128)%N.

(** [len(s)]: the number of characters. *)
Definition str_len (s : str) : nat :=
  length (List.filter (fun c => negb (is_continuation c)) s).

(** [s[:n]]: the first [n] characters. *)
Fixpoint take_chars (n : nat) (s : str) : str :=
  match s with
  | [] => []
  | c :: r =>
      if is_continuation c then c :: take_chars n r
      else match n with
           | O => []
           | S m => c :: take_chars m r
           end
  end.

(** [s.lower()], character by character.  [beyond before rest] is what the
    interpreter writes for the character beyond ASCII that [rest] starts
    with, [before] being the text in front of it (the lower case of a
    character may depend on its neighbours, and may take several
    characters). *)
Fixpoint lower_from (beyond : str -> str -> str) (before s : str) : str :=
  match s with
  | [] => []
  | c :: r =>
      if is_ascii c then lower_char c :: lower_from beyond (before ++ [c]) r
      else if is_continuation c then lower_from beyond (before ++ [c]) r
      else beyond before (c :: r) ++ lower_from beyond (before ++ [c]) r
  end.

Definition str_lower (beyond : str -> str -> str) (s : str) : str :=
  lower_from beyond [] s.

(** [s.replace(old, new)] for one-character [old] and [new] *)
Definition str_replace (old new : ascii) (s : str) : str :=
  map (fun c => if Ascii.eqb c old then new else c) s.

(** [s.title()]: a cased character is upper-cased when the character before
    it is not cased, lower-cased otherwise. *)
Fixpoint title_from (previous_is_cased : bool) (s : str) : str :=
  match s with
  | [] => []
  | c :: r =>
      if is_lower c then
        (if previous_is_cased then c else upper_char c) :: title_from true r
      else if is_upper c then
        (if previous_is_cased then lower_char c else c) :: title_from true r
      else c :: title_from false r
  end.

Definition str_title (s : str) : str := title_from false s.

Fixpoint str_eqb (a b : str) : bool :=
  match a, b with
  | [], [] => true
  | x :: a', y :: b' => Ascii.eqb x y && str_eqb a' b'
  | _, _ => false
  end.

(** [s.startswith(p)] *)
Fixpoint str_startswith (p s : str) : bool :=
  match p, s with
  | [], _ => true
  | x :: p', y :: s' => Ascii.eqb x y && str_startswith p' s'
  | _ :: _, [] => false
  end.

(** [needle in s] *)
Fixpoint str_contains (needle s : str) : bool :=
  str_startswith needle s ||
  match s with
  | [] => false
  | _ :: s' => str_contains needle s'
  end.

(** [s.split(sep)] for a one-character separator: never empty. *)
Fixpoint str_split (sep : ascii) (s : str) : list str :=
  match s with
  | [] => [[]]
  | c :: s' =>
      if Ascii.eqb c sep then [] :: str_split sep s'
      else match str_split sep s' with
           | p :: ps => (c :: p) :: ps
           | [] => [[c]]
           end
  end.

(** [sep.join(parts)] *)
Fixpoint str_join (sep : str) (parts : list str) : str :=
  match parts with
  | [] => []
  | [p] => p
  | p :: ps => p ++ sep ++ str_join sep ps
  end.

Fixpoint drop_while (f : ascii -> bool) (s : str) : str :=
  match s with
  | [] => []
  | c :: r => if f c then drop_while f r else s
  end.

Definition strip_with (f : ascii -> bool) (s : str) : str :=
  rev (drop_while f (rev (drop_while f s))).

(** [str.isspace] on one character: TAB..CR, FS..US and the blank. *)
Definition is_space (c : ascii) : bool :=
  in_range 9 13 c || in_range 28 31 c || in_range 32 32 c.

(** [s.strip()] *)
Definition str_strip (s : str) : str := strip_with is_space s.

(** The blanks [int] skips by itself: TAB..CR and the blank. *)
Definition is_c_space (c : ascii) : bool :=
  in_range 9 13 c || in_range 32 32 c.

Definition digit_val (c : ascii) : option Z :=
  if in_range 48 57 c then Some (Z.of_N (code c - 48)) else None.

Definition is_underscore (c : ascii) : bool := Ascii.eqb c "_"%char.

(** The digits after the first one; a single underscore may sit between two
    digits. *)
Fixpoint int_digits (acc : Z) (s : str) : option Z :=
  match s with
  | [] => Some acc
  | c :: r =>
      if is_underscore c then
        match r with
        | d :: r' =>
            match digit_val d with
            | Some v => int_digits (10 * acc + v) r'
            | None => None
            end
        | [] => None
        end
      else
        match digit_val c with
        | Some v => int_digits (10 * acc + v) r
        | None => None
        end
  end.

Definition int_unsigned (s : str) : option Z :=
  match s with
  | c :: r =>
      match digit_val c with
      | Some v => int_digits v r
      | None => None
      end
  | [] => None
  end.

(** [int(s)]; [None] stands for [ValueError]. *)
Definition py_int (s : str) : option Z :=
  match strip_with is_c_space s with
  | c :: r =>
      if Ascii.eqb c "-"%char then option_map Z.opp (int_unsigned r)
      else if Ascii.eqb c "+"%char then int_unsigned r
      else int_unsigned (c :: r)
  | [] => None
  end.

Definition digit_char (n : N) : ascii := ascii_of_N (48 + n).

Fixpoint digits_of (fuel : nat) (n : N) : str :=
  match fuel with
  | O => []
  | S f =>
      if (n <? 10)%N then [digit_char n]
      else digits_of f (n / 10)%N ++ [digit_char (n mod 10)%N]
  end.

Definition decimal (n : N) : str := digits_of (S (N.to_nat (N.size n))) n.

(** [str(z)], also what an f-string writes for an integer. *)
Definition py_str (z : Z) : str :=
  match z with
  | Z0 => decimal 0
  | Zpos p => decimal (Npos p)
  | Zneg p => "-"%char :: decimal (Npos p)
  end.

(* ===================================================================== *)
(** ** Configuration *)
(* ===================================================================== *)

Inductive json : Type :=
| JNull
| JInt (z : Z)
| JStr (s : str)
| JObj (o : gmap string json).

(** Truth value of a JSON value in a condition. *)
Definition truthy (j : json) : bool :=
  match j with
  | JNull => false
  | JInt z => negb (z =? 0)
  | JStr s => match s with [] => false | _ => true end
  | JObj o => negb (Nat.eqb (size o) 0)
  end.

Inductive Exn : Type :=
| KeyError (key : string)
| TypeError.

Definition CONFIG_FILE : string := "config.json".

Definition DEFAULT_ROLES : list (string * json) :=
  [ ("belgian", JNull);
    ("foreigner", JNull);
    ("border_control", JNull);
    ("minister_foreign_affairs", JNull);
    ("president", JNull);
    ("vice_president", JNull);
    ("government", JNull) ]%string.

Definition DEFAULT_WELCOME_MESSAGE : str :=
  txt "# Welcome to the Official Belgium War Era Server!" ++ nl ++ nl ++
  txt "Greetings, traveler! You have arrived at the gates of Belgium." ++ nl ++ nl ++
  txt "Please select your status below to proceed with verification:".

(** The items of DEFAULT_CONFIG, in the order of the source. *)
Definition DEFAULT_CONFIG_items : list (string * json) :=
  [ ("welcome_channel_id", JNull);
    ("verification_category_id", JNull);
    ("log_channel_id", JNull);
    ("roles", JObj (list_to_map DEFAULT_ROLES));
    ("welcome_message", JStr DEFAULT_WELCOME_MESSAGE);
    ("ticket_counter", JInt 0) ]%string.

Definition DEFAULT_CONFIG : gmap string json := list_to_map DEFAULT_CONFIG_items.

(** The body of the merge loop: [if key not in config: config[key] = value]. *)
Definition merge_default (config : gmap string json) (item : string * json)
  : gmap string json :=
  match config !! item.1 with
  | None => <[item.1 := item.2]> config
  | Some _ => config
  end.

(** [load_config()]; the argument is the content of config.json, [None]
    when the file does not exist. *)
Definition load_config (file : option (gmap string json)) : gmap string json :=
  match file with
  | Some config => foldl merge_default config DEFAULT_CONFIG_items
  | None => DEFAULT_CONFIG
  end.

(** [d[key]] *)
Definition getitem (d : gmap string json) (key : string) : Exn + json :=
  match d !! key with
  | Some v => inr v
  | None => inl (KeyError key)
  end.

(** [config["roles"][key]] *)
Definition config_role (config : gmap string json) (key : string) : Exn + json :=
  match getitem config "roles" with
  | inr (JObj roles) => getitem roles key
  | inr _ => inl TypeError
  | inl e => inl e
  end.

(* ===================================================================== *)
(** ** The platform: guilds, members, channels, embeds *)
(* ===================================================================== *)

Record Role : Type := {
  role_id : Z;
  role_name : str
}.

Record Member : Type := {
  member_id : Z;
  member_name : str;
  member_roles : list Role;
  administrator : bool;          (* guild_permissions.administrator *)
  avatar_url : str               (* display_avatar.url *)
}.

Record GuildChannel : Type := {
  channel_id : Z;
  channel_name : str;
  channel_topic : option str;
  bot_manage_channels : bool     (* permissions_for(guild.me).manage_channels *)
}.

Record Guild : Type := {
  default_role : Role;
  me : Member;
  guild_roles : list Role;
  guild_members : list Member;
  guild_channels : list GuildChannel
}.

Record Interaction : Type := {
  guild : Guild;
  user : Member;
  channel : GuildChannel
}.

(** [guild.get_role(id)], [guild.get_channel(id)]: a lookup by integer id;
    any other value finds nothing. *)
Definition get_role (g : Guild) (id : json) : option Role :=
  match id with
  | JInt z => List.find (fun r => role_id r =? z) (guild_roles g)
  | _ => None
  end.

Definition get_channel (g : Guild) (id : json) : option GuildChannel :=
  match id with
  | JInt z => List.find (fun c => channel_id c =? z) (guild_channels g)
  | _ => None
  end.

Definition get_member (g : Guild) (id : Z) : option Member :=
  List.find (fun m => member_id m =? id) (guild_members g).

Definition role_mention (r : Role) : str := txt "<@&" ++ py_str (role_id r) ++ txt ">".
Definition member_mention (m : Member) : str := txt "<@" ++ py_str (member_id m) ++ txt ">".
Definition channel_mention (id : Z) : str := txt "<#" ++ py_str id ++ txt ">".

Inductive Color : Type := green | blue | red | gold.

Record EmbedField : Type := {
  field_name : str;
  field_value : str;
  field_inline : bool
}.

Record Embed : Type := {
  embed_title : str;
  embed_description : str;
  embed_color : Color;
  embed_timestamp : bool;            (* whether a timestamp is set *)
  embed_thumbnail : option str;
  embed_fields : list EmbedField;
  embed_footer : option str;
  embed_footer_icon : option str
}.

Definition add_field (f : EmbedField) (e : Embed) : Embed :=
  {| embed_title := embed_title e;
     embed_description := embed_description e;
     embed_color := embed_color e;
     embed_timestamp := embed_timestamp e;
     embed_thumbnail := embed_thumbnail e;
     embed_fields := embed_fields e ++ [f];
     embed_footer := embed_footer e;
     embed_footer_icon := embed_footer_icon e |}.

Record PermissionOverwrite : Type := {
  view_channel : option bool;
  send_messages : option bool;
  read_message_history : option bool;
  manage_channels : option bool;
  manage_messages : option bool;
  embed_links : option bool
}.

(** The keys of the overwrites dictionary: roles and members, compared by
    id within their kind. *)
Inductive Target : Type :=
| TRole (id : Z)
| TMember (id : Z).

Definition target_eqb (a b : Target) : bool :=
  match a, b with
  | TRole x, TRole y => x =? y
  | TMember x, TMember y => x =? y
  | _, _ => false
  end.

(** [d[k] = v] on a dictionary kept in insertion order. *)
Fixpoint dict_set (k : Target) (v : PermissionOverwrite)
  (d : list (Target * PermissionOverwrite)) : list (Target * PermissionOverwrite) :=
  match d with
  | [] => [(k, v)]
  | (k', v') :: d' =>
      if target_eqb k' k then (k', v) :: d' else (k', v') :: dict_set k v d'
  end.

(** Answers of the platform to the calls the source guards. *)
Inductive CreateResult : Type :=
| Created (new_channel_id : Z)
| CreateForbidden (e : str).

Inductive AddRolesResult : Type :=
| RolesAdded
| RolesForbidden
| RolesHTTPException (e : str).

Inductive SendResult : Type :=
| Sent
| SendForbidden
| SendHTTPException (e : str).

(** The answers to [channel.delete] the source provides for: success, and
    the two exceptions it catches.  Another failure of the request is left
    uncaught by the source and is no value of this type. *)
Inductive DeleteResult : Type :=
| Deleted
| DeleteNotFound (e : str)
| DeleteForbidden (e : str).

Record Platform : Type := {
  create_text_channel_result : CreateResult;
  add_roles_result : AddRolesResult;
  log_send_result : SendResult;
  delete_result : DeleteResult;
  lower_beyond_ascii : str -> str -> str   (* str.lower() beyond ASCII *)
}.

(** Lines written to the console. *)
Inductive Diagnostic : Type :=
| CannotPostToLog                    (* "Cannot post to log channel - missing permissions" *)
| FailedToPostToLog (e : str)        (* "Failed to post to log channel: {e}" *)
| LogChannelNotFound (id : json)     (* "Log channel not found: {id}" *)
| CouldNotDeleteChannel (e : str).   (* "Could not delete channel: {e}" *)

(** The calls a handler issues.  [ResponseSendMessage] is
    [interaction.response.send_message(..., ephemeral=True)]. *)
Inductive Effect : Type :=
| SaveConfig (config : gmap string json)
| ResponseSendMessage (content : option str) (embed : option Embed)
| CreateTextChannel (name : str) (category : option GuildChannel)
    (overwrites : list (Target * PermissionOverwrite)) (topic : str)
    (result : CreateResult)
| ChannelSend (to : Z) (content : option str) (embed : Embed) (result : SendResult)
| AddRoles (member : Member) (role : Role) (result : AddRolesResult)
| Print (line : Diagnostic)
| Sleep (seconds : Z)
| ChannelDelete (target : Z) (reason : str) (result : DeleteResult).

(** A handler run: the calls issued so far and either a value or the
    exception that ended the run. *)
Definition M (A : Type) : Type := (list Effect * (Exn + A))%type.

Definition ret {A : Type} (a : A) : M A := ([], inr a).

Definition lift {A : Type} (r : Exn + A) : M A := ([], r).

Definition call (e : Effect) : M unit := ([e], inr tt).

Definition bind {A B : Type} (m : M A) (k : A -> M B) : M B :=
  match m with
  | (t, inl e) => (t, inl e)
  | (t, inr a) => (t ++ (k a).1, (k a).2)
  end.

Notation "x <- m ;; k" := (bind m (fun x => k))
  (at level 20, m at level 99, k at level 200, only parsing).
Notation "m ;; k" := (bind m (fun _ => k))
  (at level 100, k at level 200, right associativity, only parsing).

(** [save_config(config)] *)
Definition save_config (config : gmap string json) : M unit := call (SaveConfig config).

(** What config.json holds after a run. *)
Definition saved_config (file : option (gmap string json)) (t : list Effect)
  : option (gmap string json) :=
  foldl (fun f e => match e with SaveConfig c => Some c | _ => f end) file t.

(* ===================================================================== *)
(** ** Ticket channel creation *)
(* ===================================================================== *)

(** [config["ticket_counter"] += 1] followed by the read of the new value. *)
Definition next_ticket_id (config : gmap string json) : Exn + Z :=
  match getitem config "ticket_counter" with
  | inr (JInt n) => inr (n + 1)
  | inr _ => inl TypeError
  | inl e => inl e
  end.

Record Routing : Type := {
  route_channel_name : str;
  route_role_ids : list json;
  route_color : Color;
  route_title : str
}.

(** The branch on [request_type] that fixes name, notified roles, colour and
    title of a ticket. *)
Definition routing (config : gmap string json) (request_type : str)
  (ticket_id : Z) (user_name : str) : M Routing :=
  if str_eqb request_type (txt "citizen") then
    border_control <- lift (config_role config "border_control") ;;
    ret {| route_channel_name := txt "citizen-" ++ py_str ticket_id ++ txt "-" ++ user_name;
           route_role_ids := [border_control];
           route_color := green;
           route_title := txt "Citizenship Verification Request" |}
  else if str_eqb request_type (txt "foreigner") then
    border_control <- lift (config_role config "border_control") ;;
    ret {| route_channel_name := txt "foreigner-" ++ py_str ticket_id ++ txt "-" ++ user_name;
           route_role_ids := [border_control];
           route_color := blue;
           route_title := txt "Foreigner Verification Request" |}
  else
    minister_foreign_affairs <- lift (config_role config "minister_foreign_affairs") ;;
    president <- lift (config_role config "president") ;;
    vice_president <- lift (config_role config "vice_president") ;;
    ret {| route_channel_name := txt "embassy-" ++ py_str ticket_id ++ txt "-" ++ user_name;
           route_role_ids := [minister_foreign_affairs; president; vice_president];
           route_color := red;
           route_title := txt "Emergency Embassy Request" |}.

(** [channel_name.lower().replace(" ", "-")[:100]] *)
Definition sanitize (beyond : str -> str -> str) (channel_name : str) : str :=
  take_chars 100 (str_replace " " "-" (str_lower beyond channel_name)).

(** The channel name handed to the platform for a ticket. *)
Definition ticket_channel_name (p : Platform) (request_type : str) (ticket_id : Z)
  (user_name : str) : str :=
  sanitize (lower_beyond_ascii p)
    ((if str_eqb request_type (txt "citizen") then txt "citizen-"
      else if str_eqb request_type (txt "foreigner") then txt "foreigner-"
      else txt "embassy-") ++ py_str ticket_id ++ txt "-" ++ user_name).

(** The topic that stores the ticket's metadata. *)
Definition ticket_topic (user_name request_type : str) (ticket_id user_id : Z) : str :=
  txt "Verification request by " ++ user_name ++ txt " | Type: " ++ request_type ++
  txt " | ID: " ++ py_str ticket_id ++ txt " | User ID: " ++ py_str user_id.

Definition hidden : PermissionOverwrite :=
  {| view_channel := Some false; send_messages := None; read_message_history := None;
     manage_channels := None; manage_messages := None; embed_links := None |}.

Definition participant : PermissionOverwrite :=
  {| view_channel := Some true; send_messages := Some true; read_message_history := Some true;
     manage_channels := None; manage_messages := None; embed_links := None |}.

Definition bot_access : PermissionOverwrite :=
  {| view_channel := Some true; send_messages := Some true; read_message_history := None;
     manage_channels := Some true; manage_messages := Some true; embed_links := Some true |}.

(** The loop granting access to the resolved moderator roles. *)
Definition grant_role_access (g : Guild)
  (overwrites : list (Target * PermissionOverwrite)) (rid : json)
  : list (Target * PermissionOverwrite) :=
  if truthy rid then
    match get_role g rid with
    | Some role => dict_set (TRole (role_id role)) participant overwrites
    | None => overwrites
    end
  else overwrites.

Definition ticket_overwrites (g : Guild) (requester : Member) (role_ids : list json)
  : list (Target * PermissionOverwrite) :=
  foldl (grant_role_access g)
    (dict_set (TMember (member_id (me g))) bot_access
       (dict_set (TMember (member_id requester)) participant
          (dict_set (TRole (role_id (default_role g))) hidden [])))
    role_ids.

(** The loop collecting the mentions of the resolved roles. *)
Definition collect_mention (g : Guild) (role_mentions : list str) (rid : json) : list str :=
  if truthy rid then
    match get_role g rid with
    | Some role => role_mentions ++ [role_mention role]
    | None => role_mentions
    end
  else role_mentions.

Definition ticket_role_mentions (g : Guild) (role_ids : list json) : list str :=
  foldl (collect_mention g) [] role_ids.

Definition ticket_embed (requester : Member) (request_type : str) (ticket_id : Z)
  (r : Routing) : Embed :=
  {| embed_title := txt "📋 " ++ route_title r;
     embed_description :=
       txt "**User:** " ++ member_mention requester ++ nl ++
       txt "**Request Type:** " ++ str_title request_type ++ nl ++
       txt "**Ticket ID:** #" ++ py_str ticket_id;
     embed_color := route_color r;
     embed_timestamp := true;
     embed_thumbnail := Some (avatar_url requester);
     embed_fields :=
       [ {| field_name := txt "Instructions for Moderators";
            field_value := txt "Use `/approve` to approve this request" ++ nl ++
                           txt "Use `/deny` to deny this request";
            field_inline := false |} ];
     embed_footer := Some (txt "User ID: " ++ py_str (member_id requester));
     embed_footer_icon := None |}.

Definition category_permission_message (category : GuildChannel) : str :=
  txt "I don't have permission to create channels in the **" ++ channel_name category ++
  txt "** category." ++ nl ++ nl ++
  txt "**Fix:** Go to the category settings > Permissions > Add the bot role with 'Manage Channels' enabled.".

Definition create_forbidden_message (category : option GuildChannel) (e : str) : str :=
  txt "I don't have permission to create channels." ++ nl ++ nl ++
  txt "**Possible fixes:**" ++ nl ++
  txt "• Ensure the bot has 'Manage Channels' permission server-wide" ++ nl ++
  match category with
  | Some c => txt "• Add the bot to the **" ++ channel_name c ++
              txt "** category with 'Manage Channels' permission" ++ nl
  | None => []
  end ++
  nl ++ txt "**Error:** " ++ e.

Definition channel_created_message (new_channel_id : Z) : str :=
  txt "Your verification channel has been created: " ++ channel_mention new_channel_id ++ nl ++
  txt "Please wait for a moderator to review your request.".

(** [create_verification_channel(interaction, request_type)]; [file] is the
    content of config.json when the handler starts. *)
Definition create_verification_channel (p : Platform) (file : option (gmap string json))
  (interaction : Interaction) (request_type : str) : M unit :=
  let config := load_config file in
  let guild := guild interaction in
  let user := user interaction in
  ticket_id <- lift (next_ticket_id config) ;;
  let config := <["ticket_counter" := JInt ticket_id]> config in
  save_config config ;;
  r <- routing config request_type ticket_id (member_name user) ;;
  let channel_name := sanitize (lower_beyond_ascii p) (route_channel_name r) in
  category_id <- lift (getitem config "verification_category_id") ;;
  let category := if truthy category_id then get_channel guild category_id else None in
  let overwrites := ticket_overwrites guild user (route_role_ids r) in
  let create :=
    let topic := ticket_topic (member_name user) request_type ticket_id (member_id user) in
    match create_text_channel_result p with
    | CreateForbidden e =>
        call (CreateTextChannel channel_name category overwrites topic (CreateForbidden e)) ;;
        call (ResponseSendMessage (Some (create_forbidden_message category e)) None)
    | Created new_id =>
        call (CreateTextChannel channel_name category overwrites topic (Created new_id)) ;;
        let role_mentions := ticket_role_mentions guild (route_role_ids r) in
        let embed := ticket_embed user request_type ticket_id r in
        let mention_text :=
          match role_mentions with [] => [] | _ => str_join (txt " ") role_mentions end in
        call (ChannelSend new_id (Some mention_text) embed Sent) ;;
        call (ResponseSendMessage (Some (channel_created_message new_id)) None)
    end in
  match category with
  | Some c =>
      if bot_manage_channels c then create
      else call (ResponseSendMessage (Some (category_permission_message c)) None)
  | None => create
  end.

(* ===================================================================== *)
(** ** Moderation commands *)
(* ===================================================================== *)

Definition TICKET_PREFIXES : list str :=
  [txt "citizen-"; txt "foreigner-"; txt "embassy-"].

(** [channel.name.startswith(("citizen-", "foreigner-", "embassy-"))] *)
Definition is_ticket_channel (name : str) : bool :=
  existsb (fun prefix => str_startswith prefix name) TICKET_PREFIXES.

Definition not_a_ticket_message : str :=
  txt "This command can only be used in verification channels.".

Definition no_permission_message : str :=
  txt "You don't have permission to use this command.".

Definition user_not_found_message : str :=
  txt "Could not find the user for this request. Please check manually.".

Definition member_left_message : str :=
  txt "The user is no longer in the server.".

Definition role_forbidden_message (role : Role) : str :=
  txt "I don't have permission to assign the " ++ role_name role ++ txt " role. " ++
  txt "Make sure my bot role is **higher** than this role in Server Settings > Roles.".

Definition role_failed_message (e : str) : str := txt "Failed to assign role: " ++ e.

(** The list [mod_roles] both commands build. *)
Definition mod_roles (config : gmap string json) : M (list json) :=
  border_control <- lift (config_role config "border_control") ;;
  minister_foreign_affairs <- lift (config_role config "minister_foreign_affairs") ;;
  president <- lift (config_role config "president") ;;
  vice_president <- lift (config_role config "vice_president") ;;
  ret [border_control; minister_foreign_affairs; president; vice_president].

(** [role_id in user_role_ids] for a configured value. *)
Definition id_in (rid : json) (user_role_ids : list Z) : bool :=
  match rid with
  | JInt z => existsb (Z.eqb z) user_role_ids
  | _ => false
  end.

(** [any(role_id in user_role_ids for role_id in mod_roles if role_id)] *)
Definition has_permission (mod_roles : list json) (user_role_ids : list Z) : bool :=
  existsb (fun rid => id_in rid user_role_ids) (List.filter truthy mod_roles).

(** The body of the loop over the parts of the topic. *)
Definition user_id_step (user_id : option Z) (part : str) : option Z :=
  if str_contains (txt "User ID:") part then
    match py_int (str_strip (List.last (str_split ":" part) [])) with
    | Some z => Some z
    | None => user_id
    end
  else user_id.

(** The user id read back from the topic of a channel. *)
Definition topic_user_id (topic : option str) : option Z :=
  foldl user_id_step None (str_split "|" (default [] topic)).

(** [channel.name.split("-")[0]] *)
Definition request_type_of (name : str) : str := List.hd [] (str_split "-" name).

(** [config.get(key)] *)
Definition config_get (config : gmap string json) (key : string) : json :=
  default JNull (config !! key).

Definition deletion_footer : str := txt "This channel will be deleted in 30 seconds.".

Definition role_granted_field (role : Role) (inline : bool) : EmbedField :=
  {| field_name := txt "Role Granted"; field_value := role_mention role;
     field_inline := inline |}.

Definition with_role (role_to_give : option Role) (inline : bool) (e : Embed) : Embed :=
  match role_to_give with
  | Some role => add_field (role_granted_field role inline) e
  | None => e
  end.

Definition warning_field : EmbedField :=
  {| field_name := txt "⚠️ Warning"; field_value := txt "Could not post to log channel";
     field_inline := false |}.

Definition with_warning (warn : bool) (e : Embed) : Embed :=
  if warn then add_field warning_field e else e.

Definition approve_user_embed (request_type : str) (role_to_give : option Role) : Embed :=
  with_role role_to_give false
    {| embed_title := txt "✅ Request Approved!";
       embed_description :=
         txt "Your " ++ request_type ++ txt " verification request has been approved!";
       embed_color := green;
       embed_timestamp := false;
       embed_thumbnail := None;
       embed_fields := [];
       embed_footer := Some deletion_footer;
       embed_footer_icon := None |}.

Definition approve_log_embed (moderator member : Member) (request_type reason : str)
  (role_to_give : option Role) : Embed :=
  with_role role_to_give true
    {| embed_title := txt "✅ Verification Approved";
       embed_description :=
         txt "**User:** " ++ member_mention member ++ txt " (" ++ member_name member ++ txt ")" ++ nl ++
         txt "**Type:** " ++ str_title request_type ++ nl ++
         txt "**Reason:** " ++ reason;
       embed_color := green;
       embed_timestamp := true;
       embed_thumbnail := Some (avatar_url member);
       embed_fields := [];
       embed_footer := Some (txt "Approved by " ++ member_name moderator);
       embed_footer_icon := Some (avatar_url moderator) |}.

Definition approve_mod_embed (moderator member : Member) (request_type reason : str)
  (warn : bool) : Embed :=
  with_warning warn
    {| embed_title := txt "📝 Approval Logged";
       embed_description :=
         txt "**User:** " ++ member_mention member ++ nl ++
         txt "**Type:** " ++ request_type ++ nl ++
         txt "**Reason:** " ++ reason;
       embed_color := green;
       embed_timestamp := false;
       embed_thumbnail := None;
       embed_fields := [];
       embed_footer := Some (txt "Approved by " ++ member_name moderator);
       embed_footer_icon := None |}.

Definition unknown : str := txt "Unknown".

Definition deny_user_embed (request_type : str) : Embed :=
  {| embed_title := txt "❌ Request Denied";
     embed_description :=
       txt "Your " ++ request_type ++ txt " verification request has been denied.";
     embed_color := red;
     embed_timestamp := false;
     embed_thumbnail := None;
     embed_fields := [];
     embed_footer := Some deletion_footer;
     embed_footer_icon := None |}.

Definition deny_log_embed (moderator : Member) (member : option Member)
  (request_type reason : str) : Embed :=
  {| embed_title := txt "❌ Verification Denied";
     embed_description :=
       txt "**User:** " ++ from_option member_mention unknown member ++ txt " " ++
       txt "(" ++ from_option member_name unknown member ++ txt ")" ++ nl ++
       txt "**Type:** " ++ str_title request_type ++ nl ++
       txt "**Reason:** " ++ reason;
     embed_color := red;
     embed_timestamp := true;
     embed_thumbnail := option_map avatar_url member;
     embed_fields := [];
     embed_footer := Some (txt "Denied by " ++ member_name moderator);
     embed_footer_icon := Some (avatar_url moderator) |}.

Definition deny_mod_embed (moderator : Member) (member : option Member)
  (request_type reason : str) (warn : bool) : Embed :=
  with_warning warn
    {| embed_title := txt "📝 Denial Logged";
       embed_description :=
         txt "**User:** " ++ from_option member_mention unknown member ++ nl ++
         txt "**Type:** " ++ request_type ++ nl ++
         txt "**Reason:** " ++ reason;
       embed_color := red;
       embed_timestamp := false;
       embed_thumbnail := None;
       embed_fields := [];
       embed_footer := Some (txt "Denied by " ++ member_name moderator);
       embed_footer_icon := None |}.

(** The block that writes to the log channel; yields [log_posted]. *)
Definition post_log (p : Platform) (config : gmap string json) (g : Guild)
  (log_embed : Embed) : M bool :=
  if truthy (config_get config "log_channel_id") then
    log_channel_id <- lift (getitem config "log_channel_id") ;;
    match get_channel g log_channel_id with
    | Some log_channel =>
        match log_send_result p with
        | Sent =>
            call (ChannelSend (channel_id log_channel) None log_embed Sent) ;;
            ret true
        | SendForbidden =>
            call (ChannelSend (channel_id log_channel) None log_embed SendForbidden) ;;
            call (Print CannotPostToLog) ;;
            ret false
        | SendHTTPException e =>
            call (ChannelSend (channel_id log_channel) None log_embed (SendHTTPException e)) ;;
            call (Print (FailedToPostToLog e)) ;;
            ret false
        end
    | None =>
        call (Print (LogChannelNotFound log_channel_id)) ;;
        ret false
    end
  else ret false.

(** The delayed deletion that ends both commands. *)
Definition delete_after_delay (p : Platform) (ticket : GuildChannel) (reason : str) : M unit :=
  call (Sleep 30) ;;
  match delete_result p with
  | Deleted => call (ChannelDelete (channel_id ticket) reason Deleted)
  | DeleteNotFound e =>
      call (ChannelDelete (channel_id ticket) reason (DeleteNotFound e)) ;;
      call (Print (CouldNotDeleteChannel e))
  | DeleteForbidden e =>
      call (ChannelDelete (channel_id ticket) reason (DeleteForbidden e)) ;;
      call (Print (CouldNotDeleteChannel e))
  end.

(** The part of [approve] after the role assignment: notification, log,
    acknowledgment, deletion. *)
Definition approve_announce (p : Platform) (config : gmap string json)
  (interaction : Interaction) (reason : str) (member : Member)
  (request_type : str) (role_to_give : option Role) : M unit :=
  let ticket := channel interaction in
  let moderator := user interaction in
  call (ChannelSend (channel_id ticket) (Some (member_mention member))
          (approve_user_embed request_type role_to_give) Sent) ;;
  log_posted <- post_log p config (guild interaction)
                  (approve_log_embed moderator member request_type reason role_to_give) ;;
  let warn := negb log_posted && truthy (config_get config "log_channel_id") in
  call (ResponseSendMessage None
          (Some (approve_mod_embed moderator member request_type reason warn))) ;;
  delete_after_delay p ticket (txt "Verification approved by " ++ member_name moderator).

(** The branch of [approve] that picks the role to grant. *)
Definition role_for (config : gmap string json) (g : Guild) (request_type : str)
  : M (option Role) :=
  if str_eqb request_type (txt "citizen") then
    belgian <- lift (config_role config "belgian") ;;
    ret (get_role g belgian)
  else if str_eqb request_type (txt "foreigner") then
    foreigner <- lift (config_role config "foreigner") ;;
    ret (get_role g foreigner)
  else ret None.

(** The part of [approve] from the choice of the role on: the role
    assignment and, when it did not fail, the announcement. *)
Definition approve_grant (p : Platform) (config : gmap string json)
  (interaction : Interaction) (reason : str) (member : Member) : M unit :=
  let request_type := request_type_of (channel_name (channel interaction)) in
  role_to_give <- role_for config (guild interaction) request_type ;;
  let announce :=
    approve_announce p config interaction reason member request_type role_to_give in
  match role_to_give with
  | None => announce
  | Some role =>
      match add_roles_result p with
      | RolesAdded =>
          call (AddRoles member role RolesAdded) ;;
          announce
      | RolesForbidden =>
          call (AddRoles member role RolesForbidden) ;;
          call (ResponseSendMessage (Some (role_forbidden_message role)) None)
      | RolesHTTPException e =>
          call (AddRoles member role (RolesHTTPException e)) ;;
          call (ResponseSendMessage (Some (role_failed_message e)) None)
      end
  end.

(** [approve(interaction, reason)] *)
Definition approve (p : Platform) (file : option (gmap string json))
  (interaction : Interaction) (reason : str) : M unit :=
  let config := load_config file in
  let ticket := channel interaction in
  if negb (is_ticket_channel (channel_name ticket)) then
    call (ResponseSendMessage (Some not_a_ticket_message) None)
  else
    mod_roles <- mod_roles config ;;
    let user_role_ids := map role_id (member_roles (user interaction)) in
    let has_permission := has_permission mod_roles user_role_ids in
    if negb has_permission && negb (administrator (user interaction)) then
      call (ResponseSendMessage (Some no_permission_message) None)
    else
      match topic_user_id (channel_topic ticket) with
      | None => call (ResponseSendMessage (Some user_not_found_message) None)
      | Some user_id =>
          if user_id =? 0 then
            call (ResponseSendMessage (Some user_not_found_message) None)
          else
            match get_member (guild interaction) user_id with
            | None => call (ResponseSendMessage (Some member_left_message) None)
            | Some member => approve_grant p config interaction reason member
            end
      end.

(** [guild.get_member(user_id) if user_id else None] on the id read from
    the topic. *)
Definition requester_of (g : Guild) (topic : option str) : option Member :=
  match topic_user_id topic with
  | Some user_id => if user_id =? 0 then None else get_member g user_id
  | None => None
  end.

(** [deny(interaction, reason)] *)
Definition deny (p : Platform) (file : option (gmap string json))
  (interaction : Interaction) (reason : str) : M unit :=
  let config := load_config file in
  let ticket := channel interaction in
  let moderator := user interaction in
  if negb (is_ticket_channel (channel_name ticket)) then
    call (ResponseSendMessage (Some not_a_ticket_message) None)
  else
    mod_roles <- mod_roles config ;;
    let user_role_ids := map role_id (member_roles moderator) in
    let has_permission := has_permission mod_roles user_role_ids in
    if negb has_permission && negb (administrator moderator) then
      call (ResponseSendMessage (Some no_permission_message) None)
    else
      let member := requester_of (guild interaction) (channel_topic ticket) in
      let request_type := request_type_of (channel_name ticket) in
      call (ChannelSend (channel_id ticket) (option_map member_mention member)
              (deny_user_embed request_type) Sent) ;;
      log_posted <- post_log p config (guild interaction)
                      (deny_log_embed moderator member request_type reason) ;;
      let warn := negb log_posted && truthy (config_get config "log_channel_id") in
      call (ResponseSendMessage None
              (Some (deny_mod_embed moderator member request_type reason warn))) ;;
      delete_after_delay p ticket (txt "Verification denied by " ++ member_name moderator).

(* ===================================================================== *)
(** ** Request types and the wording of the specification *)
(* ===================================================================== *)

(** The three request types, one per button of [WelcomeView]. *)
Inductive RequestType : Type := citizen | foreigner | embassy.

(** The string each button hands to [create_verification_channel]. *)
Definition type_name (t : RequestType) : str :=
  match t with
  | citizen => txt "citizen"
  | foreigner => txt "foreigner"
  | embassy => txt "embassy"
  end.

(** The two alphabets. *)
Definition capital_letters : str := txt "ABCDEFGHIJKLMNOPQRSTUVWXYZ".
Definition small_letters : str := txt "abcdefghijklmnopqrstuvwxyz".

(** The letter of [smalls] at the place [c] has in [capitals]; [c] itself
    when it is not there. *)
Fixpoint letter_for (capitals smalls : str) (c : ascii) : ascii :=
  match capitals, smalls with
  | capital :: capitals', small :: smalls' =>
      if Ascii.eqb c capital then small else letter_for capitals' smalls' c
  | _, _ => c
  end.

(** The small letter of a capital letter of the alphabet. *)
Definition small_letter (c : ascii) : ascii := letter_for capital_letters small_letters c.

(** A text lower-cased: the capital letters of the alphabet become small
    letters, a character beyond ASCII becomes what the interpreter's tables
    say, everything else stays. *)
Fixpoint lowercased_from (beyond : str -> str -> str) (before s : str) : str :=
  match s with
  | [] => []
  | c :: r =>
      if is_ascii c then small_letter c :: lowercased_from beyond (before ++ [c]) r
      else if is_continuation c then lowercased_from beyond (before ++ [c]) r
      else beyond before (c :: r) ++ lowercased_from beyond (before ++ [c]) r
  end.

Definition lowercased (beyond : str -> str -> str) (s : str) : str :=
  lowercased_from beyond [] s.

(** Every space replaced by a hyphen. *)
Definition hyphenated (s : str) : str :=
  map (fun c => match c with " "%char => "-"%char | _ => c end) s.



Definition is_digit (c : ascii) : bool := in_range 48 57 c.

(** The characters [str] writes for an integer. *)
Definition is_int_char (c : ascii) : bool := is_digit c || Ascii.eqb c "-".

(** Whether an actor holds the role a configured value names. *)
Definition holds_role (actor : Member) (rid : json) : bool :=
  match rid with
  | JInt z => existsb (fun r => role_id r =? z) (member_roles actor)
  | _ => false
  end.

(** The actor holds none of the configured moderator roles. *)
Definition holds_none (roles : list json) (actor : Member) : bool :=
  forallb (fun rid => negb (holds_role actor rid)) roles.

(** The actor holds a configured moderator role or is an administrator. *)
Definition authorized (roles : list json) (actor : Member) : bool :=
  existsb (fun rid => truthy rid && holds_role actor rid) roles || administrator actor.

(** The run of a command rejected for lack of permission. *)
Definition permission_denied : M unit :=
  ([ResponseSendMessage (Some no_permission_message) None], inr tt).

(** The run of [approve] that reports an unresolvable requester. *)
Definition requester_unresolved : M unit :=
  ([ResponseSendMessage (Some user_not_found_message) None], inr tt).

(** The integer a segment of a topic offers as user id, if any. *)
Definition segment_user_id (part : str) : option Z :=
  if str_contains (txt "User ID:") part
  then py_int (str_strip (List.last (str_split ":" part) []))
  else None.


Definition is_add_roles (e : Effect) : bool :=
  match e with AddRoles _ _ _ => true | _ => false end.

Definition is_channel_created (e : Effect) : bool :=
  match e with CreateTextChannel _ _ _ _ (Created _) => true | _ => false end.

(** The embed shows the role in a "Role Granted" field. *)
Definition shows_role (role : Role) (e : Embed) : bool :=
  existsb (fun f => str_eqb (field_name f) (txt "Role Granted") &&
                    str_eqb (field_value f) (role_mention role))
          (embed_fields e).

(** Every message sent to a channel during the run shows the role. *)
Definition sends_show_role (role : Role) (t : list Effect) : bool :=
  forallb (fun e => match e with
                    | ChannelSend _ _ embed _ => shows_role role embed
                    | _ => true
                    end) t.

(* ===================================================================== *)
(** ** A small guild used to exercise the statements *)
(* ===================================================================== *)

Definition everyone : Role := {| role_id := 1; role_name := txt "@everyone" |}.
Definition belgian_role : Role := {| role_id := 10; role_name := txt "Belgian" |}.
Definition border_control_role : Role := {| role_id := 11; role_name := txt "Border Control" |}.
Definition president_role : Role := {| role_id := 12; role_name := txt "President" |}.

Definition alice : Member :=
  {| member_id := 4242; member_name := txt "Alice"; member_roles := [everyone];
     administrator := false; avatar_url := txt "https://cdn.example/alice.png" |}.

Definition officer : Member :=
  {| member_id := 7; member_name := txt "Bob";
     member_roles := [everyone; border_control_role];
     administrator := false; avatar_url := txt "https://cdn.example/bob.png" |}.

Definition the_bot : Member :=
  {| member_id := 99; member_name := txt "gatekeeper"; member_roles := [everyone];
     administrator := false; avatar_url := txt "https://cdn.example/bot.png" |}.

Definition log_channel_ch : GuildChannel :=
  {| channel_id := 500; channel_name := txt "government-log"; channel_topic := None;
     bot_manage_channels := true |}.

Definition locked_category : GuildChannel :=
  {| channel_id := 600; channel_name := txt "Verification"; channel_topic := None;
     bot_manage_channels := false |}.

Definition welcome_ch : GuildChannel :=
  {| channel_id := 400; channel_name := txt "welcome"; channel_topic := None;
     bot_manage_channels := true |}.

Definition belgium : Guild :=
  {| default_role := everyone;
     me := the_bot;
     guild_roles := [everyone; belgian_role; border_control_role; president_role];
     guild_members := [alice; officer; the_bot];
     guild_channels := [welcome_ch; log_channel_ch; locked_category] |}.

Definition sample_roles : gmap string json :=
  list_to_map
    [ ("belgian", JInt 10); ("foreigner", JNull); ("border_control", JInt 11);
      ("minister_foreign_affairs", JNull); ("president", JInt 12);
      ("vice_president", JNull); ("government", JNull) ]%string.

(** A configuration with roles and a log channel, no category. *)
Definition sample_config : gmap string json :=
  list_to_map
    [ ("welcome_channel_id", JInt 400); ("verification_category_id", JNull);
      ("log_channel_id", JInt 500); ("roles", JObj sample_roles);
      ("welcome_message", JStr (txt "Welcome")); ("ticket_counter", JInt 0) ]%string.

(** The same without a log channel. *)
Definition quiet_config : gmap string json :=
  <["log_channel_id" := JNull]> sample_config.

(** The same with the tickets routed to a category the bot cannot manage. *)
Definition locked_config : gmap string json :=
  <["verification_category_id" := JInt 600]> sample_config.

(** A file written by an older version: [roles] lacks the moderator keys. *)
Definition partial_config : gmap string json :=
  {[ "roles" := JObj {[ "belgian" := JInt 10 ]} ]}%string.

(** The continuation bytes a text starts with. *)
Fixpoint continuation_bytes (s : str) : str :=
  match s with
  | c :: r => if is_continuation c then c :: continuation_bytes r else []
  | [] => []
  end.

(** A lower-casing table for the examples: it knows É and Ü and leaves any
    other character beyond ASCII as it is. *)
Definition sample_lower (before rest : str) : str :=
  match rest with
  | c :: r =>
      if is_ascii c || is_continuation c then []
      else
        let character := c :: continuation_bytes r in
        if str_eqb character (txt "É") then txt "é"
        else if str_eqb character (txt "Ü") then txt "ü"
        else character
  | [] => []
  end.

Definition friendly : Platform :=
  {| create_text_channel_result := Created 900;
     add_roles_result := RolesAdded;
     log_send_result := Sent;
     delete_result := Deleted;
     lower_beyond_ascii := sample_lower |}.

Definition strict : Platform :=
  {| create_text_channel_result := CreateForbidden (txt "403 Forbidden");
     add_roles_result := RolesForbidden;
     log_send_result := Sent;
     delete_result := Deleted;
     lower_beyond_ascii := sample_lower |}.

(** A member whose name has capitals beyond ASCII. *)
Definition ecole : Member :=
  {| member_id := 4343; member_name := txt "École Ünal"; member_roles := [everyone];
     administrator := false; avatar_url := txt "https://cdn.example/ecole.png" |}.

(** Alice clicking a button in the welcome channel. *)
Definition alice_click : Interaction :=
  {| guild := belgium; user := alice; channel := welcome_ch |}.

Definition ecole_click : Interaction :=
  {| guild := belgium; user := ecole; channel := welcome_ch |}.

Definition citizen_ticket : GuildChannel :=
  {| channel_id := 900; channel_name := txt "citizen-1-alice";
     channel_topic :=
       Some (txt "Verification request by Alice | Type: citizen | ID: 1 | User ID: 4242");
     bot_manage_channels := true |}.

Definition embassy_ticket : GuildChannel :=
  {| channel_id := 901; channel_name := txt "embassy-2-alice";
     channel_topic :=
       Some (txt "Verification request by Alice | Type: embassy | ID: 2 | User ID: 4242");
     bot_manage_channels := true |}.


(** The failure of a role assignment. *)
Definition grant_failed (res : AddRolesResult) : bool :=
  match res with RolesAdded => false | _ => true end.

(** The calls of a successful role assignment, if a role is to be given. *)
Definition grant_calls (member : Member) (role_to_give : option Role) : list Effect :=
  match role_to_give with
  | Some role => [AddRoles member role RolesAdded]
  | None => []
  end.

(** A run of ticket creation ended on one of the two permission errors: the
    platform refused the creation, or the private reply is one of the
    messages about the missing permission. *)
Definition permission_abort (t : list Effect) : bool :=
  existsb (fun e => match e with
                    | CreateTextChannel _ _ _ _ (CreateForbidden _) => true
                    | ResponseSendMessage (Some m) None =>
                        str_startswith (txt "I don't have permission to create channels") m
                    | _ => false
                    end) t.

Inductive Command : Type := Approve | Deny.

Definition run_command (c : Command) : Platform -> option (gmap string json) ->
                                       Interaction -> str -> M unit :=
  match c with
  | Approve => approve
  | Deny => deny
  end.

(** C9 in symbols: for some command and some pair of request types the
    permission test tells two tickets apart, turning an actor away in a
    ticket of the first type while letting the same actor through in a
    ticket of the second. *)
Definition authorization_differs_by_type : Prop :=
  exists (c : Command) (t1 t2 : RequestType) (p1 p2 : Platform)
         (file : option (gmap string json)) (g : Guild) (actor : Member)
         (ticket1 ticket2 : GuildChannel) (reason1 reason2 : str),
    is_ticket_channel (channel_name ticket1) = true /\
    request_type_of (channel_name ticket1) = type_name t1 /\
    is_ticket_channel (channel_name ticket2) = true /\
    request_type_of (channel_name ticket2) = type_name t2 /\
    run_command c p1 file {| guild := g; user := actor; channel := ticket1 |} reason1
      = permission_denied /\
    run_command c p2 file {| guild := g; user := actor; channel := ticket2 |} reason2
      <> permission_denied.

(** A command typed by [actor] in [ticket]. *)
Definition command_in (ticket : GuildChannel) (actor : Member) : Interaction :=
  {| guild := belgium; user := actor; channel := ticket |}.

(* ===================================================================== *)
(** ** Further notions: sequences of tickets, overwrites, messages *)
(* ===================================================================== *)

(** One click on a button of the welcome message: who clicked, the type
    the button passes on, and how the platform answers. *)
Record Click : Type := {
  click_platform : Platform;
  click_interaction : Interaction;
  click_type : str
}.

(** Ticket creations run one after the other, each on the config.json the
    one before left behind. *)
Fixpoint create_tickets (file : option (gmap string json)) (clicks : list Click)
  : list (M unit) :=
  match clicks with
  | [] => []
  | c :: cs =>
      let run := create_verification_channel (click_platform c) file
                   (click_interaction c) (click_type c) in
      run :: create_tickets (saved_config file run.1) cs
  end.

(** The ticket id a run of ticket creation wrote to config.json. *)
Definition saved_ticket_id (run : M unit) : option Z :=
  match run.1 with
  | SaveConfig config :: _ =>
      match config !! "ticket_counter"%string with
      | Some (JInt n) => Some n
      | _ => None
      end
  | _ => None
  end.

(** [overwrites.get(target)] *)
Fixpoint dict_get (k : Target) (d : list (Target * PermissionOverwrite))
  : option PermissionOverwrite :=
  match d with
  | [] => None
  | (k', v) :: d' => if target_eqb k' k then Some v else dict_get k d'
  end.

(** The id of the guild role a configured value resolves to, if any: the
    value is truthy and names a role of the guild. *)
Definition resolved_role (g : Guild) (rid : json) : option Z :=
  if truthy rid then role_id <$> get_role g rid else None.

(** The messages of a run that were posted in a given channel. *)
Definition sent_to (to : Z) (t : list Effect) : list Effect :=
  List.filter (fun e => match e with
                        | ChannelSend to' _ _ _ => to' =? to
                        | _ => false
                        end) t.

(** Whether the log block gets its message through: a log channel is
    configured, it is found in the guild, and the platform accepts the
    message. *)
Definition log_delivered (p : Platform) (config : gmap string json) (g : Guild) : bool :=
  truthy (config_get config "log_channel_id") &&
  match get_channel g (config_get config "log_channel_id") with
  | Some _ => match log_send_result p with Sent => true | _ => false end
  | None => false
  end.

(** The fields of the moderator's acknowledgment: the warning, when a log
    channel is configured and the message did not get through. *)
Definition expected_ack_fields (p : Platform) (config : gmap string json) (g : Guild)
  : list EmbedField :=
  if truthy (config_get config "log_channel_id") && negb (log_delivered p config g)
  then [warning_field] else [].

Definition is_blank (c : ascii) : bool := Ascii.eqb c " ".

(* ===================================================================== *)
(** ** The welcome message and its buttons *)
(* ===================================================================== *)

Inductive ButtonStyle : Type := success | primary | danger.

(** A button of [WelcomeView]: what it shows, the identifier that keeps it
    wired across restarts, and the request type its callback hands to
    [create_verification_channel]. *)
Record Button : Type := {
  button_label : str;
  button_style : ButtonStyle;
  button_custom_id : str;
  button_emoji : str;
  button_request_type : str
}.

Definition citizen_button : Button :=
  {| button_label := txt "Citizen"; button_style := success;
     button_custom_id := txt "welcome_citizen"; button_emoji := txt "🇧🇪";
     button_request_type := txt "citizen" |}.

Definition foreigner_button : Button :=
  {| button_label := txt "Foreigner"; button_style := primary;
     button_custom_id := txt "welcome_foreigner"; button_emoji := txt "🌍";
     button_request_type := txt "foreigner" |}.

Definition embassy_button : Button :=
  {| button_label := txt "Emergency Embassy Request"; button_style := danger;
     button_custom_id := txt "welcome_embassy"; button_emoji := txt "🚨";
     button_request_type := txt "embassy" |}.

Definition WelcomeView : list Button := [citizen_button; foreigner_button; embassy_button].


(** The embed of a welcome message; [welcome_description] is the value of
    config["welcome_message"] as it is handed to the embed. *)
Record WelcomeEmbed : Type := {
  welcome_title : str;
  welcome_description : json;
  welcome_color : Color;
  welcome_timestamp : bool;
  welcome_thumbnail : str;
  welcome_author_name : str;
  welcome_author_icon : str;
  welcome_footer : str
}.

(** The calls of the welcome handlers: a message posted in a channel, or
    the private preview. *)
Inductive WelcomeCall : Type :=
| WelcomeSend (to : Z) (content : str) (embed : WelcomeEmbed) (view : list Button)
| WelcomePreview (content : str) (embed : WelcomeEmbed) (view : list Button).

(** [on_member_join(member)]; [member_count] is member.guild.member_count. *)
Definition on_member_join (file : option (gmap string json)) (g : Guild)
  (member : Member) (member_count : Z) : list WelcomeCall * (Exn + unit) :=
  let config := load_config file in
  match getitem config "welcome_channel_id" with
  | inl e => ([], inl e)
  | inr welcome_channel_id =>
      if negb (truthy welcome_channel_id) then ([], inr tt)
      else
        match get_channel g welcome_channel_id with
        | None => ([], inr tt)
        | Some ch =>
            match getitem config "welcome_message" with
            | inl e => ([], inl e)
            | inr welcome_message =>
                ([WelcomeSend (channel_id ch) (member_mention member)
                    {| welcome_title := txt "🇧🇪 Welcome to Belgium!";
                       welcome_description := welcome_message;
                       welcome_color := gold;
                       welcome_timestamp := true;
                       welcome_thumbnail := avatar_url member;
                       welcome_author_name := member_name member;
                       welcome_author_icon := avatar_url member;
                       welcome_footer := txt "Member #" ++ py_str member_count |}
                    WelcomeView],
                 inr tt)
            end
        end
  end.


(* ===================================================================== *)
(** ** Set-up commands *)
(* ===================================================================== *)

(** The set-up commands are modelled by what they hand to [save_config] and
    by their private reply.  Their in-place update of the roles object also
    reaches the object DEFAULT_CONFIG holds when the loaded configuration
    shares it (no file, or a file without "roles"); the statements below
    concern the saved file and the reply only. *)

Inductive NoticeColor : Type := notice_green | notice_orange.

(** The embed of a set-up reply. *)
Record Notice : Type := {
  notice_title : str;
  notice_description : str;
  notice_color : NoticeColor
}.

Inductive SetupCall : Type :=
| SetupSave (config : gmap string json)
| SetupReply (embed : Notice).

(** The reply both [setup_roles] and [setup_channels] build from the lines
    of [updated]. *)
Definition setup_reply (done_title nothing : str) (updated : list str) : Notice :=
  match updated with
  | [] => {| notice_title := txt "ℹ️ No Changes"; notice_description := nothing;
             notice_color := notice_orange |}
  | _ => {| notice_title := done_title; notice_description := str_join nl updated;
            notice_color := notice_green |}
  end.

(** The optional arguments of [setup_roles]. *)
Record RoleChoices : Type := {
  choose_belgian : option Role;
  choose_foreigner : option Role;
  choose_border_control : option Role;
  choose_minister : option Role;
  choose_president : option Role;
  choose_vice_president : option Role;
  choose_government : option Role
}.

(** The seven [if role:] blocks, in order: key written, label shown, role
    given. *)
Definition role_updates (a : RoleChoices) : list (string * str * option Role) :=
  [ ("belgian"%string, txt "Belgian", choose_belgian a);
    ("foreigner"%string, txt "Foreigner", choose_foreigner a);
    ("border_control"%string, txt "Border Control", choose_border_control a);
    ("minister_foreign_affairs"%string, txt "Minister of Foreign Affairs", choose_minister a);
    ("president"%string, txt "President", choose_president a);
    ("vice_president"%string, txt "Vice President", choose_vice_president a);
    ("government"%string, txt "Government", choose_government a) ].

(** [config["roles"][key] = id] *)
Definition set_role (config : gmap string json) (key : string) (id : Z)
  : Exn + gmap string json :=
  match getitem config "roles" with
  | inr (JObj roles) => inr (<["roles"%string := JObj (<[key := JInt id]> roles)]> config)
  | inr _ => inl TypeError
  | inl e => inl e
  end.

(** One [if role:] block on the configuration and the lines of [updated]. *)
Definition apply_role (st : Exn + (gmap string json * list str))
  (u : string * str * option Role) : Exn + (gmap string json * list str) :=
  match st, u with
  | inl e, _ => inl e
  | inr (config, updated), (key, label, Some role) =>
      match set_role config key (role_id role) with
      | inr config' => inr (config', updated ++ [label ++ txt ": " ++ role_mention role])
      | inl e => inl e
      end
  | inr (config, updated), (_, _, None) => inr (config, updated)
  end.

(** [setup_roles(interaction, belgian, ..., government)] *)
Definition setup_roles (file : option (gmap string json)) (a : RoleChoices)
  : list SetupCall * (Exn + unit) :=
  match foldl apply_role (inr (load_config file, [])) (role_updates a) with
  | inl e => ([], inl e)
  | inr (config, updated) =>
      ([SetupSave config;
        SetupReply (setup_reply (txt "✅ Roles Updated")
                      (txt "No roles were provided to update.") updated)],
       inr tt)
  end.

(** The three [if channel:] blocks of [setup_channels]: key written and
    line shown for each channel given. *)
Definition channel_updates (welcome_channel verification_category log_channel
                             : option GuildChannel) : list (string * Z * str) :=
  match welcome_channel with
  | Some c => [("welcome_channel_id"%string, channel_id c,
                txt "Welcome Channel: " ++ channel_mention (channel_id c))]
  | None => []
  end ++
  match verification_category with
  | Some c => [("verification_category_id"%string, channel_id c,
                txt "Verification Category: " ++ channel_name c)]
  | None => []
  end ++
  match log_channel with
  | Some c => [("log_channel_id"%string, channel_id c,
                txt "Log Channel: " ++ channel_mention (channel_id c))]
  | None => []
  end.

(** [setup_channels(interaction, welcome_channel, verification_category,
    log_channel)] *)
Definition setup_channels (file : option (gmap string json))
  (welcome_channel verification_category log_channel : option GuildChannel)
  : list SetupCall * (Exn + unit) :=
  let updates := channel_updates welcome_channel verification_category log_channel in
  let config := foldl (fun config u => <[u.1.1 := JInt u.1.2]> config)
                  (load_config file) updates in
  ([SetupSave config;
    SetupReply (setup_reply (txt "✅ Channels Updated")
                  (txt "No channels were provided to update.") (map snd updates))],
   inr tt).


(** What config.json holds after a set-up command. *)
Definition setup_saved (file : option (gmap string json)) (t : list SetupCall)
  : option (gmap string json) :=
  foldl (fun f c => match c with SetupSave config => Some config | _ => f end) file t.

(** The role a call of [setup_roles] chooses for a key of the roles object,
    if any. *)
Definition chosen (a : RoleChoices) (key : string) : option Role :=
  match List.find (fun u => String.eqb u.1.1 key) (role_updates a) with
  | Some u => u.2
  | None => None
  end.

(* ===================================================================== *)
(** ** Start-up *)
(* ===================================================================== *)

Inductive Startup : Type :=
| Run (token : str)       (* bot.run(token) *)
| Exit (status : Z).      (* sys.exit(status) *)

(** The truth value of [os.getenv(...)] or of an argument: a non-empty
    string. *)
Definition token_given (token : option str) : bool :=
  match token with
  | Some (_ :: _) => true
  | _ => false
  end.

(** The entry point: [env_token] is os.getenv("DISCORD_BOT_TOKEN"), [argv]
    is sys.argv. *)
Definition main (env_token : option str) (argv : list str) : Startup :=
  let token :=
    if negb (token_given env_token) && (1 <? Z.of_nat (length argv))
    then argv !! 1%nat else env_token in
  match token with
  | Some (c :: s) => Run (c :: s)
  | _ => Exit 1
  end.

(** The roles object after one [if role:] block, and the line the block
    adds to [updated]. *)
Definition write_role (roles : gmap string json) (u : string * str * option Role)
  : gmap string json :=
  match u.2 with
  | Some role => <[u.1.1 := JInt (role_id role)]> roles
  | None => roles
  end.

Definition role_line (u : string * str * option Role) : list str :=
  match u.2 with
  | Some role => [u.1.2 ++ txt ": " ++ role_mention role]
  | None => []
  end.

(** No role is given to [setup_roles]. *)
Definition no_choice : RoleChoices :=
  {| choose_belgian := None; choose_foreigner := None; choose_border_control := None;
     choose_minister := None; choose_president := None; choose_vice_president := None;
     choose_government := None |}.


(** The keys of the roles object the moderation commands read. *)
Definition moderator_keys : list string :=
  ["border_control"; "minister_foreign_affairs"; "president"; "vice_president"]%string.

(** The value of a key of the roles object once [setup_roles] has run on a
    roles object [roles]. *)
Definition role_after (a : RoleChoices) (roles : gmap string json) (key : string) : json :=
  match chosen a key with
  | Some role => JInt (role_id role)
  | None => default JNull (roles !! key)
  end.

(** The channel a call of [setup_channels] gives for a top-level key of the
    configuration, if any. *)
Definition channel_choice (welcome_channel verification_category log_channel
                            : option GuildChannel) (key : string) : option GuildChannel :=
  if String.eqb key "welcome_channel_id" then welcome_channel
  else if String.eqb key "verification_category_id" then verification_category
  else if String.eqb key "log_channel_id" then log_channel
  else None.

(* ===================================================================== *)
(** ** The embedding at work *)
(* ===================================================================== *)

Example py_str_examples :
  py_str 1205 = txt "1205" /\ py_str (-30) = txt "-30" /\ py_str 0 = txt "0".
Proof. repeat split; reflexivity. Qed.

Example py_int_examples :
  py_int (txt " 1_0 ") = Some 10 /\ py_int (txt "_1") = None /\
  py_int (txt "1__0") = None /\ py_int (txt "-007") = Some (-7) /\
  py_int (txt "+ 5") = None /\ py_int [] = None /\ py_int (txt "1_") = None.
Proof. repeat split; reflexivity. Qed.

Example str_examples :
  str_split "|" (txt "a|b||") = [txt "a"; txt "b"; []; []] /\
  str_title (txt "a1b c-d") = txt "A1B C-D" /\
  str_strip (txt "  x y  ") = txt "x y" /\
  str_contains (txt "User ID:") (txt "xUser ID:") = true /\
  sanitize sample_lower (txt "citizen-7-Jean Luc") = txt "citizen-7-jean-luc".
Proof. repeat split; reflexivity. Qed.

(** Characters beyond ASCII: lengths and slices count characters, not
    bytes, and lower-casing goes through the interpreter's table. *)
Example unicode_examples :
  str_len (txt "École Ünal") = 10%nat /\ length (txt "École Ünal") = 12%nat /\
  take_chars 3 (txt "École Ünal") = txt "Éco" /\
  str_lower sample_lower (txt "École Ünal") = txt "école ünal" /\
  sanitize sample_lower (txt "citizen-1-École Ünal") = txt "citizen-1-école-ünal" /\
  sanitize sample_lower (concat (repeat (txt "🏰") 120)) = concat (repeat (txt "🏰") 100).
Proof. repeat split; vm_compute; reflexivity. Qed.

(** The loop over the topic keeps the last segment that parses. *)
Example topic_user_id_examples :
  topic_user_id (Some (txt "a | User ID: 5 | User ID: x")) = Some 5 /\
  topic_user_id (Some (txt "User ID: 5 | User ID: 6")) = Some 6 /\
  topic_user_id (Some (txt "no id here")) = None /\
  topic_user_id None = None.
Proof. repeat split; reflexivity. Qed.

(** Alice clicks "Citizen" with no category configured: the channel
    citizen-1-alice is created at the guild root with the metadata topic,
    and the border-control role is pinged. *)
Example citizen_ticket_scenario :
  match (create_verification_channel friendly (Some sample_config) alice_click
           (txt "citizen")).1 with
  | [SaveConfig saved; CreateTextChannel name category _ topic _;
     ChannelSend to content _ _; ResponseSendMessage _ _] =>
      saved !! "ticket_counter"%string = Some (JInt 1) /\
      name = txt "citizen-1-alice" /\ category = None /\
      topic = txt "Verification request by Alice | Type: citizen | ID: 1 | User ID: 4242" /\
      to = 900 /\ content = Some (txt "<@&11>")
  | _ => False
  end.
Proof. vm_compute. repeat split; reflexivity. Qed.

(** A command typed outside a ticket channel is turned down at once. *)
Example approve_outside_ticket :
  approve friendly (Some sample_config) (command_in welcome_ch officer) (txt "ok")
  = ([ResponseSendMessage (Some not_a_ticket_message) None], inr tt).
Proof. reflexivity. Qed.

(* ===================================================================== *)
(** ** Facts about strings and integers *)
(* ===================================================================== *)

Lemma code_ascii_of_N (n : N) : (n < 256)%N -> code (ascii_of_N n) = n.
Proof. intros H. unfold code. apply N_ascii_embedding. exact H. Qed.

(** The arithmetic on the character code and the look-up in the two
    alphabets give the same small letter. *)
Lemma lower_char_small_letter (c : ascii) : lower_char c = small_letter c.
Proof. destruct c as [[] [] [] [] [] [] [] []]; reflexivity. Qed.

Lemma lower_from_lowercased (beyond : str -> str -> str) (before s : str) :
  lower_from beyond before s = lowercased_from beyond before s.
Proof.
  revert before. induction s as [|c r IH]; intros before; [reflexivity|].
  cbn [lower_from lowercased_from]. rewrite !IH, lower_char_small_letter. reflexivity.
Qed.

Lemma str_replace_hyphenated (s : str) : str_replace " " "-" s = hyphenated s.
Proof.
  unfold str_replace, hyphenated. apply map_ext. intros c.
  destruct c as [[] [] [] [] [] [] [] []]; reflexivity.
Qed.

Lemma sanitize_spec (beyond : str -> str -> str) (s : str) :
  sanitize beyond s = take_chars 100 (hyphenated (lowercased beyond s)).
Proof.
  unfold sanitize, str_lower, lowercased.
  rewrite lower_from_lowercased, str_replace_hyphenated. reflexivity.
Qed.

(** A slice holds as many characters as asked for, or the whole text. *)
Lemma str_len_take_chars (n : nat) (s : str) :
  str_len (take_chars n s) = Nat.min n (str_len s).
Proof.
  unfold str_len. revert n. induction s as [|c r IH]; intros n; cbn [take_chars].
  - cbn. symmetry. apply Nat.min_0_r.
  - destruct (is_continuation c) eqn:Hc; cbn [List.filter]; rewrite ?Hc; cbn [negb].
    + apply IH.
    + destruct n as [|n]; [reflexivity|]. cbn [List.filter]. rewrite Hc. cbn [negb length].
      rewrite IH. reflexivity.
Qed.

Lemma hyphenated_no_space (s : str) : Forall (fun c => Ascii.eqb c " " = false) (hyphenated s).
Proof.
  unfold hyphenated. induction s as [|c r IH]; constructor; [|exact IH].
  destruct c as [[] [] [] [] [] [] [] []]; reflexivity.
Qed.

Lemma take_chars_Forall (P : ascii -> Prop) (n : nat) (s : str) :
  Forall P s -> Forall P (take_chars n s).
Proof.
  intros H. revert n. induction H as [|c r Hc _ IH]; intros n; cbn [take_chars];
    [constructor|].
  destruct (is_continuation c); [constructor; [exact Hc | apply IH]|].
  destruct n; constructor; [exact Hc | apply IH].
Qed.

Lemma str_eqb_eq (a b : str) : str_eqb a b = true <-> a = b.
Proof.
  revert b. induction a as [|x a IH]; intros [|y b]; simpl; try (split; congruence).
  rewrite andb_true_iff, IH, Ascii.eqb_eq. split.
  - intros [-> ->]. reflexivity.
  - intros E. injection E as -> ->. split; reflexivity.
Qed.

Lemma str_split_nonempty (sep : ascii) (s : str) : str_split sep s <> [].
Proof.
  destruct s as [|c s]; simpl; [discriminate|].
  destruct (Ascii.eqb c sep); [discriminate|].
  destruct (str_split sep s); discriminate.
Qed.

Lemma str_split_app (sep : ascii) (a b : str) :
  str_split sep (a ++ sep :: b) = str_split sep a ++ str_split sep b.
Proof.
  induction a as [|x a IH]; simpl.
  - rewrite Ascii.eqb_refl. reflexivity.
  - destruct (Ascii.eqb x sep); [rewrite IH; reflexivity|].
    rewrite IH. pose proof (str_split_nonempty sep a) as Hne.
    destruct (str_split sep a); [contradiction|reflexivity].
Qed.

Lemma str_split_none (sep : ascii) (s : str) :
  Forall (fun c => Ascii.eqb c sep = false) s -> str_split sep s = [s].
Proof.
  induction 1 as [|c s Hc _ IH]; simpl; [reflexivity|].
  rewrite Hc, IH. reflexivity.
Qed.

Lemma drop_while_none (f : ascii -> bool) (s : str) :
  Forall (fun c => f c = false) s -> drop_while f s = s.
Proof. destruct 1 as [|c s Hc _]; simpl; [reflexivity|]. rewrite Hc. reflexivity. Qed.

Lemma strip_with_none (f : ascii -> bool) (s : str) :
  Forall (fun c => f c = false) s -> strip_with f s = s.
Proof.
  intros H. unfold strip_with. rewrite (drop_while_none f s H).
  rewrite drop_while_none; [apply rev_involutive|].
  apply List.Forall_rev. exact H.
Qed.

Lemma is_digit_props (c : ascii) :
  is_digit c = true ->
  is_space c = false /\ is_c_space c = false /\ is_underscore c = false /\
  Ascii.eqb c "|" = false /\ Ascii.eqb c ":" = false /\
  Ascii.eqb c "-" = false /\ Ascii.eqb c "+" = false /\
  exists v, digit_val c = Some v.
Proof.
  destruct c as [[] [] [] [] [] [] [] []]; intros H; try discriminate H;
    repeat split; eexists; reflexivity.
Qed.

Lemma digit_char_val (k : N) :
  (k < 10)%N -> is_digit (digit_char k) = true /\ digit_val (digit_char k) = Some (Z.of_N k).
Proof.
  intros H. unfold is_digit, digit_val, in_range, digit_char.
  rewrite code_ascii_of_N by lia.
  assert ((48 <=? 48 + k)%N && (48 + k <=? 57)%N = true) as ->.
  { apply andb_true_iff. split; apply N.leb_le; lia. }
  split; [reflexivity|]. do 2 f_equal. lia.
Qed.

Lemma int_digits_snoc (s : str) (c : ascii) (v acc : Z) :
  Forall (fun x => is_digit x = true) s -> digit_val c = Some v -> is_underscore c = false ->
  int_digits acc (s ++ [c]) = option_map (fun x => 10 * x + v) (int_digits acc s).
Proof.
  intros Hs Hc Hu. revert acc.
  induction Hs as [|x s Hx _ IH]; intros acc; simpl.
  - rewrite Hu, Hc. reflexivity.
  - destruct (is_digit_props x Hx) as (_ & _ & -> & _ & _ & _ & _ & w & ->). apply IH.
Qed.

Lemma int_unsigned_snoc (s : str) (c : ascii) (v : Z) :
  s <> [] -> Forall (fun x => is_digit x = true) s ->
  digit_val c = Some v -> is_underscore c = false ->
  int_unsigned (s ++ [c]) = option_map (fun x => 10 * x + v) (int_unsigned s).
Proof.
  intros Hne Hs Hc Hu. destruct s as [|x s]; [contradiction|].
  inversion Hs as [|? ? Hx Hs']; subst. simpl.
  destruct (is_digit_props x Hx) as (_ & _ & _ & _ & _ & _ & _ & w & ->).
  apply int_digits_snoc; assumption.
Qed.

Lemma digits_of_S (fuel : nat) (n : N) :
  digits_of (S fuel) n =
  if (n <? 10)%N then [digit_char n]
  else digits_of fuel (n / 10)%N ++ [digit_char (n mod 10)%N].
Proof. reflexivity. Qed.

(** With enough fuel the digits are digits and read back as the number. *)
Lemma digits_of_spec (fuel : nat) (n : N) :
  (n < 2 ^ N.of_nat fuel)%N ->
  digits_of (S fuel) n <> [] /\
  Forall (fun x => is_digit x = true) (digits_of (S fuel) n) /\
  int_unsigned (digits_of (S fuel) n) = Some (Z.of_N n).
Proof.
  revert n. induction fuel as [|fuel IH]; intros n Hn.
  - assert (n = 0%N) as -> by (simpl in Hn; lia). simpl.
    repeat split; [discriminate | repeat constructor].
  - rewrite digits_of_S. destruct (N.ltb_spec n 10) as [Hlt|Hge].
    + destruct (digit_char_val n Hlt) as [Hd Hv].
      repeat split; [discriminate | repeat constructor; exact Hd |].
      unfold int_unsigned. rewrite Hv. reflexivity.
    + assert (n / 10 < 2 ^ N.of_nat fuel)%N as Hq.
      { rewrite Nat2N.inj_succ, N.pow_succ_r' in Hn.
        apply N.Div0.div_lt_upper_bound. lia. }
      destruct (IH _ Hq) as (Hne & Hall & Hval).
      assert (n mod 10 < 10)%N as Hm by (apply N.mod_lt; lia).
      destruct (digit_char_val _ Hm) as [Hd Hv].
      destruct (is_digit_props _ Hd) as (_ & _ & Hu & _).
      split; [|split].
      * intros E. apply app_eq_nil in E. destruct E as [_ E]. discriminate E.
      * apply Forall_app. split; [exact Hall | repeat constructor; exact Hd].
      * rewrite (int_unsigned_snoc _ _ _ Hne Hall Hv Hu), Hval. simpl. f_equal.
        pose proof (N.div_mod n 10 ltac:(lia)). lia.
Qed.

Lemma decimal_spec (n : N) :
  decimal n <> [] /\ Forall (fun x => is_digit x = true) (decimal n) /\
  int_unsigned (decimal n) = Some (Z.of_N n).
Proof.
  unfold decimal. apply digits_of_spec.
  rewrite N2Nat.id. apply N.size_gt.
Qed.

Lemma digits_not P (s : str) :
  (forall c, is_digit c = true -> P c = false) ->
  Forall (fun x => is_digit x = true) s -> Forall (fun c => P c = false) s.
Proof. intros HP. induction 1; constructor; auto. Qed.

Lemma py_int_decimal (n : N) : py_int (decimal n) = Some (Z.of_N n).
Proof.
  destruct (decimal_spec n) as (Hne & Hall & Hval). unfold py_int.
  rewrite strip_with_none.
  - destruct (decimal n) as [|c r]; [contradiction|].
    inversion Hall as [|? ? Hc _]; subst.
    destruct (is_digit_props c Hc) as (_ & _ & _ & _ & _ & -> & -> & _). exact Hval.
  - apply (digits_not is_c_space); [|exact Hall].
    intros c Hc. apply (is_digit_props c Hc).
Qed.

(** [int(str(z)) == z] *)
Lemma py_int_py_str (z : Z) : py_int (py_str z) = Some z.
Proof.
  destruct z as [|q|q]; cbn [py_str].
  - reflexivity.
  - rewrite py_int_decimal. reflexivity.
  - destruct (decimal_spec (Npos q)) as (Hne & Hall & Hval). unfold py_int.
    rewrite strip_with_none.
    + cbn [Ascii.eqb Bool.eqb]. rewrite Hval. reflexivity.
    + constructor; [reflexivity|]. apply (digits_not is_c_space); [|exact Hall].
      intros c Hc. apply (is_digit_props c Hc).
Qed.

Lemma is_int_char_props (c : ascii) :
  is_int_char c = true ->
  is_space c = false /\ Ascii.eqb c "|" = false /\ Ascii.eqb c ":" = false.
Proof.
  destruct c as [[] [] [] [] [] [] [] []]; intros H; try discriminate H;
    repeat split; reflexivity.
Qed.

(** What [str] writes for an integer: digits, after a sign at most. *)
Lemma py_str_chars (z : Z) : Forall (fun c => is_int_char c = true) (py_str z).
Proof.
  assert (forall n, Forall (fun c => is_int_char c = true) (decimal n)) as Hdec.
  { intros n. destruct (decimal_spec n) as (_ & Hall & _).
    induction Hall as [|c s Hc _ IH]; constructor; [|exact IH].
    unfold is_int_char. rewrite Hc. reflexivity. }
  destruct z; cbn [py_str]; [apply Hdec | apply Hdec |].
  constructor; [reflexivity | apply Hdec].
Qed.

Lemma int_chars_not P (s : str) :
  (forall c, is_int_char c = true -> P c = false) ->
  Forall (fun x => is_int_char x = true) s -> Forall (fun c => P c = false) s.
Proof. intros HP. induction 1; constructor; auto. Qed.

(** The last segment of a topic written at creation yields the user id,
    whatever the loop held before. *)
Lemma user_id_step_written (previous : option Z) (z : Z) :
  user_id_step previous (txt " User ID: " ++ py_str z) = Some z.
Proof.
  pose proof (py_str_chars z) as Hall.
  unfold user_id_step.
  assert (str_contains (txt "User ID:") (txt " User ID: " ++ py_str z) = true) as ->
    by reflexivity.
  change (txt " User ID: " ++ py_str z)
    with (txt " User ID" ++ ":"%char :: (" "%char :: py_str z)).
  rewrite str_split_app.
  rewrite (str_split_none ":" (" "%char :: py_str z)).
  - change (str_split ":" (txt " User ID")) with [txt " User ID"].
    cbn [app List.last]. unfold str_strip, strip_with.
    change (drop_while is_space (" "%char :: py_str z)) with (drop_while is_space (py_str z)).
    fold (strip_with is_space (py_str z)).
    rewrite strip_with_none.
    + rewrite py_int_py_str. reflexivity.
    + apply (int_chars_not is_space); [|exact Hall].
      intros c Hc. apply (is_int_char_props c Hc).
  - constructor; [reflexivity|].
    apply (int_chars_not (fun c => Ascii.eqb c ":")); [|exact Hall].
    intros c Hc. apply (is_int_char_props c Hc).
Qed.

(** Reading back the topic written by [create_verification_channel]. *)
Lemma topic_user_id_written (user_name request_type : str) (ticket_id user_id : Z) :
  topic_user_id (Some (ticket_topic user_name request_type ticket_id user_id)) = Some user_id.
Proof.
  unfold topic_user_id, ticket_topic. cbn [from_option id].
  pose proof (py_str_chars user_id) as Hall.
  set (d := py_str user_id) in *.
  change (txt " | User ID: " ++ d) with ([" "%char] ++ "|"%char :: (txt " User ID: " ++ d)).
  rewrite !app_assoc. rewrite str_split_app.
  rewrite (str_split_none "|" (txt " User ID: " ++ d)).
  - rewrite foldl_app. cbn [foldl]. subst d.
    rewrite user_id_step_written. reflexivity.
  - apply Forall_app. split; [repeat constructor|].
    apply (int_chars_not (fun c => Ascii.eqb c "|")); [|exact Hall].
    intros c Hc. apply (is_int_char_props c Hc).
Qed.

(** Lower-casing, replacing and slicing leave an ASCII prefix, short
    enough, in front of the text. *)
Lemma lower_from_ascii_prefix (beyond : str -> str -> str) (before pre rest : str) :
  forallb is_ascii pre = true ->
  lower_from beyond before (pre ++ rest)
  = map lower_char pre ++ lower_from beyond (before ++ pre) rest.
Proof.
  revert before. induction pre as [|c pre IH]; intros before H; cbn [app map forallb] in *.
  - rewrite app_nil_r. reflexivity.
  - apply andb_true_iff in H. destruct H as [Hc H]. cbn [lower_from]. rewrite Hc.
    rewrite (IH _ H), <- app_assoc. reflexivity.
Qed.

Lemma take_chars_prefix (n : nat) (pre rest : str) :
  forallb (fun c => negb (is_continuation c)) pre = true ->
  (length pre <= n)%nat ->
  take_chars n (pre ++ rest) = pre ++ take_chars (n - length pre) rest.
Proof.
  revert n. induction pre as [|c pre IH]; intros n H Hn; cbn [app length forallb] in *.
  - rewrite Nat.sub_0_r. reflexivity.
  - apply andb_true_iff in H. destruct H as [Hc H]. apply negb_true_iff in Hc.
    cbn [take_chars]. rewrite Hc. destruct n as [|n]; [lia|].
    rewrite IH by (exact H || lia). reflexivity.
Qed.

Lemma sanitized_ascii (pre : str) :
  forallb is_ascii pre = true ->
  forallb (fun c => negb (is_continuation c)) (str_replace " " "-" (map lower_char pre))
  = true.
Proof.
  induction pre as [|c pre IH]; intros H; [reflexivity|].
  cbn [forallb map str_replace] in *. apply andb_true_iff in H. destruct H as [Hc H].
  apply andb_true_iff. split; [|exact (IH H)].
  destruct c as [[] [] [] [] [] [] [] []]; try reflexivity; discriminate Hc.
Qed.

Lemma sanitize_ascii_prefix (beyond : str -> str -> str) (pre rest : str) :
  forallb is_ascii pre = true -> (length pre <=? 100)%nat = true ->
  exists tail,
    sanitize beyond (pre ++ rest) = str_replace " " "-" (map lower_char pre) ++ tail.
Proof.
  intros Ha Hl. apply Nat.leb_le in Hl. unfold sanitize, str_lower.
  rewrite (lower_from_ascii_prefix _ _ _ _ Ha).
  unfold str_replace at 1. rewrite map_app. fold (str_replace " " "-" (map lower_char pre)).
  rewrite take_chars_prefix.
  - eexists. reflexivity.
  - apply sanitized_ascii. exact Ha.
  - unfold str_replace. rewrite !length_map. exact Hl.
Qed.

Lemma ticket_channel_name_head (p : Platform) (t : RequestType) (ticket_id : Z)
  (user_name : str) :
  exists tail,
    ticket_channel_name p (type_name t) ticket_id user_name = type_name t ++ "-"%char :: tail.
Proof.
  unfold ticket_channel_name.
  destruct t; cbn [type_name];
    match goal with
    | |- context [sanitize ?b (?pre ++ ?rest)] =>
        destruct (sanitize_ascii_prefix b pre rest) as [tail ->]; [reflexivity..|]
    end;
    exists tail; reflexivity.
Qed.

(** The name written at creation starts with the request type and a hyphen. *)
Lemma ticket_channel_name_prefix (p : Platform) (t : RequestType) (ticket_id : Z)
  (user_name : str) :
  is_ticket_channel (ticket_channel_name p (type_name t) ticket_id user_name) = true /\
  request_type_of (ticket_channel_name p (type_name t) ticket_id user_name) = type_name t.
Proof.
  destruct (ticket_channel_name_head p t ticket_id user_name) as [tail ->].
  destruct t; split; reflexivity.
Qed.

(* ===================================================================== *)
(** ** Facts about ticket creation *)
(* ===================================================================== *)

Lemma routing_inv (p : Platform) (config : gmap string json) (request_type : str)
  (n : Z) (u : str) :
  (routing config request_type n u).1 = [] /\
  forall r, (routing config request_type n u).2 = inr r ->
            sanitize (lower_beyond_ascii p) (route_channel_name r)
            = ticket_channel_name p request_type n u.
Proof.
  unfold routing, ticket_channel_name.
  destruct (str_eqb request_type (txt "citizen"));
    [|destruct (str_eqb request_type (txt "foreigner"))];
    repeat match goal with
           | |- context [config_role ?c ?k] => destruct (config_role c k)
           end;
    unfold bind, lift, ret; cbn [fst snd app];
    (split; [reflexivity|]); intros r Hr; try discriminate Hr;
    injection Hr as <-; cbn [route_channel_name]; reflexivity.
Qed.

(** Every channel creation issued by the handler carries the ticket's name
    and topic, built from the id assigned by the counter. *)
Lemma create_call_inv (p : Platform) (file : option (gmap string json))
  (i : Interaction) (request_type name topic : str) (cat : option GuildChannel)
  (ow : list (Target * PermissionOverwrite)) (res : CreateResult) :
  In (CreateTextChannel name cat ow topic res)
     (create_verification_channel p file i request_type).1 ->
  exists n,
    next_ticket_id (load_config file) = inr n /\
    name = ticket_channel_name p request_type n (member_name (user i)) /\
    topic = ticket_topic (member_name (user i)) request_type n (member_id (user i)) /\
    res = create_text_channel_result p.
Proof.
  unfold create_verification_channel.
  destruct (next_ticket_id (load_config file)) as [e|n]; cbn; [tauto|].
  set (config := <["ticket_counter":=JInt n]> (load_config file)).
  destruct (routing_inv p config request_type n (member_name (user i))) as [Ht Hname].
  destruct (routing config request_type n (member_name (user i))) as [t [e|r]];
    cbn in Ht; subst t; cbn.
  { intros [H|[]]; discriminate H. }
  specialize (Hname r eq_refl).
  destruct (getitem config "verification_category_id") as [e|cid]; cbn.
  { intros [H|[]]; discriminate H. }
  destruct (if truthy cid then get_channel (guild i) cid else None) as [c|];
    [destruct (bot_manage_channels c)|];
    try destruct (create_text_channel_result p) as [new_id|e] eqn:Hres; cbn;
    intros H; repeat (destruct H as [H|H]; try discriminate H); try contradiction;
    inversion H; subst; exists n; rewrite Hname; repeat split; reflexivity.
Qed.


(* ===================================================================== *)
(** ** The ticket encoding *)
(* ===================================================================== *)



(** C1.  A channel created for a ticket resolves back to the ticket: its
    name passes the ticket-channel test and its prefix is the request type
    used at creation, and the user id read from its topic is the id of the
    requester; that id being non-zero, as every id of the platform is, the
    commands look up exactly the requester. *)
Theorem ticket_round_trip (p : Platform) (file : option (gmap string json))
  (i : Interaction) (t : RequestType) (name topic : str) (cat : option GuildChannel)
  (ow : list (Target * PermissionOverwrite)) (res : CreateResult) :
  In (CreateTextChannel name cat ow topic res)
     (create_verification_channel p file i (type_name t)).1 ->
  is_ticket_channel name = true /\
  request_type_of name = type_name t /\
  topic_user_id (Some topic) = Some (member_id (user i)) /\
  (member_id (user i) <> 0 ->
   forall g, requester_of g (Some topic) = get_member g (member_id (user i))).
Proof.
  intros H. destruct (create_call_inv _ _ _ _ _ _ _ _ _ H) as (n & _ & -> & -> & _).
  destruct (ticket_channel_name_prefix p t n (member_name (user i))) as [Hp Ht].
  repeat split; [exact Hp | exact Ht | apply topic_user_id_written |].
  intros Hnz g. unfold requester_of. rewrite topic_user_id_written.
  destruct (Z.eqb_spec (member_id (user i)) 0); [contradiction | reflexivity].
Qed.

Lemma ticket_round_trip_witness :
  is_ticket_channel (txt "citizen-1-alice") = true /\
  request_type_of (txt "citizen-1-alice") = type_name citizen /\
  topic_user_id
    (Some (txt "Verification request by Alice | Type: citizen | ID: 1 | User ID: 4242"))
  = Some (member_id (user alice_click)) /\
  (member_id (user alice_click) <> 0 ->
   forall g,
     requester_of g
       (Some (txt "Verification request by Alice | Type: citizen | ID: 1 | User ID: 4242"))
     = get_member g (member_id (user alice_click))).
Proof.
  eapply (ticket_round_trip friendly (Some sample_config) alice_click citizen).
  vm_compute. right. left. reflexivity.
Defined.

(* ===================================================================== *)
(** ** Facts about the moderation commands *)
(* ===================================================================== *)

Lemma id_in_holds (actor : Member) (rid : json) :
  id_in rid (map role_id (member_roles actor)) = holds_role actor rid.
Proof.
  destruct rid as [|z|s|o]; try reflexivity. simpl.
  induction (member_roles actor) as [|r l IH]; simpl; [reflexivity|].
  rewrite IH, (Z.eqb_sym z). reflexivity.
Qed.

Lemma has_permission_spec (roles : list json) (actor : Member) :
  has_permission roles (map role_id (member_roles actor)) =
  existsb (fun rid => truthy rid && holds_role actor rid) roles.
Proof.
  unfold has_permission. induction roles as [|rid roles IH]; simpl; [reflexivity|].
  destruct (truthy rid); simpl; rewrite IH; [rewrite id_in_holds|]; reflexivity.
Qed.

Lemma holds_none_unauthorized (roles : list json) (actor : Member) :
  holds_none roles actor = true -> administrator actor = false ->
  authorized roles actor = false.
Proof.
  unfold holds_none, authorized. intros Hnone ->. rewrite orb_false_r.
  induction roles as [|rid roles IH]; simpl in *; [reflexivity|].
  apply andb_true_iff in Hnone. destruct Hnone as [Hr Hrest].
  apply negb_true_iff in Hr. rewrite Hr, andb_false_r. simpl. apply IH. exact Hrest.
Qed.

(** The permission test of both commands, in the words of [authorized]. *)
Lemma permission_test (roles : list json) (actor : Member) :
  negb (has_permission roles (map role_id (member_roles actor))) && negb (administrator actor)
  = negb (authorized roles actor).
Proof. unfold authorized. rewrite has_permission_spec, negb_orb. reflexivity. Qed.

Ltac enter_command Hticket Hroles :=
  rewrite Hticket; cbn [negb]; rewrite Hroles; unfold bind at 1;
  cbn [fst snd app]; rewrite permission_test.

(** C2.  Inside a ticket channel, an actor who holds none of the four
    configured moderator roles and is not an administrator is rejected by
    [approve] and by [deny] with the permission error, whatever the reason
    text: the rejection is the only call issued. *)
Theorem unauthorized_actor_rejected (p : Platform) (file : option (gmap string json))
  (i : Interaction) (reason : str) (roles : list json) :
  is_ticket_channel (channel_name (channel i)) = true ->
  mod_roles (load_config file) = ([], inr roles) ->
  holds_none roles (user i) = true ->
  administrator (user i) = false ->
  approve p file i reason = permission_denied /\
  deny p file i reason = permission_denied.
Proof.
  intros Hticket Hroles Hnone Hadmin.
  pose proof (holds_none_unauthorized _ _ Hnone Hadmin) as Hno.
  split.
  - unfold approve. enter_command Hticket Hroles. rewrite Hno. reflexivity.
  - unfold deny. enter_command Hticket Hroles. rewrite Hno. reflexivity.
Qed.

Lemma unauthorized_actor_rejected_witness :
  approve friendly (Some sample_config) (command_in citizen_ticket alice) (txt "let me in")
    = permission_denied /\
  deny friendly (Some sample_config) (command_in citizen_ticket alice) (txt "let me in")
    = permission_denied.
Proof.
  apply (unauthorized_actor_rejected friendly (Some sample_config)
           (command_in citizen_ticket alice) (txt "let me in")
           [JInt 11; JNull; JInt 12; JNull]); reflexivity.
Defined.

(** The four lookups behind [mod_roles]. *)
Lemma mod_roles_reads (config : gmap string json) (bc mfa pr vp : json) :
  config_role config "border_control" = inr bc ->
  config_role config "minister_foreign_affairs" = inr mfa ->
  config_role config "president" = inr pr ->
  config_role config "vice_president" = inr vp ->
  mod_roles config = ([], inr [bc; mfa; pr; vp]).
Proof. intros Hbc Hmfa Hpr Hvp. unfold mod_roles. rewrite Hbc, Hmfa, Hpr, Hvp. reflexivity. Qed.

(** A [roles] object with all its keys is read without exception. *)
Lemma config_role_bound (config roles : gmap string json) (key : string) (value : json) :
  config !! "roles"%string = Some (JObj roles) -> roles !! key = Some value ->
  config_role config key = inr value.
Proof. intros Hroles Hkey. unfold config_role, getitem. rewrite Hroles, Hkey. reflexivity. Qed.

Lemma mod_roles_no_calls (config : gmap string json) : (mod_roles config).1 = [].
Proof.
  unfold mod_roles.
  repeat match goal with
         | |- context [config_role ?c ?k] => destruct (config_role c k)
         end; reflexivity.
Qed.

Lemma role_for_no_calls (config : gmap string json) (g : Guild) (request_type : str) :
  (role_for config g request_type).1 = [].
Proof.
  unfold role_for.
  repeat match goal with
         | |- context [if ?b then _ else _] => destruct b
         | |- context [config_role ?c ?k] => destruct (config_role c k)
         end; reflexivity.
Qed.

(** Without a configured log channel nothing is posted and nothing warned. *)
Lemma post_log_quiet (p : Platform) (config : gmap string json) (g : Guild) (e : Embed) :
  truthy (config_get config "log_channel_id") = false ->
  post_log p config g e = ([], inr false).
Proof. intros H. unfold post_log. rewrite H. reflexivity. Qed.

(** The log block never raises; what it issues is at most one message to the
    log channel, carrying the log embed, and console lines. *)
Lemma post_log_run (p : Platform) (config : gmap string json) (g : Guild) (e : Embed) :
  exists t posted,
    post_log p config g e = (t, inr posted) /\
    (forall x, In x t ->
       (exists lc, x = ChannelSend (channel_id lc) None e (log_send_result p)) \/
       (exists d, x = Print d)) /\
    (forall lc, truthy (config_get config "log_channel_id") = true ->
       get_channel g (config_get config "log_channel_id") = Some lc ->
       In (ChannelSend (channel_id lc) None e (log_send_result p)) t).
Proof.
  unfold post_log, config_get, getitem.
  destruct (config !! "log_channel_id"%string) as [v|]; cbn [default from_option id].
  2:{ exists [], false. cbn. repeat split; [tauto | discriminate]. }
  destruct (truthy v).
  2:{ exists [], false. cbn. repeat split; [tauto | discriminate]. }
  cbn [lift bind fst snd app].
  destruct (get_channel g v) as [lc|].
  - destruct (log_send_result p) as [| |err]; cbn;
      eexists _, _; (split; [reflexivity|]); split;
      try (intros x [<-|[<-|[]]] || intros x [<-|[]]; eauto);
      intros lc' _ E; inversion E; subst; left; reflexivity.
  - cbn. eexists _, _. split; [reflexivity|]. split.
    + intros x [<-|[]]. eauto.
    + intros lc' _ E. discriminate E.
Qed.

(** The delayed deletion: the pause, the deletion, then console lines. *)
Lemma delete_after_delay_run (p : Platform) (ticket : GuildChannel) (reason : str) :
  exists diag,
    delete_after_delay p ticket reason =
    (Sleep 30 :: ChannelDelete (channel_id ticket) reason (delete_result p) :: map Print diag,
     inr tt).
Proof.
  unfold delete_after_delay.
  destruct (delete_result p) as [|e|e]; cbn.
  - exists []. reflexivity.
  - exists [CouldNotDeleteChannel e]. reflexivity.
  - exists [CouldNotDeleteChannel e]. reflexivity.
Qed.

(** The announcement of an approval, call by call. *)
Lemma approve_announce_run (p : Platform) (config : gmap string json) (i : Interaction)
  (reason : str) (member : Member) (request_type : str) (role_to_give : option Role) :
  exists log posted diag,
    post_log p config (guild i)
      (approve_log_embed (user i) member request_type reason role_to_give)
    = (log, inr posted) /\
    (forall x, In x log ->
       (exists lc, x = ChannelSend (channel_id lc) None
                         (approve_log_embed (user i) member request_type reason role_to_give)
                         (log_send_result p)) \/
       (exists d, x = Print d)) /\
    (forall lc, truthy (config_get config "log_channel_id") = true ->
       get_channel (guild i) (config_get config "log_channel_id") = Some lc ->
       In (ChannelSend (channel_id lc) None
             (approve_log_embed (user i) member request_type reason role_to_give)
             (log_send_result p)) log) /\
    approve_announce p config i reason member request_type role_to_give =
    (ChannelSend (channel_id (channel i)) (Some (member_mention member))
       (approve_user_embed request_type role_to_give) Sent
     :: log ++
     ResponseSendMessage None
       (Some (approve_mod_embed (user i) member request_type reason
                (negb posted && truthy (config_get config "log_channel_id")))) ::
     Sleep 30 ::
     ChannelDelete (channel_id (channel i))
       (txt "Verification approved by " ++ member_name (user i)) (delete_result p) ::
     map Print diag,
     inr tt).
Proof.
  destruct (post_log_run p config (guild i)
              (approve_log_embed (user i) member request_type reason role_to_give))
    as (log & posted & Hlog & Hin & Hsent).
  destruct (delete_after_delay_run p (channel i)
              (txt "Verification approved by " ++ member_name (user i))) as (diag & Hdel).
  exists log, posted, diag. repeat split; [exact Hlog | exact Hin | exact Hsent |].
  unfold approve_announce. rewrite Hlog, Hdel. reflexivity.
Qed.

(** What [deny] does once the actor passed the permission test. *)
Lemma deny_run (p : Platform) (file : option (gmap string json)) (i : Interaction)
  (reason : str) (roles : list json) :
  is_ticket_channel (channel_name (channel i)) = true ->
  mod_roles (load_config file) = ([], inr roles) ->
  authorized roles (user i) = true ->
  exists log posted diag,
    post_log p (load_config file) (guild i)
      (deny_log_embed (user i) (requester_of (guild i) (channel_topic (channel i)))
         (request_type_of (channel_name (channel i))) reason)
    = (log, inr posted) /\
    deny p file i reason =
    (ChannelSend (channel_id (channel i))
       (option_map member_mention (requester_of (guild i) (channel_topic (channel i))))
       (deny_user_embed (request_type_of (channel_name (channel i)))) Sent
     :: log ++
     ResponseSendMessage None
       (Some (deny_mod_embed (user i) (requester_of (guild i) (channel_topic (channel i)))
                (request_type_of (channel_name (channel i))) reason
                (negb posted && truthy (config_get (load_config file) "log_channel_id")))) ::
     Sleep 30 ::
     ChannelDelete (channel_id (channel i))
       (txt "Verification denied by " ++ member_name (user i)) (delete_result p) ::
     map Print diag,
     inr tt).
Proof.
  intros Hticket Hroles Hauth.
  destruct (post_log_run p (load_config file) (guild i)
              (deny_log_embed (user i) (requester_of (guild i) (channel_topic (channel i)))
                 (request_type_of (channel_name (channel i))) reason))
    as (log & posted & Hlog & _).
  destruct (delete_after_delay_run p (channel i)
              (txt "Verification denied by " ++ member_name (user i))) as (diag & Hdel).
  exists log, posted, diag. split; [exact Hlog|].
  unfold deny. enter_command Hticket Hroles. rewrite Hauth. cbn [negb].
  cbv zeta. rewrite Hlog, Hdel. reflexivity.
Qed.

(** What [approve] does once the actor passed the permission test. *)
Lemma approve_authorized (p : Platform) (file : option (gmap string json))
  (i : Interaction) (reason : str) (roles : list json) :
  is_ticket_channel (channel_name (channel i)) = true ->
  mod_roles (load_config file) = ([], inr roles) ->
  authorized roles (user i) = true ->
  approve p file i reason =
  match topic_user_id (channel_topic (channel i)) with
  | None => requester_unresolved
  | Some user_id =>
      if user_id =? 0 then requester_unresolved
      else match get_member (guild i) user_id with
           | None => ([ResponseSendMessage (Some member_left_message) None], inr tt)
           | Some member => approve_grant p (load_config file) i reason member
           end
  end.
Proof.
  intros Hticket Hroles Hauth.
  unfold approve. enter_command Hticket Hroles. rewrite Hauth. cbn [negb].
  destruct (topic_user_id (channel_topic (channel i))) as [user_id|]; [|reflexivity].
  destruct (user_id =? 0); [reflexivity|].
  destruct (get_member (guild i) user_id) as [member|]; [|reflexivity].
  destruct (approve_grant p (load_config file) i reason member) as [t r]. reflexivity.
Qed.

Lemma requester_of_some (g : Guild) (topic : option str) (member : Member) :
  requester_of g topic = Some member ->
  exists user_id,
    topic_user_id topic = Some user_id /\ (user_id =? 0) = false /\
    get_member g user_id = Some member.
Proof.
  unfold requester_of. destruct (topic_user_id topic) as [user_id|]; [|discriminate].
  destruct (user_id =? 0) eqn:E; [discriminate|]. intros H. exists user_id. auto.
Qed.


(* ===================================================================== *)
(** ** Damaged ticket metadata *)
(* ===================================================================== *)




(* ===================================================================== *)
(** ** Approval: role assignment, announcement, log *)
(* ===================================================================== *)

Lemma approve_resolved (p : Platform) (file : option (gmap string json))
  (i : Interaction) (reason : str) (roles : list json) (member : Member) :
  is_ticket_channel (channel_name (channel i)) = true ->
  mod_roles (load_config file) = ([], inr roles) ->
  authorized roles (user i) = true ->
  requester_of (guild i) (channel_topic (channel i)) = Some member ->
  approve p file i reason = approve_grant p (load_config file) i reason member.
Proof.
  intros Hticket Hroles Hauth Hreq.
  destruct (requester_of_some _ _ _ Hreq) as (user_id & Hid & Hnz & Hmem).
  rewrite (approve_authorized p file i reason roles Hticket Hroles Hauth).
  rewrite Hid, Hnz, Hmem. reflexivity.
Qed.

Lemma approve_grant_run (p : Platform) (config : gmap string json) (i : Interaction)
  (reason : str) (member : Member) (role_to_give : option Role) :
  role_for config (guild i) (request_type_of (channel_name (channel i)))
    = ([], inr role_to_give) ->
  approve_grant p config i reason member =
  match role_to_give with
  | None =>
      approve_announce p config i reason member
        (request_type_of (channel_name (channel i))) None
  | Some role =>
      match add_roles_result p with
      | RolesAdded =>
          (AddRoles member role RolesAdded ::
             (approve_announce p config i reason member
                (request_type_of (channel_name (channel i))) (Some role)).1,
           (approve_announce p config i reason member
                (request_type_of (channel_name (channel i))) (Some role)).2)
      | RolesForbidden =>
          ([AddRoles member role RolesForbidden;
            ResponseSendMessage (Some (role_forbidden_message role)) None], inr tt)
      | RolesHTTPException e =>
          ([AddRoles member role (RolesHTTPException e);
            ResponseSendMessage (Some (role_failed_message e)) None], inr tt)
      end
  end.
Proof.
  intros Hrole. unfold approve_grant. rewrite Hrole. unfold bind at 1. cbn [fst snd app].
  destruct role_to_give as [role|].
  - destruct (add_roles_result p); reflexivity.
  - destruct (approve_announce p config i reason member
                (request_type_of (channel_name (channel i))) None). reflexivity.
Qed.

(** C8.  With no log channel configured, an authorized [deny] and an
    authorized [approve] whose requester is a member and whose role
    assignment, if any, succeeded run the whole decision flow and end
    normally: the notification in the ticket, the acknowledgment to the
    moderator without any field (so without a warning), the pause and the
    deletion; nothing is sent to a log channel. *)
Theorem no_log_channel_flow (p : Platform) (file : option (gmap string json))
  (i : Interaction) (reason : str) (roles : list json) :
  is_ticket_channel (channel_name (channel i)) = true ->
  mod_roles (load_config file) = ([], inr roles) ->
  authorized roles (user i) = true ->
  truthy (config_get (load_config file) "log_channel_id") = false ->
  let request_type := request_type_of (channel_name (channel i)) in
  let requester := requester_of (guild i) (channel_topic (channel i)) in
  (exists diag,
     deny p file i reason =
     (ChannelSend (channel_id (channel i)) (option_map member_mention requester)
        (deny_user_embed request_type) Sent ::
      ResponseSendMessage None
        (Some (deny_mod_embed (user i) requester request_type reason false)) ::
      Sleep 30 ::
      ChannelDelete (channel_id (channel i))
        (txt "Verification denied by " ++ member_name (user i)) (delete_result p) ::
      map Print diag,
      inr tt)) /\
  embed_fields (deny_mod_embed (user i) requester request_type reason false) = [] /\
  forall (member : Member) (role_to_give : option Role),
    requester = Some member ->
    role_for (load_config file) (guild i) request_type = ([], inr role_to_give) ->
    role_to_give = None \/ add_roles_result p = RolesAdded ->
    (exists diag,
       approve p file i reason =
       (grant_calls member role_to_give ++
        ChannelSend (channel_id (channel i)) (Some (member_mention member))
          (approve_user_embed request_type role_to_give) Sent ::
        ResponseSendMessage None
          (Some (approve_mod_embed (user i) member request_type reason false)) ::
        Sleep 30 ::
        ChannelDelete (channel_id (channel i))
          (txt "Verification approved by " ++ member_name (user i)) (delete_result p) ::
        map Print diag,
        inr tt)) /\
    embed_fields (approve_mod_embed (user i) member request_type reason false) = [].
Proof.
  intros Hticket Hroles Hauth Hquiet request_type requester.
  split; [|split; [reflexivity|]].
  - destruct (deny_run p file i reason roles Hticket Hroles Hauth)
      as (log & posted & diag & Hlog & Hdeny).
    rewrite (post_log_quiet _ _ _ _ Hquiet) in Hlog. inversion Hlog; subst log posted.
    rewrite Hquiet in Hdeny. exists diag. exact Hdeny.
  - intros member role_to_give Hreq Hrole Hgrant. split; [|reflexivity].
    rewrite (approve_resolved p file i reason roles member Hticket Hroles Hauth Hreq).
    rewrite (approve_grant_run p _ i reason member role_to_give Hrole).
    destruct (approve_announce_run p (load_config file) i reason member request_type
                role_to_give) as (log & posted & diag & Hlog & _ & _ & Hrun).
    rewrite (post_log_quiet _ _ _ _ Hquiet) in Hlog. inversion Hlog; subst log posted.
    rewrite Hquiet in Hrun. exists diag.
    destruct role_to_give as [role|].
    + destruct Hgrant as [Hnone|Hadded]; [discriminate Hnone|].
      rewrite Hadded. fold request_type. rewrite Hrun. reflexivity.
    + fold request_type. rewrite Hrun. reflexivity.
Qed.

Lemma no_log_channel_flow_witness :
  (exists diag,
     deny friendly (Some quiet_config) (command_in citizen_ticket officer) (txt "forged") =
     (ChannelSend 900 (Some (member_mention alice)) (deny_user_embed (txt "citizen")) Sent ::
      ResponseSendMessage None
        (Some (deny_mod_embed officer (Some alice) (txt "citizen") (txt "forged") false)) ::
      Sleep 30 ::
      ChannelDelete 900 (txt "Verification denied by Bob") Deleted ::
      map Print diag,
      inr tt)) /\
  (exists diag,
     approve friendly (Some quiet_config) (command_in citizen_ticket officer) (txt "forged") =
     (grant_calls alice (Some belgian_role) ++
      ChannelSend 900 (Some (member_mention alice))
        (approve_user_embed (txt "citizen") (Some belgian_role)) Sent ::
      ResponseSendMessage None
        (Some (approve_mod_embed officer alice (txt "citizen") (txt "forged") false)) ::
      Sleep 30 ::
      ChannelDelete 900 (txt "Verification approved by Bob") Deleted ::
      map Print diag,
      inr tt)).
Proof.
  destruct (no_log_channel_flow friendly (Some quiet_config)
              (command_in citizen_ticket officer) (txt "forged")
              [JInt 11; JNull; JInt 12; JNull]
              eq_refl eq_refl eq_refl eq_refl) as (Hdeny & _ & Happrove).
  split; [exact Hdeny|].
  apply (Happrove alice (Some belgian_role)); [reflexivity | reflexivity | right; reflexivity].
Defined.

Lemma command_unauthorized (c : Command) (p : Platform) (file : option (gmap string json))
  (i : Interaction) (reason : str) (roles : list json) :
  is_ticket_channel (channel_name (channel i)) = true ->
  mod_roles (load_config file) = ([], inr roles) ->
  authorized roles (user i) = false ->
  run_command c p file i reason = permission_denied.
Proof.
  intros Hticket Hroles Hno. destruct c; cbn [run_command].
  - unfold approve. enter_command Hticket Hroles. rewrite Hno. reflexivity.
  - unfold deny. enter_command Hticket Hroles. rewrite Hno. reflexivity.
Qed.

Lemma command_raises (c : Command) (p : Platform) (file : option (gmap string json))
  (i : Interaction) (reason : str) (e : Exn) :
  is_ticket_channel (channel_name (channel i)) = true ->
  (mod_roles (load_config file)).2 = inl e ->
  run_command c p file i reason = ([], inl e).
Proof.
  intros Hticket Hraise. pose proof (mod_roles_no_calls (load_config file)) as Hcalls.
  destruct (mod_roles (load_config file)) as [t r] eqn:Hroles.
  cbn in Hraise, Hcalls. subst t r.
  destruct c; cbn [run_command]; [unfold approve | unfold deny];
    rewrite Hticket; cbn [negb]; rewrite Hroles; reflexivity.
Qed.

Lemma announce_no_add_roles (p : Platform) (config : gmap string json) (i : Interaction)
  (reason : str) (member : Member) (request_type : str) (role_to_give : option Role)
  (m : Member) (r : Role) (res : AddRolesResult) :
  ~ In (AddRoles m r res)
       (approve_announce p config i reason member request_type role_to_give).1.
Proof.
  destruct (approve_announce_run p config i reason member request_type role_to_give)
    as (log & posted & diag & _ & Hin & _ & ->).
  cbn [fst]. intros [H|H]; [discriminate H|].
  apply in_app_or in H. destruct H as [H|H].
  - destruct (Hin _ H) as [[lc E]|[d E]]; discriminate E.
  - destruct H as [H|[H|[H|H]]]; try discriminate H.
    apply in_map_iff in H. destruct H as (d & E & _). discriminate E.
Qed.

Lemma approve_grant_failure (p : Platform) (config : gmap string json) (i : Interaction)
  (reason : str) (member m : Member) (r : Role) (res : AddRolesResult) :
  In (AddRoles m r res) (approve_grant p config i reason member).1 ->
  grant_failed res = true ->
  exists message,
    approve_grant p config i reason member =
    ([AddRoles m r res; ResponseSendMessage (Some message) None], inr tt).
Proof.
  pose proof (role_for_no_calls config (guild i)
                (request_type_of (channel_name (channel i)))) as Hcalls.
  destruct (role_for config (guild i) (request_type_of (channel_name (channel i))))
    as [t [e|role_to_give]] eqn:Hrole; cbn in Hcalls; subst t.
  { unfold approve_grant. rewrite Hrole. cbn. tauto. }
  rewrite (approve_grant_run p config i reason member role_to_give Hrole).
  destruct role_to_give as [role|].
  - destruct (add_roles_result p) as [| |e]; cbn [fst].
    + intros [H|H] Hfail.
      * inversion H; subst. discriminate Hfail.
      * exfalso. exact (announce_no_add_roles _ _ _ _ _ _ _ _ _ _ H).
    + intros [H|[H|[]]] _; [|discriminate H]. inversion H; subst. eauto.
    + intros [H|[H|[]]] _; [|discriminate H]. inversion H; subst. eauto.
  - intros H. exfalso. exact (announce_no_add_roles _ _ _ _ _ _ _ _ _ _ H).
Qed.

(** Where [approve] can issue a role assignment at all: only in its last
    phase, for a resolved member. *)
Lemma approve_add_roles_inv (p : Platform) (file : option (gmap string json))
  (i : Interaction) (reason : str) (m : Member) (r : Role) (res : AddRolesResult) :
  In (AddRoles m r res) (approve p file i reason).1 ->
  exists member,
    approve p file i reason = approve_grant p (load_config file) i reason member.
Proof.
  destruct (is_ticket_channel (channel_name (channel i))) eqn:Hticket.
  2:{ unfold approve. rewrite Hticket. cbn. intros [H|[]]. discriminate H. }
  pose proof (mod_roles_no_calls (load_config file)) as Hcalls.
  destruct (mod_roles (load_config file)) as [t [e|roles]] eqn:Hroles;
    cbn in Hcalls; subst t.
  { assert ((mod_roles (load_config file)).2 = inl e) as Hraise
      by (rewrite Hroles; reflexivity).
    pose proof (command_raises Approve p file i reason e Hticket Hraise) as E.
    cbn [run_command] in E. rewrite E. cbn. tauto. }
  destruct (authorized roles (user i)) eqn:Hauth.
  2:{ pose proof (command_unauthorized Approve p file i reason roles Hticket Hroles Hauth)
        as E.
      cbn [run_command] in E. rewrite E. cbn. intros [H|[]]. discriminate H. }
  rewrite (approve_authorized p file i reason roles Hticket Hroles Hauth).
  destruct (topic_user_id (channel_topic (channel i))) as [user_id|];
    [destruct (user_id =? 0); [|destruct (get_member (guild i) user_id) as [member|]]|];
    try (cbn; intros [H|[]]; discriminate H).
  intros _. exists member. reflexivity.
Qed.

(** C5.  When the role assignment of an approval fails, the run consists of
    the refused assignment and the private error reply, and ends there: no
    notification, no log entry, no pause and no deletion. *)
Theorem role_grant_failure_aborts (p : Platform) (file : option (gmap string json))
  (i : Interaction) (reason : str) (member : Member) (role : Role)
  (res : AddRolesResult) :
  In (AddRoles member role res) (approve p file i reason).1 ->
  grant_failed res = true ->
  exists message,
    approve p file i reason =
    ([AddRoles member role res; ResponseSendMessage (Some message) None], inr tt).
Proof.
  intros Hin Hfail.
  destruct (approve_add_roles_inv p file i reason member role res Hin) as (m & Heq).
  rewrite Heq in Hin |- *.
  exact (approve_grant_failure p _ i reason m member role res Hin Hfail).
Qed.

Lemma role_grant_failure_aborts_witness :
  exists message,
    approve strict (Some sample_config) (command_in citizen_ticket officer) (txt "fine") =
    ([AddRoles alice belgian_role RolesForbidden;
      ResponseSendMessage (Some message) None], inr tt).
Proof.
  apply (role_grant_failure_aborts strict (Some sample_config)
           (command_in citizen_ticket officer) (txt "fine") alice belgian_role RolesForbidden).
  - vm_compute. left. reflexivity.
  - reflexivity.
Defined.

Lemma str_eqb_refl (s : str) : str_eqb s s = true.
Proof. apply str_eqb_eq. reflexivity. Qed.

Lemma str_startswith_split (prefix s : str) :
  str_startswith prefix s = true -> exists rest, s = prefix ++ rest.
Proof.
  revert s. induction prefix as [|x prefix IH]; intros s H.
  - exists s. reflexivity.
  - destruct s as [|y s]; [discriminate H|]. cbn in H.
    apply andb_true_iff in H. destruct H as [Hxy Hrest].
    apply Ascii.eqb_eq in Hxy. subst y.
    destruct (IH s Hrest) as (rest & ->). exists rest. reflexivity.
Qed.

Lemma citizen_ticket_name (name : str) :
  str_startswith (txt "citizen-") name = true ->
  is_ticket_channel name = true /\ request_type_of name = txt "citizen".
Proof.
  intros H. split.
  - unfold is_ticket_channel. cbn [existsb TICKET_PREFIXES]. rewrite H. reflexivity.
  - destruct (str_startswith_split _ _ H) as (rest & ->). reflexivity.
Qed.

Lemma embassy_ticket_name (name : str) :
  str_startswith (txt "embassy-") name = true ->
  is_ticket_channel name = true /\ request_type_of name = txt "embassy".
Proof.
  intros H. split.
  - unfold is_ticket_channel. cbn [existsb TICKET_PREFIXES]. rewrite H.
    rewrite !orb_true_r. reflexivity.
  - destruct (str_startswith_split _ _ H) as (rest & ->). reflexivity.
Qed.

Lemma shows_role_user_embed (request_type : str) (role : Role) :
  shows_role role (approve_user_embed request_type (Some role)) = true.
Proof.
  unfold shows_role, approve_user_embed, with_role, add_field, role_granted_field.
  cbn. rewrite str_eqb_refl. reflexivity.
Qed.

Lemma shows_role_log_embed (moderator member : Member) (request_type reason : str)
  (role : Role) :
  shows_role role (approve_log_embed moderator member request_type reason (Some role)) = true.
Proof.
  unfold shows_role, approve_log_embed, with_role, add_field, role_granted_field.
  cbn. rewrite str_eqb_refl. reflexivity.
Qed.

(** C4.  An embassy ticket: [approve] never assigns a role.  A citizen
    ticket with the belgian role configured and resolvable, approved by an
    authorized actor while the requester is a member: the one role
    assignment issued is that of the belgian role to the requester; once
    the platform accepts it, the notification posted in the ticket shows
    the role, every message sent during the run shows it, and the log
    channel, when configured and found, is sent the log embed showing it. *)
Theorem approve_grants_by_type (p : Platform) (file : option (gmap string json))
  (i : Interaction) (reason : str) :
  (str_startswith (txt "embassy-") (channel_name (channel i)) = true ->
   forall m r res, ~ In (AddRoles m r res) (approve p file i reason).1) /\
  (forall (roles : list json) (belgian : json) (role : Role) (member : Member),
     str_startswith (txt "citizen-") (channel_name (channel i)) = true ->
     mod_roles (load_config file) = ([], inr roles) ->
     authorized roles (user i) = true ->
     config_role (load_config file) "belgian" = inr belgian ->
     get_role (guild i) belgian = Some role ->
     requester_of (guild i) (channel_topic (channel i)) = Some member ->
     exists rest,
       (approve p file i reason).1 = AddRoles member role (add_roles_result p) :: rest /\
       (forall m r res, ~ In (AddRoles m r res) rest) /\
       (add_roles_result p = RolesAdded ->
        exists rest',
          rest = ChannelSend (channel_id (channel i)) (Some (member_mention member))
                   (approve_user_embed (txt "citizen") (Some role)) Sent :: rest' /\
          shows_role role (approve_user_embed (txt "citizen") (Some role)) = true /\
          shows_role role
            (approve_log_embed (user i) member (txt "citizen") reason (Some role)) = true /\
          sends_show_role role rest = true /\
          forall lc,
            truthy (config_get (load_config file) "log_channel_id") = true ->
            get_channel (guild i) (config_get (load_config file) "log_channel_id") = Some lc ->
            In (ChannelSend (channel_id lc) None
                  (approve_log_embed (user i) member (txt "citizen") reason (Some role))
                  (log_send_result p)) rest')).
Proof.
  split.
  - intros Hname m r res Hin.
    destruct (embassy_ticket_name _ Hname) as [_ Htype].
    destruct (approve_add_roles_inv p file i reason m r res Hin) as (member & Heq).
    rewrite Heq in Hin.
    assert (role_for (load_config file) (guild i)
              (request_type_of (channel_name (channel i))) = ([], inr None)) as Hrole
      by (rewrite Htype; reflexivity).
    rewrite (approve_grant_run p _ i reason member None Hrole) in Hin.
    exact (announce_no_add_roles _ _ _ _ _ _ _ _ _ _ Hin).
  - intros roles belgian role member Hname Hroles Hauth Hbelgian Hget Hreq.
    destruct (citizen_ticket_name _ Hname) as [Hticket Htype].
    rewrite (approve_resolved p file i reason roles member Hticket Hroles Hauth Hreq).
    assert (role_for (load_config file) (guild i)
              (request_type_of (channel_name (channel i))) = ([], inr (Some role))) as Hrole.
    { rewrite Htype. unfold role_for. cbn [str_eqb list_ascii_of_string Ascii.eqb Bool.eqb andb].
      rewrite Hbelgian. cbn. rewrite Hget. reflexivity. }
    rewrite (approve_grant_run p _ i reason member (Some role) Hrole). rewrite Htype.
    destruct (approve_announce_run p (load_config file) i reason member (txt "citizen")
                (Some role)) as (log & posted & diag & _ & Hin & Hsent & Hrun).
    destruct (add_roles_result p) as [| |e] eqn:Hres; cbn [fst].
    + eexists. split; [reflexivity|]. split.
      { intros m r res H. exact (announce_no_add_roles _ _ _ _ _ _ _ _ _ _ H). }
      intros _. rewrite Hrun. cbn [fst]. eexists. split; [reflexivity|].
      split; [apply shows_role_user_embed|]. split; [apply shows_role_log_embed|]. split.
      * unfold sends_show_role. cbn [forallb]. rewrite shows_role_user_embed. cbn [andb].
        rewrite forallb_app. apply andb_true_iff. split.
        { apply forallb_forall. intros x Hx.
          destruct (Hin x Hx) as [[lc ->]|[d ->]]; [apply shows_role_log_embed|reflexivity]. }
        cbn [forallb andb]. apply forallb_forall. intros x Hx.
        apply in_map_iff in Hx. destruct Hx as (d & <- & _). reflexivity.
      * intros lc Hcfg Hlc. apply in_or_app. left. exact (Hsent lc Hcfg Hlc).
    + eexists. split; [reflexivity|]. split; [|discriminate].
      intros m r res [H|[]]. discriminate H.
    + eexists. split; [reflexivity|]. split; [|discriminate].
      intros m r res [H|[]]. discriminate H.
Qed.

Lemma approve_grants_by_type_witness :
  (forall m r res,
     ~ In (AddRoles m r res)
          (approve friendly (Some sample_config) (command_in embassy_ticket officer)
             (txt "urgent")).1) /\
  exists rest,
    (approve friendly (Some sample_config) (command_in citizen_ticket officer)
       (txt "id verified")).1
    = AddRoles alice belgian_role RolesAdded :: rest /\
    sends_show_role belgian_role rest = true /\
    In (ChannelSend 500 None
          (approve_log_embed officer alice (txt "citizen") (txt "id verified")
             (Some belgian_role)) Sent) rest.
Proof.
  split.
  - apply (proj1 (approve_grants_by_type friendly (Some sample_config)
                    (command_in embassy_ticket officer) (txt "urgent"))).
    reflexivity.
  - destruct (proj2 (approve_grants_by_type friendly (Some sample_config)
                       (command_in citizen_ticket officer) (txt "id verified"))
                [JInt 11; JNull; JInt 12; JNull] (JInt 10) belgian_role alice
                eq_refl eq_refl eq_refl eq_refl eq_refl eq_refl)
      as (rest & Htrace & _ & Hflow).
    destruct (Hflow eq_refl) as (rest' & Hrest & _ & _ & Hshow & Hlog).
    exists rest. split; [exact Htrace|]. split; [exact Hshow|].
    rewrite Hrest. right. apply (Hlog log_channel_ch); reflexivity.
Defined.

(* ===================================================================== *)
(** ** The ticket counter *)
(* ===================================================================== *)

Lemma next_ticket_id_inv (config : gmap string json) (m : Z) :
  next_ticket_id config = inr m ->
  exists n, config !! "ticket_counter"%string = Some (JInt n) /\ m = n + 1.
Proof.
  unfold next_ticket_id, getitem.
  destruct (config !! "ticket_counter"%string) as [[|n|s|o]|]; try discriminate.
  intros H. inversion H. exists n. split; reflexivity.
Qed.

Lemma created_message_not_permission (new_id : Z) :
  str_startswith (txt "I don't have permission to create channels")
    (channel_created_message new_id) = false.
Proof. reflexivity. Qed.

(** The runs of ticket creation, by the place where they end. *)
Lemma create_cases (p : Platform) (file : option (gmap string json)) (i : Interaction)
  (request_type : str) (run : M unit) :
  run = create_verification_channel p file i request_type ->
  run.1 = [] \/
  exists n,
    load_config file !! "ticket_counter"%string = Some (JInt n) /\
    let saved := SaveConfig (<["ticket_counter"%string := JInt (n + 1)]> (load_config file)) in
    run.1 = [saved] \/
    (exists c, run.1 = [saved; ResponseSendMessage (Some (category_permission_message c)) None]) \/
    (exists name cat ow topic e,
       run.1 = [saved; CreateTextChannel name cat ow topic (CreateForbidden e);
                ResponseSendMessage (Some (create_forbidden_message cat e)) None]) \/
    (exists name cat ow topic new_id content embed,
       run.1 = [saved; CreateTextChannel name cat ow topic (Created new_id);
                ChannelSend new_id content embed Sent;
                ResponseSendMessage (Some (channel_created_message new_id)) None]).
Proof.
  unfold create_verification_channel, save_config.
  destruct (next_ticket_id (load_config file)) as [e|m] eqn:Hm; [intros ->; left; reflexivity|].
  destruct (next_ticket_id_inv _ _ Hm) as (n & Hn & ->).
  unfold lift, bind at 1. cbn [fst snd app].
  set (config := <["ticket_counter"%string := JInt (n + 1)]> (load_config file)).
  destruct (routing_inv p config request_type (n + 1) (member_name (user i))) as [Ht _].
  destruct (routing config request_type (n + 1) (member_name (user i))) as [t [e|r]];
    cbn in Ht; subst t.
  { intros ->. right. exists n. split; [exact Hn|]. left. reflexivity. }
  destruct (getitem config "verification_category_id") as [e|cid].
  { intros ->. right. exists n. split; [exact Hn|]. left. reflexivity. }
  unfold call, bind. cbn [fst snd app].
  destruct (if truthy cid then get_channel (guild i) cid else None) as [c|];
    [destruct (bot_manage_channels c)|];
    try destruct (create_text_channel_result p) as [new_id|err];
    cbn [fst snd app]; intros ->; right; exists n; (split; [exact Hn|]); right;
    cbn [fst]; eauto 12.
Qed.

(** C10.  A run of ticket creation that ends on a permission error (the
    category pre-check, or the platform refusing the creation) has already
    written the configuration with the counter advanced by one: that write
    is the first call of the run, it is what config.json holds afterwards,
    and no channel was created. *)
Theorem counter_saved_before_permission_abort (p : Platform)
  (file : option (gmap string json)) (i : Interaction) (request_type : str) :
  permission_abort (create_verification_channel p file i request_type).1 = true ->
  exists n rest,
    load_config file !! "ticket_counter"%string = Some (JInt n) /\
    (create_verification_channel p file i request_type).1 =
      SaveConfig (<["ticket_counter"%string := JInt (n + 1)]> (load_config file)) :: rest /\
    saved_config file (create_verification_channel p file i request_type).1 =
      Some (<["ticket_counter"%string := JInt (n + 1)]> (load_config file)) /\
    (<["ticket_counter"%string := JInt (n + 1)]> (load_config file))
      !! "ticket_counter"%string = Some (JInt (n + 1)) /\
    forall e, In e (create_verification_channel p file i request_type).1 ->
              is_channel_created e = false.
Proof.
  destruct (create_cases p file i request_type _ eq_refl) as [H|(n & Hn & H)].
  { rewrite H. discriminate. }
  assert ((<["ticket_counter"%string := JInt (n + 1)]> (load_config file))
            !! "ticket_counter"%string = Some (JInt (n + 1))) as Hsaved
    by apply lookup_insert_eq.
  cbv zeta in H.
  destruct H as [H|[(c & H)|[(name & cat & ow & topic & e & H)|
                             (name & cat & ow & topic & new_id & content & embed & H)]]];
    rewrite H; cbn [permission_abort existsb orb];
    rewrite ?created_message_not_permission; try discriminate;
    intros _; exists n; eexists; (split; [exact Hn|]); (split; [reflexivity|]);
    (split; [reflexivity|]); (split; [exact Hsaved|]);
    intros x Hx; repeat (destruct Hx as [<-|Hx]; [reflexivity|]); contradiction.
Qed.

Lemma counter_saved_before_permission_abort_witness :
  exists n rest,
    load_config (Some locked_config) !! "ticket_counter"%string = Some (JInt n) /\
    (create_verification_channel friendly (Some locked_config) alice_click (txt "citizen")).1 =
      SaveConfig (<["ticket_counter"%string := JInt (n + 1)]>
                    (load_config (Some locked_config))) :: rest /\
    saved_config (Some locked_config)
      (create_verification_channel friendly (Some locked_config) alice_click
         (txt "citizen")).1 =
      Some (<["ticket_counter"%string := JInt (n + 1)]> (load_config (Some locked_config))) /\
    (<["ticket_counter"%string := JInt (n + 1)]> (load_config (Some locked_config)))
      !! "ticket_counter"%string = Some (JInt (n + 1)) /\
    forall e,
      In e (create_verification_channel friendly (Some locked_config) alice_click
              (txt "citizen")).1 ->
      is_channel_created e = false.
Proof.
  apply (counter_saved_before_permission_abort friendly (Some locked_config) alice_click
           (txt "citizen")).
  reflexivity.
Defined.

(* ===================================================================== *)
(** ** Loading the configuration *)
(* ===================================================================== *)

Lemma merge_default_union (config defaults : gmap string json) (item : string * json) :
  merge_default config item ∪ defaults = config ∪ <[item.1 := item.2]> defaults.
Proof.
  destruct item as [k v]. unfold merge_default. cbn [fst snd].
  apply map_eq. intros j. rewrite !lookup_union.
  destruct (decide (j = k)) as [->|Hne].
  - destruct (config !! k) as [w|] eqn:Hk.
    + rewrite Hk, lookup_insert_eq. destruct (defaults !! k); reflexivity.
    + rewrite !lookup_insert_eq. destruct (defaults !! k); reflexivity.
  - destruct (config !! k) as [w|] eqn:Hk.
    + rewrite lookup_insert_ne by congruence. reflexivity.
    + rewrite !lookup_insert_ne by congruence. reflexivity.
Qed.

Lemma merge_loop_union (items : list (string * json)) (config : gmap string json) :
  foldl merge_default config items = config ∪ list_to_map items.
Proof.
  revert config. induction items as [|item items IH]; intros config; cbn [foldl].
  - cbn. rewrite (right_id ∅ (∪)). reflexivity.
  - rewrite IH, merge_default_union. destruct item. reflexivity.
Qed.

(** What the merge of [load_config] amounts to: the loaded object, completed
    at its top level by the bindings of DEFAULT_CONFIG. *)
Lemma load_config_union (config : gmap string json) :
  load_config (Some config) = config ∪ DEFAULT_CONFIG.
Proof. unfold load_config, DEFAULT_CONFIG. apply merge_loop_union. Qed.

Lemma load_config_top_level (file : option (gmap string json)) (key : string) (value : json) :
  In (key, value) DEFAULT_CONFIG_items ->
  is_Some (load_config file !! key) /\
  (forall config, file = Some config -> config !! key = None ->
                  load_config file !! key = Some value).
Proof.
  intros Hin.
  assert (DEFAULT_CONFIG !! key = Some value) as Hdef.
  { cbn in Hin. repeat (destruct Hin as [E|Hin]; [inversion E; subst; reflexivity|]).
    contradiction. }
  destruct file as [config|].
  - rewrite load_config_union, lookup_union, Hdef. split.
    + destruct (config !! key); cbn; eauto.
    + intros config' E Hnone. inversion E; subst. rewrite Hnone. reflexivity.
  - cbn [load_config]. rewrite Hdef. split; [eauto|]. intros config E. discriminate E.
Qed.

(** C7, the failing input.  A config.json whose [roles] object holds the
    belgian role only: the merge keeps that object as it is, so the keys of
    the default [roles] are missing from the result, the first lookup of a
    moderator role raises KeyError, and [approve] ends on that exception
    before any call.  The top-level keys, in contrast, are all filled. *)
Theorem load_config_leaves_nested_roles_unmerged :
  load_config (Some partial_config) !! "roles"%string
    = Some (JObj {[ "belgian"%string := JInt 10 ]}) /\
  config_role (load_config (Some partial_config)) "border_control"
    = inl (KeyError "border_control") /\
  config_role DEFAULT_CONFIG "border_control" = inr JNull /\
  load_config (Some partial_config) !! "ticket_counter"%string = Some (JInt 0) /\
  approve friendly (Some partial_config) (command_in citizen_ticket officer) (txt "ok")
    = ([], inl (KeyError "border_control")).
Proof. repeat split; vm_compute; reflexivity. Qed.

(* ===================================================================== *)
(** ** Who may decide *)
(* ===================================================================== *)

Lemma approve_grant_not_denied (p : Platform) (config : gmap string json)
  (i : Interaction) (reason : str) (member : Member) :
  approve_grant p config i reason member <> permission_denied.
Proof.
  pose proof (role_for_no_calls config (guild i)
                (request_type_of (channel_name (channel i)))) as Hcalls.
  destruct (role_for config (guild i) (request_type_of (channel_name (channel i))))
    as [t [e|role_to_give]] eqn:Hrole; cbn in Hcalls; subst t.
  { unfold approve_grant. rewrite Hrole. discriminate. }
  rewrite (approve_grant_run p config i reason member role_to_give Hrole).
  destruct role_to_give as [role|].
  - destruct (add_roles_result p); discriminate.
  - destruct (approve_announce_run p config i reason member
                (request_type_of (channel_name (channel i))) None)
      as (log & posted & diag & _ & _ & _ & ->).
    discriminate.
Qed.

(** A command turns the actor away exactly when the four moderator roles
    are read from the configuration and the actor is not authorized by
    them: the ticket plays no part. *)
Lemma command_rejects_iff (c : Command) (p : Platform) (file : option (gmap string json))
  (i : Interaction) (reason : str) :
  is_ticket_channel (channel_name (channel i)) = true ->
  run_command c p file i reason = permission_denied <->
  exists roles,
    mod_roles (load_config file) = ([], inr roles) /\ authorized roles (user i) = false.
Proof.
  intros Hticket. split.
  - pose proof (mod_roles_no_calls (load_config file)) as Hcalls.
    destruct (mod_roles (load_config file)) as [t [e|roles]] eqn:Hroles;
      cbn in Hcalls; subst t.
    { rewrite (command_raises c p file i reason e Hticket) by (rewrite Hroles; reflexivity).
      discriminate. }
    destruct (authorized roles (user i)) eqn:Hauth; [|eauto].
    intros Hrej. exfalso. destruct c; cbn [run_command] in Hrej.
    + rewrite (approve_authorized p file i reason roles Hticket Hroles Hauth) in Hrej.
      destruct (topic_user_id (channel_topic (channel i))) as [user_id|];
        [destruct (user_id =? 0); [|destruct (get_member (guild i) user_id) as [member|]]|];
        try discriminate Hrej.
      exact (approve_grant_not_denied _ _ _ _ _ Hrej).
    + destruct (deny_run p file i reason roles Hticket Hroles Hauth)
        as (log & posted & diag & _ & Hdeny).
      rewrite Hdeny in Hrej. discriminate Hrej.
  - intros (roles & Hroles & Hauth).
    exact (command_unauthorized c p file i reason roles Hticket Hroles Hauth).
Qed.

(** C9, as stated, fails: no command and no pair of request types exist for
    which the permission test treats two tickets differently. *)
Lemma authorization_same_for_every_type : ~ authorization_differs_by_type.
Proof.
  intros (c & t1 & t2 & p1 & p2 & file & g & actor & ticket1 & ticket2 & reason1 & reason2
          & Hticket1 & _ & Hticket2 & _ & Hrej & Hacc).
  apply Hacc.
  apply (command_rejects_iff c p2 file
           {| guild := g; user := actor; channel := ticket2 |} reason2 Hticket2).
  apply (command_rejects_iff c p1 file
           {| guild := g; user := actor; channel := ticket1 |} reason1 Hticket1).
  exact Hrej.
Qed.

(** C9, amended.  The permission test of [approve] and [deny] accepts the
    same roles in every ticket: an actor is turned away in one ticket
    exactly when turned away in any other, whatever their request types.
    What differs by request type is the list of roles notified and given
    access when the ticket is created: border_control for citizen and
    foreigner tickets; minister_foreign_affairs, president and
    vice_president for embassy tickets. *)
Theorem authorization_independent_of_type (c : Command) (p1 p2 : Platform)
  (file : option (gmap string json)) (g : Guild) (actor : Member)
  (ticket1 ticket2 : GuildChannel) (reason1 reason2 : str) :
  is_ticket_channel (channel_name ticket1) = true ->
  is_ticket_channel (channel_name ticket2) = true ->
  (run_command c p1 file {| guild := g; user := actor; channel := ticket1 |} reason1
     = permission_denied <->
   run_command c p2 file {| guild := g; user := actor; channel := ticket2 |} reason2
     = permission_denied) /\
  forall (config : gmap string json) (n : Z) (u : str) (bc mfa pr vp : json),
    config_role config "border_control" = inr bc ->
    config_role config "minister_foreign_affairs" = inr mfa ->
    config_role config "president" = inr pr ->
    config_role config "vice_president" = inr vp ->
    (exists r, routing config (type_name citizen) n u = ([], inr r) /\
               route_role_ids r = [bc]) /\
    (exists r, routing config (type_name foreigner) n u = ([], inr r) /\
               route_role_ids r = [bc]) /\
    (exists r, routing config (type_name embassy) n u = ([], inr r) /\
               route_role_ids r = [mfa; pr; vp]).
Proof.
  intros Hticket1 Hticket2. split.
  - rewrite (command_rejects_iff c p1 file
               {| guild := g; user := actor; channel := ticket1 |} reason1 Hticket1).
    rewrite (command_rejects_iff c p2 file
               {| guild := g; user := actor; channel := ticket2 |} reason2 Hticket2).
    reflexivity.
  - intros config n u bc mfa pr vp Hbc Hmfa Hpr Hvp.
    unfold routing. cbn [type_name str_eqb list_ascii_of_string Ascii.eqb Bool.eqb andb].
    rewrite Hbc, Hmfa, Hpr, Hvp. cbn.
    repeat split; eexists; (split; [reflexivity|reflexivity]).
Qed.

Lemma authorization_independent_of_type_witness :
  (run_command Approve friendly (Some sample_config)
     {| guild := belgium; user := alice; channel := citizen_ticket |} (txt "a")
     = permission_denied <->
   run_command Approve strict (Some sample_config)
     {| guild := belgium; user := alice; channel := embassy_ticket |} (txt "b")
     = permission_denied) /\
  (exists r, routing sample_config (type_name citizen) 1 (txt "Alice") = ([], inr r) /\
             route_role_ids r = [JInt 11]) /\
  (exists r, routing sample_config (type_name embassy) 1 (txt "Alice") = ([], inr r) /\
             route_role_ids r = [JNull; JInt 12; JNull]).
Proof.
  destruct (authorization_independent_of_type Approve friendly strict (Some sample_config)
              belgium alice citizen_ticket embassy_ticket (txt "a") (txt "b")
              eq_refl eq_refl) as [Hsame Hrouting].
  split; [exact Hsame|].
  destruct (Hrouting sample_config 1 (txt "Alice") (JInt 11) JNull (JInt 12) JNull
              eq_refl eq_refl eq_refl eq_refl) as (Hc & _ & He).
  split; [exact Hc | exact He].
Defined.

(* ===================================================================== *)
(** ** More on the configuration store *)
(* ===================================================================== *)

(** X1.  What [load_config] returns, key by key: the binding of the file
    when the file has one, the binding of DEFAULT_CONFIG otherwise; values
    of the file, nested objects included, are never touched. *)
Theorem load_config_lookup (file : option (gmap string json)) (key : string) :
  load_config file !! key =
  match file with
  | Some config =>
      match config !! key with
      | Some v => Some v
      | None => DEFAULT_CONFIG !! key
      end
  | None => DEFAULT_CONFIG !! key
  end.
Proof.
  destruct file as [config|]; [|reflexivity].
  rewrite load_config_union, lookup_union.
  destruct (config !! key), (DEFAULT_CONFIG !! key); reflexivity.
Qed.

Lemma default_keys_bound (file : option (gmap string json)) (key : string) :
  is_Some (DEFAULT_CONFIG !! key) -> is_Some (load_config file !! key).
Proof.
  intros [v Hv]. destruct file as [config|]; [|cbn; eauto].
  rewrite load_config_union, lookup_union, Hv.
  destruct (config !! key); cbn; eauto.
Qed.

Lemma load_config_complete (config : gmap string json) :
  (forall key, is_Some (DEFAULT_CONFIG !! key) -> is_Some (config !! key)) ->
  load_config (Some config) = config.
Proof.
  intros Hall. rewrite load_config_union. apply map_eq. intros key.
  rewrite lookup_union. destruct (config !! key) as [v|] eqn:Hk.
  - destruct (DEFAULT_CONFIG !! key); reflexivity.
  - destruct (DEFAULT_CONFIG !! key) as [d|] eqn:Hd; [|reflexivity].
    destruct (Hall key) as [w Hw]; [eauto|]. congruence.
Qed.

Lemma load_config_insert (file : option (gmap string json)) (key : string) (value : json) :
  load_config (Some (<[key := value]> (load_config file))) = <[key := value]> (load_config file).
Proof.
  apply load_config_complete. intros k Hk.
  destruct (decide (key = k)) as [->|Hne].
  - rewrite lookup_insert_eq. eauto.
  - rewrite lookup_insert_ne by exact Hne. apply default_keys_bound. exact Hk.
Qed.

(** X2.  A configuration the bot saved is loaded back as it was saved:
    loading is idempotent, and the loaded configuration with one top-level
    key rewritten, which is what the handlers save, loads unchanged. *)
Theorem load_config_saved (file : option (gmap string json)) :
  load_config (Some (load_config file)) = load_config file /\
  forall (key : string) (value : json),
    load_config (Some (<[key := value]> (load_config file)))
    = <[key := value]> (load_config file).
Proof.
  split.
  - apply load_config_complete. intros k Hk. apply default_keys_bound. exact Hk.
  - intros key value. apply load_config_insert.
Qed.

(* ===================================================================== *)
(** ** Tickets in sequence *)
(* ===================================================================== *)

Lemma next_ticket_id_int (config : gmap string json) (n : Z) :
  config !! "ticket_counter"%string = Some (JInt n) -> next_ticket_id config = inr (n + 1).
Proof. intros H. unfold next_ticket_id, getitem. rewrite H. reflexivity. Qed.

(** With an integer counter, a run of ticket creation saves the counter
    advanced by one, first of all and once. *)
Lemma create_saves (p : Platform) (file : option (gmap string json)) (i : Interaction)
  (request_type : str) (n : Z) :
  load_config file !! "ticket_counter"%string = Some (JInt n) ->
  exists rest,
    (create_verification_channel p file i request_type).1 =
      SaveConfig (<["ticket_counter"%string := JInt (n + 1)]> (load_config file)) :: rest /\
    saved_config file (create_verification_channel p file i request_type).1 =
      Some (<["ticket_counter"%string := JInt (n + 1)]> (load_config file)).
Proof.
  intros Hn.
  destruct (create_cases p file i request_type _ eq_refl) as [H|(n' & Hn' & H)].
  { exfalso. revert H. unfold create_verification_channel, save_config.
    rewrite (next_ticket_id_int _ _ Hn). unfold lift, call, bind at 1 2.
    cbn [fst snd app]. discriminate. }
  assert (n' = n) as -> by congruence.
  cbv zeta in H.
  destruct H as [H|[(c & H)|[(name & cat & ow & topic & e & H)|
                             (name & cat & ow & topic & new_id & content & embed & H)]]];
    rewrite H; eexists; split; reflexivity.
Qed.

(** The configuration on which the [k]-th creation of a sequence runs. *)
Lemma create_tickets_lookup (clicks : list Click) (file : option (gmap string json))
  (n : Z) (k : nat) (click : Click) :
  load_config file !! "ticket_counter"%string = Some (JInt n) ->
  clicks !! k = Some click ->
  exists file_k,
    load_config file_k !! "ticket_counter"%string = Some (JInt (n + Z.of_nat k)) /\
    create_tickets file clicks !! k =
      Some (create_verification_channel (click_platform click) file_k
              (click_interaction click) (click_type click)).
Proof.
  revert file n k. induction clicks as [|c cs IH]; intros file n k Hn Hk; [discriminate Hk|].
  destruct k as [|k]; cbn in Hk.
  - inversion Hk; subst c. exists file. split; [|reflexivity].
    rewrite Z.add_0_r. exact Hn.
  - cbn [create_tickets]. cbn [lookup list_lookup].
    destruct (create_saves (click_platform c) file (click_interaction c) (click_type c) n Hn)
      as (rest & _ & Hsaved).
    rewrite Hsaved.
    destruct (IH (Some (<["ticket_counter"%string := JInt (n + 1)]> (load_config file)))
                (n + 1) k) as (file_k & Hfk & Hrun).
    + rewrite load_config_insert. apply lookup_insert_eq.
    + exact Hk.
    + exists file_k. split; [|exact Hrun].
      rewrite Hfk. do 2 f_equal. lia.
Qed.

(** X3.  Tickets created one after the other get consecutive ids: starting
    from a counter [n], the [k]-th creation (counting from zero) saves the
    counter [n + k + 1], whatever the platform answers, and any channel it
    creates carries that id in its name and in its topic. *)
Theorem sequential_ticket_ids (clicks : list Click) (file : option (gmap string json))
  (n : Z) (k : nat) (click : Click) :
  load_config file !! "ticket_counter"%string = Some (JInt n) ->
  clicks !! k = Some click ->
  exists run,
    create_tickets file clicks !! k = Some run /\
    saved_ticket_id run = Some (n + Z.of_nat k + 1) /\
    forall name cat ow topic res,
      In (CreateTextChannel name cat ow topic res) run.1 ->
      name = ticket_channel_name (click_platform click) (click_type click)
               (n + Z.of_nat k + 1) (member_name (user (click_interaction click))) /\
      topic = ticket_topic (member_name (user (click_interaction click))) (click_type click)
                (n + Z.of_nat k + 1) (member_id (user (click_interaction click))).
Proof.
  intros Hn Hk.
  destruct (create_tickets_lookup clicks file n k click Hn Hk) as (file_k & Hfk & Hrun).
  eexists. split; [exact Hrun|]. split.
  - destruct (create_saves (click_platform click) file_k (click_interaction click)
                (click_type click) _ Hfk) as (rest & Hfirst & _).
    unfold saved_ticket_id. rewrite Hfirst, lookup_insert_eq. reflexivity.
  - intros name cat ow topic res Hin.
    destruct (create_call_inv _ _ _ _ _ _ _ _ _ Hin) as (m & Hm & -> & -> & _).
    rewrite (next_ticket_id_int _ _ Hfk) in Hm. inversion Hm. split; reflexivity.
Qed.

Lemma sequential_ticket_ids_witness :
  exists run,
    create_tickets (Some sample_config)
      [ {| click_platform := strict; click_interaction := alice_click;
           click_type := txt "citizen" |};
        {| click_platform := friendly; click_interaction := alice_click;
           click_type := txt "embassy" |} ] !! 1%nat = Some run /\
    saved_ticket_id run = Some (0 + Z.of_nat 1 + 1) /\
    forall name cat ow topic res,
      In (CreateTextChannel name cat ow topic res) run.1 ->
      name = ticket_channel_name friendly (txt "embassy") (0 + Z.of_nat 1 + 1)
               (txt "Alice") /\
      topic = ticket_topic (txt "Alice") (txt "embassy") (0 + Z.of_nat 1 + 1) 4242.
Proof.
  apply (sequential_ticket_ids
           [ {| click_platform := strict; click_interaction := alice_click;
                click_type := txt "citizen" |};
             {| click_platform := friendly; click_interaction := alice_click;
                click_type := txt "embassy" |} ]
           (Some sample_config) 0 1
           {| click_platform := friendly; click_interaction := alice_click;
              click_type := txt "embassy" |}); reflexivity.
Defined.

(* ===================================================================== *)
(** ** More on ticket creation *)
(* ===================================================================== *)

(** What the lower-casing of a text holds: small letters where the text
    had ASCII characters, and what the interpreter wrote elsewhere. *)
Lemma lower_from_no_capital (beyond : str -> str -> str) (before s : str) :
  (forall before rest, Forall (fun c => is_upper c = false) (beyond before rest)) ->
  Forall (fun c => is_upper c = false) (lower_from beyond before s).
Proof.
  intros Hb. revert before. induction s as [|c r IH]; intros before;
    cbn [lower_from]; [constructor|].
  destruct (is_ascii c).
  - constructor; [|apply IH]. destruct c as [[] [] [] [] [] [] [] []]; reflexivity.
  - destruct (is_continuation c); [apply IH|].
    apply Forall_app. split; [apply Hb | apply IH].
Qed.

Lemma sanitize_clean (beyond : str -> str -> str) (s : str) :
  (str_len (sanitize beyond s) <= 100)%nat /\
  Forall (fun c => is_blank c = false) (sanitize beyond s) /\
  ((forall before rest, Forall (fun c => is_upper c = false) (beyond before rest)) ->
   Forall (fun c => is_upper c = false) (sanitize beyond s)).
Proof.
  split; [|split].
  - unfold sanitize. rewrite str_len_take_chars. lia.
  - rewrite sanitize_spec. apply take_chars_Forall, hyphenated_no_space.
  - intros Hb. unfold sanitize. apply take_chars_Forall.
    unfold str_replace. apply List.Forall_map.
    eapply List.Forall_impl; [|apply (lower_from_no_capital beyond [] s Hb)].
    intros c Hc. cbn beta. destruct (Ascii.eqb c " "); [reflexivity | exact Hc].
Qed.

(** The table of the examples writes no capital letter of the alphabet. *)
Lemma sample_lower_no_capital (before rest : str) :
  Forall (fun c => is_upper c = false) (sample_lower before rest).
Proof.
  unfold sample_lower. destruct rest as [|c r]; [constructor|].
  destruct (is_ascii c || is_continuation c) eqn:Hc; [constructor|].
  apply orb_false_iff in Hc. destruct Hc as [Hc _].
  cbv zeta.
  destruct (str_eqb (c :: continuation_bytes r) (txt "É")); [repeat constructor|].
  destruct (str_eqb (c :: continuation_bytes r) (txt "Ü")); [repeat constructor|].
  constructor.
  - destruct c as [[] [] [] [] [] [] [] []]; try reflexivity; discriminate Hc.
  - clear. induction r as [|d r IH]; cbn [continuation_bytes]; [constructor|].
    destruct (is_continuation d) eqn:Hd; constructor; [|exact IH].
    destruct d as [[] [] [] [] [] [] [] []]; try reflexivity; discriminate Hd.
Qed.

(** X4.  Whatever request type and user name ticket creation is given, the
    channel name it passes to the platform has at most 100 characters
    (characters, not bytes) and holds no blank; and it holds no capital
    letter of the alphabet either, as long as the interpreter's lower-casing
    of a character beyond ASCII writes none. *)
Theorem created_name_clean (p : Platform) (file : option (gmap string json))
  (i : Interaction) (request_type name topic : str) (cat : option GuildChannel)
  (ow : list (Target * PermissionOverwrite)) (res : CreateResult) :
  In (CreateTextChannel name cat ow topic res)
     (create_verification_channel p file i request_type).1 ->
  (str_len name <= 100)%nat /\
  Forall (fun c => is_blank c = false) name /\
  ((forall before rest,
      Forall (fun c => is_upper c = false) (lower_beyond_ascii p before rest)) ->
   Forall (fun c => is_upper c = false) name).
Proof.
  intros H. destruct (create_call_inv _ _ _ _ _ _ _ _ _ H) as (n & _ & -> & _ & _).
  unfold ticket_channel_name. apply sanitize_clean.
Qed.

Lemma created_name_clean_witness :
  (str_len (txt "citizen-1-école-ünal") <= 100)%nat /\
  Forall (fun c => is_blank c = false) (txt "citizen-1-école-ünal") /\
  Forall (fun c => is_upper c = false) (txt "citizen-1-école-ünal").
Proof.
  destruct (created_name_clean friendly (Some sample_config) ecole_click (txt "citizen")
              (txt "citizen-1-école-ünal")
              (ticket_topic (txt "École Ünal") (txt "citizen") 1 4343) None
              (ticket_overwrites belgium ecole [JInt 11]) (Created 900))
    as (Hlen & Hblank & Hcapital).
  - vm_compute. right. left. reflexivity.
  - split; [exact Hlen|]. split; [exact Hblank|].
    apply Hcapital. exact sample_lower_no_capital.
Defined.

(** X5.  Ticket creation on a broken configuration.  The loaded
    configuration always holds a ticket counter; when that is null, a
    string or an object, the handler ends on TypeError before any call.
    When it is an integer but a role the request type needs cannot be
    read, the handler raises after having saved the advanced counter: the
    save is its only call, so an id is used up, no channel is created and
    the requester gets no reply. *)
Theorem create_on_broken_config (p : Platform) (file : option (gmap string json))
  (i : Interaction) (request_type : str) :
  (exists counter,
     load_config file !! "ticket_counter"%string = Some counter /\
     ((forall n, counter <> JInt n) ->
      create_verification_channel p file i request_type = ([], inl TypeError))) /\
  (forall n e,
     load_config file !! "ticket_counter"%string = Some (JInt n) ->
     (routing (<["ticket_counter"%string := JInt (n + 1)]> (load_config file))
        request_type (n + 1) (member_name (user i))).2 = inl e ->
     create_verification_channel p file i request_type =
     ([SaveConfig (<["ticket_counter"%string := JInt (n + 1)]> (load_config file))], inl e)).
Proof.
  split.
  - destruct (default_keys_bound file "ticket_counter"%string) as [counter Hc];
      [cbn; eauto|].
    exists counter. split; [exact Hc|]. intros Hne.
    unfold create_verification_channel, next_ticket_id, getitem. rewrite Hc.
    destruct counter as [|n|text|object]; try reflexivity.
    contradiction (Hne n eq_refl).
  - intros n e Hn Hr. unfold create_verification_channel, save_config.
    rewrite (next_ticket_id_int _ _ Hn). unfold lift, call, bind at 1 2.
    cbn [fst snd app].
    set (config := <["ticket_counter"%string := JInt (n + 1)]> (load_config file)) in *.
    destruct (routing_inv p config request_type (n + 1) (member_name (user i))) as [Ht _].
    destruct (routing config request_type (n + 1) (member_name (user i))) as [t r].
    cbn in Ht, Hr. subst t r. reflexivity.
Qed.

Lemma create_on_broken_config_witness :
  create_verification_channel friendly
    (Some {[ "ticket_counter"%string := JStr (txt "7") ]}) alice_click (txt "citizen")
    = ([], inl TypeError) /\
  create_verification_channel friendly (Some partial_config) alice_click (txt "citizen")
    = ([SaveConfig (<["ticket_counter"%string := JInt (0 + 1)]>
                      (load_config (Some partial_config)))],
       inl (KeyError "border_control")).
Proof.
  split.
  - destruct (proj1 (create_on_broken_config friendly
                       (Some {[ "ticket_counter"%string := JStr (txt "7") ]})
                       alice_click (txt "citizen"))) as (counter & Hc & Hraise).
    apply Hraise. intros n E. rewrite E in Hc. vm_compute in Hc. discriminate Hc.
  - apply (proj2 (create_on_broken_config friendly (Some partial_config)
                    alice_click (txt "citizen"))); reflexivity.
Defined.

Lemma target_eqb_eq (a b : Target) : target_eqb a b = true <-> a = b.
Proof.
  destruct a, b; cbn; rewrite ?Z.eqb_eq; split; try congruence; discriminate.
Qed.

Lemma target_eqb_refl (a : Target) : target_eqb a a = true.
Proof. apply target_eqb_eq. reflexivity. Qed.

(** Reading a dictionary after one assignment. *)
Lemma dict_get_set (k k' : Target) (v : PermissionOverwrite)
  (d : list (Target * PermissionOverwrite)) :
  dict_get k (dict_set k' v d) = if target_eqb k' k then Some v else dict_get k d.
Proof.
  induction d as [|[k0 v0] d IH]; cbn; [reflexivity|].
  destruct (target_eqb k0 k') eqn:E0; cbn.
  - apply target_eqb_eq in E0. subst k0. destruct (target_eqb k' k); reflexivity.
  - rewrite IH. destruct (target_eqb k0 k) eqn:E1; [|reflexivity].
    apply target_eqb_eq in E1. subst k0.
    destruct (target_eqb k' k) eqn:E2; [|reflexivity].
    apply target_eqb_eq in E2. subst k'. rewrite target_eqb_refl in E0. discriminate E0.
Qed.

Lemma get_role_id (g : Guild) (rid : json) (role : Role) :
  get_role g rid = Some role -> rid = JInt (role_id role) /\ In role (guild_roles g).
Proof.
  destruct rid as [|z|s|o]; cbn; try discriminate. intros H.
  apply find_some in H. destruct H as [Hin Hz]. apply Z.eqb_eq in Hz. subst z. auto.
Qed.

(** Reading the overwrites after the loop over the notified roles. *)
Lemma grant_loop_get (g : Guild) (role_ids : list json) (k : Target)
  (base : list (Target * PermissionOverwrite)) :
  dict_get k (foldl (grant_role_access g) base role_ids) =
  match k with
  | TRole r =>
      if existsb (Z.eqb r) (omap (resolved_role g) role_ids)
      then Some participant else dict_get k base
  | TMember _ => dict_get k base
  end.
Proof.
  revert base. induction role_ids as [|rid role_ids IH]; intros base; cbn [foldl].
  - destruct k; reflexivity.
  - rewrite IH. cbn [omap list_omap]. unfold grant_role_access, resolved_role.
    destruct (truthy rid); [|destruct k; reflexivity].
    destruct (get_role g rid) as [role|]; cbn [fmap option_fmap option_map];
      [|destruct k; reflexivity].
    rewrite dict_get_set. destruct k as [r|m]; cbn [target_eqb existsb]; [|reflexivity].
    rewrite (Z.eqb_sym r).
    destruct (role_id role =? r); cbn [orb]; [|reflexivity].
    destruct (existsb (Z.eqb r) _); reflexivity.
Qed.

(** The overwrites of [ticket_overwrites], target by target. *)
Lemma ticket_overwrites_get (g : Guild) (requester : Member) (role_ids : list json) :
  let overwrites := ticket_overwrites g requester role_ids in
  dict_get (TMember (member_id (me g))) overwrites = Some bot_access /\
  (member_id requester <> member_id (me g) ->
   dict_get (TMember (member_id requester)) overwrites = Some participant) /\
  (forall m, m <> member_id requester -> m <> member_id (me g) ->
             dict_get (TMember m) overwrites = None) /\
  (forall r, In r (omap (resolved_role g) role_ids) ->
             dict_get (TRole r) overwrites = Some participant) /\
  (forall r, ~ In r (omap (resolved_role g) role_ids) ->
             dict_get (TRole r) overwrites =
             if r =? role_id (default_role g) then Some hidden else None).
Proof.
  intros overwrites. subst overwrites. unfold ticket_overwrites.
  repeat split.
  - rewrite grant_loop_get, !dict_get_set. cbn [target_eqb]. rewrite Z.eqb_refl. reflexivity.
  - intros Hne. rewrite grant_loop_get, !dict_get_set. cbn [target_eqb].
    destruct (Z.eqb_spec (member_id (me g)) (member_id requester)); [congruence|].
    rewrite Z.eqb_refl. reflexivity.
  - intros m Hr Hb. rewrite grant_loop_get, !dict_get_set. cbn [target_eqb dict_get].
    destruct (Z.eqb_spec (member_id (me g)) m); [congruence|].
    destruct (Z.eqb_spec (member_id requester) m); [congruence|]. reflexivity.
  - intros r Hin. rewrite grant_loop_get.
    assert (existsb (Z.eqb r) (omap (resolved_role g) role_ids) = true) as ->; [|reflexivity].
    apply existsb_exists. exists r. split; [exact Hin | apply Z.eqb_refl].
  - intros r Hout. rewrite grant_loop_get.
    assert (existsb (Z.eqb r) (omap (resolved_role g) role_ids) = false) as ->.
    { apply not_true_is_false. intros H. apply existsb_exists in H.
      destruct H as (x & Hx & E). apply Z.eqb_eq in E. subst x. exact (Hout Hx). }
    rewrite !dict_get_set. cbn [target_eqb dict_get].
    rewrite (Z.eqb_sym r). reflexivity.
Qed.

(** The overwrites ticket creation passes on are those of the roles the
    routing of the request names. *)
Lemma create_call_overwrites (p : Platform) (file : option (gmap string json))
  (i : Interaction) (request_type name topic : str) (cat : option GuildChannel)
  (ow : list (Target * PermissionOverwrite)) (res : CreateResult) :
  In (CreateTextChannel name cat ow topic res)
     (create_verification_channel p file i request_type).1 ->
  exists n r,
    next_ticket_id (load_config file) = inr n /\
    routing (<["ticket_counter"%string := JInt n]> (load_config file)) request_type n
      (member_name (user i)) = ([], inr r) /\
    ow = ticket_overwrites (guild i) (user i) (route_role_ids r).
Proof.
  unfold create_verification_channel.
  destruct (next_ticket_id (load_config file)) as [e|n]; cbn; [tauto|].
  set (config := <["ticket_counter":=JInt n]> (load_config file)).
  destruct (routing_inv p config request_type n (member_name (user i))) as [Ht _].
  destruct (routing config request_type n (member_name (user i))) as [t [e|r]] eqn:Hr;
    cbn in Ht; subst t; cbn.
  { intros [H|[]]; discriminate H. }
  destruct (getitem config "verification_category_id") as [e|cid]; cbn.
  { intros [H|[]]; discriminate H. }
  destruct (if truthy cid then get_channel (guild i) cid else None) as [c|];
    [destruct (bot_manage_channels c)|];
    try destruct (create_text_channel_result p) as [new_id|e] eqn:Hres; cbn;
    intros H; repeat (destruct H as [H|H]; try discriminate H); try contradiction;
    inversion H; subst; exists n, r; (split; [reflexivity|]); (split; [exact Hr|reflexivity]).
Qed.

(** X6.  The permission overwrites of every channel ticket creation asks
    for, target by target.  The bot has its own access.  The requester,
    unless the bot itself, may view, send and read the history.  No other
    member has an entry.  A role has the same access as the requester
    exactly when it is one of the roles the routing names for the request
    type, configured with a truthy id and found in the guild; otherwise the
    default role is denied the view and any other role has no entry. *)
Theorem created_channel_overwrites (p : Platform) (file : option (gmap string json))
  (i : Interaction) (request_type name topic : str) (cat : option GuildChannel)
  (ow : list (Target * PermissionOverwrite)) (res : CreateResult) :
  In (CreateTextChannel name cat ow topic res)
     (create_verification_channel p file i request_type).1 ->
  exists n r,
    next_ticket_id (load_config file) = inr n /\
    routing (<["ticket_counter"%string := JInt n]> (load_config file)) request_type n
      (member_name (user i)) = ([], inr r) /\
    dict_get (TMember (member_id (me (guild i)))) ow = Some bot_access /\
    (member_id (user i) <> member_id (me (guild i)) ->
     dict_get (TMember (member_id (user i))) ow = Some participant) /\
    (forall m, m <> member_id (user i) -> m <> member_id (me (guild i)) ->
               dict_get (TMember m) ow = None) /\
    (forall x, In x (omap (resolved_role (guild i)) (route_role_ids r)) ->
               dict_get (TRole x) ow = Some participant) /\
    (forall x, ~ In x (omap (resolved_role (guild i)) (route_role_ids r)) ->
               dict_get (TRole x) ow =
               if x =? role_id (default_role (guild i)) then Some hidden else None).
Proof.
  intros H. destruct (create_call_overwrites _ _ _ _ _ _ _ _ _ H) as (n & r & Hn & Hr & ->).
  exists n, r. split; [exact Hn|]. split; [exact Hr|].
  exact (ticket_overwrites_get (guild i) (user i) (route_role_ids r)).
Qed.

Lemma created_channel_overwrites_witness :
  exists (ow : list (Target * PermissionOverwrite)),
    dict_get (TMember 99) ow = Some bot_access /\
    dict_get (TMember 4242) ow = Some participant /\
    dict_get (TMember 7) ow = None /\
    dict_get (TRole 11) ow = Some participant /\
    dict_get (TRole 1) ow = Some hidden /\
    dict_get (TRole 12) ow = None.
Proof.
  destruct (created_channel_overwrites friendly (Some sample_config) alice_click
              (txt "citizen") (txt "citizen-1-alice")
              (ticket_topic (txt "Alice") (txt "citizen") 1 4242) None
              (ticket_overwrites belgium alice [JInt 11]) (Created 900))
    as (n & r & Hn & Hr & Hbot & Hreq & Hother & Hrole & Hrest).
  { vm_compute. right. left. reflexivity. }
  assert (n = 1) as -> by (vm_compute in Hn; congruence).
  vm_compute in Hr. injection Hr as <-.
  exists (ticket_overwrites belgium alice [JInt 11]).
  split; [exact Hbot|].
  split; [apply Hreq; discriminate|].
  split; [apply Hother; discriminate|].
  split; [apply Hrole; vm_compute; left; reflexivity|].
  split.
  - apply (Hrest 1). vm_compute. intros [H|[]]. discriminate H.
  - apply (Hrest 12). vm_compute. intros [H|[]]. discriminate H.
Defined.

(* ===================================================================== *)
(** ** More on reading the topic *)
(* ===================================================================== *)

Lemma user_id_step_segment (user_id : option Z) (part : str) :
  user_id_step user_id part =
  match segment_user_id part with Some z => Some z | None => user_id end.
Proof.
  unfold user_id_step, segment_user_id.
  destruct (str_contains (txt "User ID:") part); reflexivity.
Qed.

Lemma user_id_loop_last (parts : list str) (user_id : option Z) :
  foldl user_id_step user_id parts =
  match last (omap segment_user_id parts) with Some z => Some z | None => user_id end.
Proof.
  revert user_id. induction parts as [|part parts IH]; intros user_id; [reflexivity|].
  cbn [foldl omap list_omap]. rewrite IH, user_id_step_segment.
  destruct (segment_user_id part) as [z|]; [|reflexivity].
  rewrite last_cons. destruct (last (omap segment_user_id parts)); reflexivity.
Qed.

(** X7.  The user id both commands read from a topic is the one offered by
    the last "|"-separated segment that contains "User ID:" and whose text
    after the last colon parses as an integer; segments that do not parse
    are passed over. *)
Theorem topic_user_id_last (topic : option str) :
  topic_user_id topic = last (omap segment_user_id (str_split "|" (default [] topic))).
Proof.
  unfold topic_user_id. rewrite user_id_loop_last.
  destruct (last (omap segment_user_id (str_split "|" (default [] topic)))); reflexivity.
Qed.

(* ===================================================================== *)
(** ** More on the moderation commands *)
(* ===================================================================== *)

(** X8.  Outside a ticket channel both commands answer that they only work
    in verification channels and do nothing else.  This test comes first:
    the answer is the same for an actor without permission and for a
    configuration whose role keys cannot be read. *)
Theorem command_outside_ticket (c : Command) (p : Platform)
  (file : option (gmap string json)) (i : Interaction) (reason : str) :
  is_ticket_channel (channel_name (channel i)) = false ->
  run_command c p file i reason =
  ([ResponseSendMessage (Some not_a_ticket_message) None], inr tt).
Proof.
  intros H. destruct c; cbn [run_command]; [unfold approve | unfold deny];
    rewrite H; reflexivity.
Qed.

Lemma command_outside_ticket_witness :
  run_command Approve friendly (Some partial_config) (command_in welcome_ch alice) (txt "x")
  = ([ResponseSendMessage (Some not_a_ticket_message) None], inr tt).
Proof.
  apply (command_outside_ticket Approve friendly (Some partial_config)
           (command_in welcome_ch alice) (txt "x")).
  reflexivity.
Defined.

Lemma get_channel_id (g : Guild) (id : json) (c : GuildChannel) :
  get_channel g id = Some c -> id = JInt (channel_id c).
Proof.
  destruct id as [|z|s|o]; cbn; try discriminate. intros H.
  apply find_some in H. destruct H as [_ Hz]. apply Z.eqb_eq in Hz. subst z. reflexivity.
Qed.

(** The log block: whether it reports the message as posted, and where
    its message goes. *)
Lemma post_log_delivery (p : Platform) (config : gmap string json) (g : Guild) (e : Embed) :
  exists log,
    post_log p config g e = (log, inr (log_delivered p config g)) /\
    forall x, In x log ->
      (exists lc, get_channel g (config_get config "log_channel_id") = Some lc /\
                  x = ChannelSend (channel_id lc) None e (log_send_result p)) \/
      (exists d, x = Print d).
Proof.
  unfold post_log, log_delivered, config_get, getitem.
  destruct (config !! "log_channel_id"%string) as [v|]; cbn [default from_option id].
  2:{ exists []. cbn. split; [reflexivity | tauto]. }
  destruct (truthy v).
  2:{ exists []. cbn. split; [reflexivity | tauto]. }
  cbn [lift bind fst snd app andb].
  destruct (get_channel g v) as [lc|].
  - destruct (log_send_result p) as [| |err]; cbn; eexists; (split; [reflexivity|]);
      intros x Hx; repeat (destruct Hx as [<-|Hx]; [eauto|]); contradiction.
  - cbn. eexists. split; [reflexivity|]. intros x [<-|[]]. eauto.
Qed.

Lemma sent_to_app (to : Z) (a b : list Effect) :
  sent_to to (a ++ b) = sent_to to a ++ sent_to to b.
Proof. unfold sent_to. apply List.filter_app. Qed.

Lemma sent_to_here (to : Z) (content : option str) (e : Embed) (r : SendResult)
  (l : list Effect) :
  sent_to to (ChannelSend to content e r :: l) = ChannelSend to content e r :: sent_to to l.
Proof. unfold sent_to. cbn. rewrite Z.eqb_refl. reflexivity. Qed.

Lemma sent_to_skip (to : Z) (x : Effect) (l : list Effect) :
  match x with ChannelSend _ _ _ _ => False | _ => True end ->
  sent_to to (x :: l) = sent_to to l.
Proof. destruct x; cbn; intros H; try reflexivity. contradiction. Qed.

Lemma sent_to_prints (to : Z) (diag : list Diagnostic) : sent_to to (map Print diag) = [].
Proof. induction diag as [|d diag IH]; [reflexivity|]. cbn. exact IH. Qed.

(** A log that does not go to the ticket channel leaves nothing in it. *)
Lemma sent_to_log (p : Platform) (config : gmap string json) (g : Guild) (e : Embed)
  (to : Z) (log : list Effect) (posted : bool) :
  config_get config "log_channel_id" <> JInt to ->
  post_log p config g e = (log, inr posted) ->
  sent_to to log = [].
Proof.
  intros Hne Hlog. destruct (post_log_delivery p config g e) as (log' & Hlog' & Hin).
  rewrite Hlog in Hlog'. inversion Hlog'; subst log'. clear Hlog' Hlog H1.
  revert Hin. induction log as [|x log IH]; intros Hin; [reflexivity|].
  assert (sent_to to log = []) as Hrest.
  { apply IH. intros y Hy. apply Hin. right. exact Hy. }
  destruct (Hin x (or_introl eq_refl)) as [(lc & Hlc & ->)|(d & ->)]; cbn; [|exact Hrest].
  destruct (Z.eqb_spec (channel_id lc) to) as [E|_]; [|exact Hrest].
  exfalso. apply Hne. rewrite (get_channel_id _ _ _ Hlc), E. reflexivity.
Qed.

Lemma sent_to_announce (p : Platform) (config : gmap string json) (i : Interaction)
  (reason : str) (member : Member) (request_type : str) (role_to_give : option Role) :
  config_get config "log_channel_id" <> JInt (channel_id (channel i)) ->
  sent_to (channel_id (channel i))
    (approve_announce p config i reason member request_type role_to_give).1
  = [ChannelSend (channel_id (channel i)) (Some (member_mention member))
       (approve_user_embed request_type role_to_give) Sent].
Proof.
  intros Hne.
  destruct (approve_announce_run p config i reason member request_type role_to_give)
    as (log & posted & diag & Hlog & _ & _ & ->).
  cbn [fst]. rewrite sent_to_here, sent_to_app, (sent_to_log _ _ _ _ _ _ _ Hne Hlog).
  rewrite !sent_to_skip by exact I. rewrite sent_to_prints. reflexivity.
Qed.

Lemma sent_to_approve_grant (p : Platform) (config : gmap string json) (i : Interaction)
  (reason1 reason2 : str) (member : Member) :
  config_get config "log_channel_id" <> JInt (channel_id (channel i)) ->
  sent_to (channel_id (channel i)) (approve_grant p config i reason1 member).1 =
  sent_to (channel_id (channel i)) (approve_grant p config i reason2 member).1.
Proof.
  intros Hne.
  pose proof (role_for_no_calls config (guild i)
                (request_type_of (channel_name (channel i)))) as Hcalls.
  destruct (role_for config (guild i) (request_type_of (channel_name (channel i))))
    as [t [e|role_to_give]] eqn:Hrole; cbn in Hcalls; subst t.
  { unfold approve_grant. rewrite Hrole. reflexivity. }
  rewrite !(approve_grant_run p config i _ member role_to_give Hrole).
  destruct role_to_give as [role|].
  - destruct (add_roles_result p); cbn [fst]; try reflexivity.
    rewrite !(sent_to_skip _ (AddRoles _ _ _)) by exact I.
    rewrite !sent_to_announce by exact Hne. reflexivity.
  - rewrite !sent_to_announce by exact Hne. reflexivity.
Qed.

(** X9.  The reason a moderator gives never reaches the ticket channel:
    provided the configured log channel is not the ticket channel itself,
    the messages a command posts in the ticket channel are the same for any
    two reason texts. *)
Theorem reason_not_disclosed (c : Command) (p : Platform)
  (file : option (gmap string json)) (i : Interaction) (reason1 reason2 : str) :
  config_get (load_config file) "log_channel_id" <> JInt (channel_id (channel i)) ->
  sent_to (channel_id (channel i)) (run_command c p file i reason1).1 =
  sent_to (channel_id (channel i)) (run_command c p file i reason2).1.
Proof.
  intros Hne.
  destruct (is_ticket_channel (channel_name (channel i))) eqn:Hticket.
  2:{ rewrite !(command_outside_ticket c p file i _ Hticket). reflexivity. }
  pose proof (mod_roles_no_calls (load_config file)) as Hcalls.
  destruct (mod_roles (load_config file)) as [t [e|roles]] eqn:Hroles;
    cbn in Hcalls; subst t.
  { assert ((mod_roles (load_config file)).2 = inl e) as Hraise
      by (rewrite Hroles; reflexivity).
    rewrite !(command_raises c p file i _ e Hticket Hraise). reflexivity. }
  destruct (authorized roles (user i)) eqn:Hauth.
  2:{ rewrite !(command_unauthorized c p file i _ roles Hticket Hroles Hauth). reflexivity. }
  destruct c; cbn [run_command].
  - rewrite !(approve_authorized p file i _ roles Hticket Hroles Hauth).
    destruct (topic_user_id (channel_topic (channel i))) as [user_id|]; [|reflexivity].
    destruct (user_id =? 0); [reflexivity|].
    destruct (get_member (guild i) user_id) as [member|]; [|reflexivity].
    apply sent_to_approve_grant. exact Hne.
  - destruct (deny_run p file i reason1 roles Hticket Hroles Hauth)
      as (log1 & posted1 & diag1 & Hlog1 & ->).
    destruct (deny_run p file i reason2 roles Hticket Hroles Hauth)
      as (log2 & posted2 & diag2 & Hlog2 & ->).
    cbn [fst]. rewrite !sent_to_here, !sent_to_app.
    rewrite (sent_to_log _ _ _ _ _ _ _ Hne Hlog1), (sent_to_log _ _ _ _ _ _ _ Hne Hlog2).
    rewrite !sent_to_skip by exact I. rewrite !sent_to_prints. reflexivity.
Qed.

Lemma reason_not_disclosed_witness :
  sent_to 900
    (run_command Deny friendly (Some sample_config) (command_in citizen_ticket officer)
       (txt "forged papers")).1 =
  sent_to 900
    (run_command Deny friendly (Some sample_config) (command_in citizen_ticket officer)
       (txt "no reason")).1.
Proof.
  apply (reason_not_disclosed Deny friendly (Some sample_config)
           (command_in citizen_ticket officer) (txt "forged papers") (txt "no reason")).
  vm_compute. discriminate.
Defined.

(** X10.  The requester has left the guild: the topic yields a non-zero id
    that no member carries.  An authorized [approve] answers that the user
    is no longer in the server and does nothing else, so no role is given;
    an authorized [deny] goes through with the requester unknown: the
    denial is posted without a mention, the log block names "Unknown", the
    moderator is acknowledged and the deletion follows. *)
Theorem requester_left (p : Platform) (file : option (gmap string json))
  (i : Interaction) (reason : str) (roles : list json) (user_id : Z) :
  is_ticket_channel (channel_name (channel i)) = true ->
  mod_roles (load_config file) = ([], inr roles) ->
  authorized roles (user i) = true ->
  topic_user_id (channel_topic (channel i)) = Some user_id ->
  (user_id =? 0) = false ->
  get_member (guild i) user_id = None ->
  approve p file i reason = ([ResponseSendMessage (Some member_left_message) None], inr tt) /\
  exists log diag,
    post_log p (load_config file) (guild i)
      (deny_log_embed (user i) None (request_type_of (channel_name (channel i))) reason)
    = (log, inr (log_delivered p (load_config file) (guild i))) /\
    deny p file i reason =
    (ChannelSend (channel_id (channel i)) None
       (deny_user_embed (request_type_of (channel_name (channel i)))) Sent
     :: log ++
     ResponseSendMessage None
       (Some (deny_mod_embed (user i) None (request_type_of (channel_name (channel i)))
                reason
                (negb (log_delivered p (load_config file) (guild i)) &&
                 truthy (config_get (load_config file) "log_channel_id")))) ::
     Sleep 30 ::
     ChannelDelete (channel_id (channel i))
       (txt "Verification denied by " ++ member_name (user i)) (delete_result p) ::
     map Print diag,
     inr tt).
Proof.
  intros Hticket Hroles Hauth Hid Hnz Hgone. split.
  - rewrite (approve_authorized p file i reason roles Hticket Hroles Hauth).
    rewrite Hid, Hnz, Hgone. reflexivity.
  - destruct (deny_run p file i reason roles Hticket Hroles Hauth)
      as (log & posted & diag & Hlog & Hdeny).
    unfold requester_of in Hlog, Hdeny. rewrite Hid, Hnz, Hgone in Hlog, Hdeny.
    destruct (post_log_delivery p (load_config file) (guild i)
                (deny_log_embed (user i) None
                   (request_type_of (channel_name (channel i))) reason))
      as (log' & Hlog' & _).
    rewrite Hlog in Hlog'. inversion Hlog'; subst log' posted.
    exists log, diag. split; [exact Hlog | exact Hdeny].
Qed.

Lemma requester_left_witness :
  approve friendly (Some sample_config)
    (command_in {| channel_id := 903; channel_name := txt "foreigner-4-carol";
                   channel_topic := Some (txt "Verification request by carol | Type: foreigner | ID: 4 | User ID: 31337");
                   bot_manage_channels := true |} officer) (txt "ok")
  = ([ResponseSendMessage (Some member_left_message) None], inr tt).
Proof.
  apply (requester_left friendly (Some sample_config)
           (command_in {| channel_id := 903; channel_name := txt "foreigner-4-carol";
                          channel_topic := Some (txt "Verification request by carol | Type: foreigner | ID: 4 | User ID: 31337");
                          bot_manage_channels := true |} officer)
           (txt "ok") [JInt 11; JNull; JInt 12; JNull] 31337); reflexivity.
Defined.

(** Where [approve] issues anything but a plain private reply: in its last
    phase only, for a ticket channel, an authorized actor and a requester
    who is a member. *)
Lemma approve_reaches_grant (p : Platform) (file : option (gmap string json))
  (i : Interaction) (reason : str) (x : Effect) :
  In x (approve p file i reason).1 ->
  (forall message, x <> ResponseSendMessage (Some message) None) ->
  exists roles member,
    is_ticket_channel (channel_name (channel i)) = true /\
    mod_roles (load_config file) = ([], inr roles) /\
    authorized roles (user i) = true /\
    requester_of (guild i) (channel_topic (channel i)) = Some member /\
    approve p file i reason = approve_grant p (load_config file) i reason member.
Proof.
  intros Hin Hx.
  assert (forall message (r : Exn + unit),
            ~ In x (([ResponseSendMessage (Some message) None], r) : M unit).1) as Hreply.
  { intros message r [H|[]]. exact (Hx message (eq_sym H)). }
  destruct (is_ticket_channel (channel_name (channel i))) eqn:Hticket.
  2:{ exfalso. revert Hin. unfold approve. rewrite Hticket. apply Hreply. }
  pose proof (mod_roles_no_calls (load_config file)) as Hcalls.
  destruct (mod_roles (load_config file)) as [t [e|roles]] eqn:Hroles;
    cbn in Hcalls; subst t.
  { exfalso. assert ((mod_roles (load_config file)).2 = inl e) as Hraise
      by (rewrite Hroles; reflexivity).
    pose proof (command_raises Approve p file i reason e Hticket Hraise) as E.
    cbn [run_command] in E. rewrite E in Hin. exact Hin. }
  destruct (authorized roles (user i)) eqn:Hauth.
  2:{ exfalso.
      pose proof (command_unauthorized Approve p file i reason roles Hticket Hroles Hauth)
        as E.
      cbn [run_command] in E. rewrite E in Hin. revert Hin. apply Hreply. }
  rewrite (approve_authorized p file i reason roles Hticket Hroles Hauth) in Hin |- *.
  unfold requester_of.
  destruct (topic_user_id (channel_topic (channel i))) as [user_id|];
    [destruct (user_id =? 0); [|destruct (get_member (guild i) user_id) as [member|]]|];
    try (exfalso; revert Hin; apply Hreply).
  exists roles, member. repeat split; try reflexivity; assumption.
Qed.

Lemma role_for_some (config : gmap string json) (g : Guild) (request_type : str)
  (role : Role) :
  role_for config g request_type = ([], inr (Some role)) ->
  (request_type = txt "citizen" /\
   exists belgian, config_role config "belgian" = inr belgian /\
                   get_role g belgian = Some role) \/
  (request_type = txt "foreigner" /\
   exists foreigner, config_role config "foreigner" = inr foreigner /\
                     get_role g foreigner = Some role).
Proof.
  unfold role_for.
  destruct (str_eqb request_type (txt "citizen")) eqn:Ec.
  - apply str_eqb_eq in Ec. destruct (config_role config "belgian") as [e|b] eqn:Hb;
      cbn; intros H; inversion H. left. eauto.
  - destruct (str_eqb request_type (txt "foreigner")) eqn:Ef; [|discriminate].
    apply str_eqb_eq in Ef. destruct (config_role config "foreigner") as [e|f] eqn:Hf;
      cbn; intros H; inversion H. right. eauto.
Qed.

Lemma deny_no_add_roles (p : Platform) (file : option (gmap string json))
  (i : Interaction) (reason : str) (m : Member) (r : Role) (res : AddRolesResult) :
  ~ In (AddRoles m r res) (deny p file i reason).1.
Proof.
  destruct (is_ticket_channel (channel_name (channel i))) eqn:Hticket.
  2:{ pose proof (command_outside_ticket Deny p file i reason Hticket) as E.
      cbn [run_command] in E. rewrite E. intros [H|[]]. discriminate H. }
  pose proof (mod_roles_no_calls (load_config file)) as Hcalls.
  destruct (mod_roles (load_config file)) as [t [e|roles]] eqn:Hroles;
    cbn in Hcalls; subst t.
  { assert ((mod_roles (load_config file)).2 = inl e) as Hraise
      by (rewrite Hroles; reflexivity).
    pose proof (command_raises Deny p file i reason e Hticket Hraise) as E.
    cbn [run_command] in E. rewrite E. intros []. }
  destruct (authorized roles (user i)) eqn:Hauth.
  2:{ pose proof (command_unauthorized Deny p file i reason roles Hticket Hroles Hauth) as E.
      cbn [run_command] in E. rewrite E. intros [H|[]]. discriminate H. }
  destruct (deny_run p file i reason roles Hticket Hroles Hauth)
    as (log & posted & diag & Hlog & ->).
  destruct (post_log_delivery p (load_config file) (guild i)
              (deny_log_embed (user i)
                 (requester_of (guild i) (channel_topic (channel i)))
                 (request_type_of (channel_name (channel i))) reason))
    as (log' & Hlog' & Hin).
  rewrite Hlog in Hlog'. inversion Hlog'; subst log'.
  cbn [fst]. intros [H|H]; [discriminate H|].
  apply in_app_or in H. destruct H as [H|H].
  - destruct (Hin _ H) as [(lc & _ & E)|(d & E)]; discriminate E.
  - destruct H as [H|[H|[H|H]]]; try discriminate H.
    apply in_map_iff in H. destruct H as (d & E & _). discriminate E.
Qed.

(** X11.  Who gets which role.  [deny] never assigns a role.  A role
    assignment issued by [approve] is always for the requester the topic
    names, requested by an authorized actor, and of the role configured for
    the type of the ticket: belgian for a citizen ticket, foreigner for a
    foreigner ticket; and it is the only assignment of the run. *)
Theorem role_assignment_scope (p : Platform) (file : option (gmap string json))
  (i : Interaction) (reason : str) :
  (forall m r res, ~ In (AddRoles m r res) (deny p file i reason).1) /\
  (forall m r res,
     In (AddRoles m r res) (approve p file i reason).1 ->
     res = add_roles_result p /\
     requester_of (guild i) (channel_topic (channel i)) = Some m /\
     (exists roles, mod_roles (load_config file) = ([], inr roles) /\
                    authorized roles (user i) = true) /\
     ((request_type_of (channel_name (channel i)) = txt "citizen" /\
       exists belgian, config_role (load_config file) "belgian" = inr belgian /\
                       get_role (guild i) belgian = Some r) \/
      (request_type_of (channel_name (channel i)) = txt "foreigner" /\
       exists foreigner, config_role (load_config file) "foreigner" = inr foreigner /\
                         get_role (guild i) foreigner = Some r)) /\
     forall m' r' res',
       In (AddRoles m' r' res') (approve p file i reason).1 ->
       m' = m /\ r' = r /\ res' = res).
Proof.
  split; [intros m r res; apply deny_no_add_roles|].
  intros m r res Hin.
  destruct (approve_reaches_grant p file i reason _ Hin ltac:(discriminate))
    as (roles & member & Hticket & Hroles & Hauth & Hreq & Heq).
  rewrite Heq in *. clear Heq.
  pose proof (role_for_no_calls (load_config file) (guild i)
                (request_type_of (channel_name (channel i)))) as Hcalls.
  destruct (role_for (load_config file) (guild i)
              (request_type_of (channel_name (channel i))))
    as [t [e|role_to_give]] eqn:Hrole; cbn in Hcalls; subst t.
  { exfalso. revert Hin. unfold approve_grant. rewrite Hrole. cbn. tauto. }
  rewrite (approve_grant_run p _ i reason member role_to_give Hrole) in *.
  destruct role_to_give as [role|].
  2:{ exfalso. exact (announce_no_add_roles _ _ _ _ _ _ _ _ _ _ Hin). }
  assert (forall m' r' res',
            In (AddRoles m' r' res')
               (match add_roles_result p with
                | RolesAdded =>
                    (AddRoles member role RolesAdded ::
                       (approve_announce p (load_config file) i reason member
                          (request_type_of (channel_name (channel i))) (Some role)).1,
                     (approve_announce p (load_config file) i reason member
                          (request_type_of (channel_name (channel i))) (Some role)).2)
                | RolesForbidden =>
                    ([AddRoles member role RolesForbidden;
                      ResponseSendMessage (Some (role_forbidden_message role)) None], inr tt)
                | RolesHTTPException e =>
                    ([AddRoles member role (RolesHTTPException e);
                      ResponseSendMessage (Some (role_failed_message e)) None], inr tt)
                end).1 ->
            m' = member /\ r' = role /\ res' = add_roles_result p) as Honly.
  { intros m' r' res'. destruct (add_roles_result p) as [| |e]; cbn [fst].
    - intros [H|H]; [inversion H; auto|].
      exfalso. exact (announce_no_add_roles _ _ _ _ _ _ _ _ _ _ H).
    - intros [H|[H|[]]]; [inversion H; auto | discriminate H].
    - intros [H|[H|[]]]; [inversion H; auto | discriminate H]. }
  destruct (Honly _ _ _ Hin) as (-> & -> & ->).
  split; [reflexivity|]. split; [exact Hreq|]. split; [eauto|].
  split; [exact (role_for_some _ _ _ _ Hrole)|].
  intros m' r' res' Hin'. exact (Honly _ _ _ Hin').
Qed.

Lemma role_assignment_scope_witness :
  RolesAdded = add_roles_result friendly /\
  requester_of belgium (channel_topic citizen_ticket) = Some alice.
Proof.
  destruct (proj2 (role_assignment_scope friendly (Some sample_config)
                     (command_in citizen_ticket officer) (txt "id verified"))
              alice belgian_role RolesAdded) as (Hres & Hreq & _).
  - vm_compute. left. reflexivity.
  - split; [exact Hres | exact Hreq].
Defined.

Lemma ack_fields (warn : bool) (e : Embed) :
  embed_fields e = [] ->
  embed_fields (with_warning warn e) = if warn then [warning_field] else [].
Proof. intros H. destruct warn; cbn; [rewrite H|]; auto. Qed.

(** In a decision flow the only private reply with an embed is the
    acknowledgment. *)
Lemma flow_ack (to : Z) (content : option str) (notice ack ack' e : Embed)
  (p : Platform) (config : gmap string json) (g : Guild)
  (log : list Effect) (posted : bool) (tail : list Effect) (diag : list Diagnostic) :
  post_log p config g e = (log, inr posted) ->
  In (ResponseSendMessage None (Some ack))
     (ChannelSend to content notice Sent :: log ++
      ResponseSendMessage None (Some ack') :: tail ++ map Print diag) ->
  (forall x, In x tail -> x <> ResponseSendMessage None (Some ack)) ->
  ack = ack' /\ posted = log_delivered p config g.
Proof.
  intros Hlog Hin Htail.
  destruct (post_log_delivery p config g e) as (log' & Hlog' & Hel).
  rewrite Hlog in Hlog'. inversion Hlog'; subst log'. split; [|reflexivity].
  destruct Hin as [H|H]; [discriminate H|].
  apply in_app_or in H. destruct H as [H|H].
  - destruct (Hel _ H) as [(lc & _ & E)|(d & E)]; discriminate E.
  - destruct H as [H|H]; [inversion H; reflexivity|].
    apply in_app_or in H. destruct H as [H|H].
    + exfalso. exact (Htail _ H eq_refl).
    + apply in_map_iff in H. destruct H as (d & E & _). discriminate E.
Qed.

(** X12.  The acknowledgment and what follows it.  Whenever [approve] or
    [deny] acknowledges the moderator, the acknowledgment carries the
    warning field exactly when a log channel is configured and the log
    message did not get through (channel not found, or the send refused
    by the platform), and the calls that follow it are the 30-second pause
    and then the request to delete the ticket channel; after that request
    the run issues nothing but console lines.  How the run ends after the
    deletion request is not part of the statement. *)
Theorem acknowledgment_and_cleanup (c : Command) (p : Platform)
  (file : option (gmap string json)) (i : Interaction) (reason : str) (ack : Embed) :
  In (ResponseSendMessage None (Some ack)) (run_command c p file i reason).1 ->
  embed_fields ack = expected_ack_fields p (load_config file) (guild i) /\
  exists before deletion_reason diag,
    (run_command c p file i reason).1 =
    before ++
    ResponseSendMessage None (Some ack) ::
    Sleep 30 ::
    ChannelDelete (channel_id (channel i)) deletion_reason (delete_result p) ::
    map Print diag.
Proof.
  intros Hin. unfold expected_ack_fields. destruct c; cbn [run_command] in *.
  - destruct (approve_reaches_grant p file i reason _ Hin ltac:(discriminate))
      as (roles & member & _ & _ & _ & _ & Heq).
    rewrite Heq in *. clear Heq.
    pose proof (role_for_no_calls (load_config file) (guild i)
                  (request_type_of (channel_name (channel i)))) as Hcalls.
    destruct (role_for (load_config file) (guild i)
                (request_type_of (channel_name (channel i))))
      as [t [e|role_to_give]] eqn:Hrole; cbn in Hcalls; subst t.
    { exfalso. revert Hin. unfold approve_grant. rewrite Hrole. cbn. tauto. }
    rewrite (approve_grant_run p _ i reason member role_to_give Hrole) in *.
    destruct (approve_announce_run p (load_config file) i reason member
                (request_type_of (channel_name (channel i))) role_to_give)
      as (log & posted & diag & Hlog & _ & _ & Hrun).
    assert (In (ResponseSendMessage None (Some ack))
              (approve_announce p (load_config file) i reason member
                 (request_type_of (channel_name (channel i))) role_to_give).1) as Hin'.
    { destruct role_to_give as [role|]; [|exact Hin].
      destruct (add_roles_result p); cbn [fst] in Hin.
      - destruct Hin as [H|H]; [discriminate H | exact H].
      - destruct Hin as [H|[H|[]]]; discriminate H.
      - destruct Hin as [H|[H|[]]]; discriminate H. }
    rewrite Hrun in Hin'. cbn [fst] in Hin'.
    destruct (flow_ack _ _ _ ack _ _ p _ _ log posted
                [Sleep 30; ChannelDelete (channel_id (channel i))
                             (txt "Verification approved by " ++ member_name (user i))
                             (delete_result p)] diag Hlog Hin') as [-> ->].
    { intros x [<-|[<-|[]]]; discriminate. }
    split.
    { unfold approve_mod_embed. rewrite ack_fields by reflexivity.
      rewrite andb_comm. reflexivity. }
    destruct role_to_give as [role|].
    + destruct (add_roles_result p) eqn:Hres; cbn [fst] in Hin;
        try (destruct Hin as [H|[H|[]]]; discriminate H).
      rewrite Hrun. cbn [fst snd].
      exists (AddRoles member role RolesAdded ::
              ChannelSend (channel_id (channel i)) (Some (member_mention member))
                (approve_user_embed (request_type_of (channel_name (channel i)))
                   (Some role)) Sent :: log).
      eexists _, diag. reflexivity.
    + rewrite Hrun.
      exists (ChannelSend (channel_id (channel i)) (Some (member_mention member))
                (approve_user_embed (request_type_of (channel_name (channel i))) None)
                Sent :: log).
      eexists _, diag. reflexivity.
  - destruct (is_ticket_channel (channel_name (channel i))) eqn:Hticket.
    2:{ exfalso. pose proof (command_outside_ticket Deny p file i reason Hticket) as E.
        cbn [run_command] in E. rewrite E in Hin. destruct Hin as [H|[]]. discriminate H. }
    pose proof (mod_roles_no_calls (load_config file)) as Hcalls.
    destruct (mod_roles (load_config file)) as [t [e|roles]] eqn:Hroles;
      cbn in Hcalls; subst t.
    { exfalso. assert ((mod_roles (load_config file)).2 = inl e) as Hraise
        by (rewrite Hroles; reflexivity).
      pose proof (command_raises Deny p file i reason e Hticket Hraise) as E.
      cbn [run_command] in E. rewrite E in Hin. exact Hin. }
    destruct (authorized roles (user i)) eqn:Hauth.
    2:{ exfalso.
        pose proof (command_unauthorized Deny p file i reason roles Hticket Hroles Hauth)
          as E.
        cbn [run_command] in E. rewrite E in Hin. destruct Hin as [H|[]]. discriminate H. }
    destruct (deny_run p file i reason roles Hticket Hroles Hauth)
      as (log & posted & diag & Hlog & Hrun).
    rewrite Hrun in Hin |- *. cbn [fst] in Hin.
    destruct (flow_ack _ _ _ ack _ _ p _ _ log posted
                [Sleep 30; ChannelDelete (channel_id (channel i))
                             (txt "Verification denied by " ++ member_name (user i))
                             (delete_result p)] diag Hlog Hin) as [-> ->].
    { intros x [<-|[<-|[]]]; discriminate. }
    split.
    { unfold deny_mod_embed. rewrite ack_fields by reflexivity.
      rewrite andb_comm. reflexivity. }
    eexists (_ :: log), _, diag. reflexivity.
Qed.

Lemma acknowledgment_and_cleanup_witness :
  embed_fields
    (deny_mod_embed officer (Some alice) (txt "citizen") (txt "forged")
       true)
  = expected_ack_fields
      {| create_text_channel_result := Created 900; add_roles_result := RolesAdded;
         log_send_result := SendForbidden; delete_result := DeleteNotFound (txt "404");
         lower_beyond_ascii := sample_lower |}
      (load_config (Some sample_config)) belgium /\
  exists before deletion_reason diag,
    (run_command Deny
       {| create_text_channel_result := Created 900; add_roles_result := RolesAdded;
          log_send_result := SendForbidden; delete_result := DeleteNotFound (txt "404");
          lower_beyond_ascii := sample_lower |}
       (Some sample_config) (command_in citizen_ticket officer) (txt "forged")).1 =
    before ++
    ResponseSendMessage None
      (Some (deny_mod_embed officer (Some alice) (txt "citizen") (txt "forged") true)) ::
    Sleep 30 ::
    ChannelDelete 900 deletion_reason (DeleteNotFound (txt "404")) ::
    map Print diag.
Proof.
  apply (acknowledgment_and_cleanup Deny
           {| create_text_channel_result := Created 900; add_roles_result := RolesAdded;
              log_send_result := SendForbidden; delete_result := DeleteNotFound (txt "404");
              lower_beyond_ascii := sample_lower |}
           (Some sample_config) (command_in citizen_ticket officer) (txt "forged")).
  vm_compute. do 3 right. left. reflexivity.
Defined.

(* ===================================================================== *)
(** ** The welcome message *)
(* ===================================================================== *)

(** A top-level key of the default schema is always read without
    exception. *)
Lemma getitem_default_key (file : option (gmap string json)) (key : string) :
  is_Some (DEFAULT_CONFIG !! key) ->
  getitem (load_config file) key = inr (config_get (load_config file) key).
Proof.
  intros Hk. destruct (default_keys_bound file key Hk) as [v Hv].
  unfold getitem, config_get. rewrite Hv. reflexivity.
Qed.

(** X13.  What [on_member_join] does.  It issues no call and returns when
    no welcome channel is configured, and also when the configured id is
    not an object and names no channel of the guild.  When the id names a
    channel, the one call it issues is a message in that channel, which
    mentions the new member, shows the configured welcome text and carries
    the three buttons; how the run ends after that call is not part of the
    statement. *)
Theorem on_member_join_run (file : option (gmap string json)) (g : Guild)
  (member : Member) (member_count : Z) :
  let welcome_channel_id := config_get (load_config file) "welcome_channel_id" in
  (truthy welcome_channel_id = false ->
   on_member_join file g member member_count = ([], inr tt)) /\
  ((forall object, welcome_channel_id <> JObj object) ->
   get_channel g welcome_channel_id = None ->
   on_member_join file g member member_count = ([], inr tt)) /\
  (forall ch,
     truthy welcome_channel_id = true ->
     get_channel g welcome_channel_id = Some ch ->
     welcome_channel_id = JInt (channel_id ch) /\
     exists embed,
       (on_member_join file g member member_count).1 =
       [WelcomeSend (channel_id ch) (member_mention member) embed WelcomeView] /\
       welcome_description embed = config_get (load_config file) "welcome_message").
Proof.
  intros welcome_channel_id. subst welcome_channel_id. unfold on_member_join.
  rewrite (getitem_default_key file "welcome_channel_id") by (cbn; eauto).
  rewrite (getitem_default_key file "welcome_message") by (cbn; eauto).
  split; [|split].
  - intros Hf. rewrite Hf. reflexivity.
  - intros _ Hnone. destruct (truthy _); [rewrite Hnone|]; reflexivity.
  - intros ch Ht Hch. rewrite Ht, Hch. cbn [negb].
    split; [exact (get_channel_id _ _ _ Hch)|].
    eexists. split; reflexivity.
Qed.

Lemma on_member_join_run_witness :
  (exists embed,
     (on_member_join (Some quiet_config) belgium alice 3).1
     = [WelcomeSend (channel_id welcome_ch) (member_mention alice) embed WelcomeView] /\
     welcome_description embed
     = config_get (load_config (Some quiet_config)) "welcome_message") /\
  on_member_join None belgium alice 3 = ([], inr tt) /\
  on_member_join (Some (<["welcome_channel_id"%string := JInt 77]> sample_config))
    belgium alice 3 = ([], inr tt).
Proof.
  split; [|split].
  - exact (proj2 (proj2 (proj2 (on_member_join_run (Some quiet_config) belgium alice 3))
                    welcome_ch eq_refl eq_refl)).
  - apply (proj1 (on_member_join_run None belgium alice 3)). reflexivity.
  - apply (proj1 (proj2 (on_member_join_run
                           (Some (<["welcome_channel_id"%string := JInt 77]> sample_config))
                           belgium alice 3))).
    + intros object. vm_compute. discriminate.
    + reflexivity.
Defined.

(* ===================================================================== *)
(** ** Set-up commands *)
(* ===================================================================== *)

Lemma apply_role_fold (us : list (string * str * option Role))
  (config roles : gmap string json) (updated : list str) :
  foldl apply_role (inr (<["roles"%string := JObj roles]> config, updated)) us =
  inr (<["roles"%string := JObj (foldl write_role roles us)]> config,
       updated ++ concat (map role_line us)).
Proof.
  revert roles updated. induction us as [|[[key label] [role|]] us IH];
    intros roles updated; cbn [foldl concat map].
  - rewrite app_nil_r. reflexivity.
  - cbn [apply_role]. unfold set_role, getitem. rewrite lookup_insert_eq.
    rewrite insert_insert_eq. rewrite IH. cbn [role_line write_role fst snd].
    rewrite <- app_assoc. reflexivity.
  - cbn [apply_role]. rewrite IH. reflexivity.
Qed.

Lemma write_role_fold_lookup (us : list (string * str * option Role))
  (roles : gmap string json) (key : string) :
  NoDup (map (fun u => u.1.1) us) ->
  foldl write_role roles us !! key =
  match List.find (fun u => String.eqb u.1.1 key) us with
  | Some (_, _, Some role) => Some (JInt (role_id role))
  | _ => roles !! key
  end.
Proof.
  revert roles. induction us as [|[[k label] choice] us IH]; intros roles Hnd;
    [reflexivity|].
  apply NoDup_cons in Hnd. destruct Hnd as [Hk Hnd].
  cbn [foldl List.find fst snd]. rewrite (IH _ Hnd).
  destruct (String.eqb_spec k key) as [->|Hne].
  - assert (List.find (fun u : string * str * option Role => String.eqb u.1.1 key) us = None)
      as ->.
    { destruct (List.find _ us) as [u|] eqn:Hf; [|reflexivity].
      exfalso. apply find_some in Hf. destruct Hf as [Hin Heq].
      apply String.eqb_eq in Heq. apply Hk. rewrite <- Heq.
      apply list_elem_of_In, in_map_iff. exists u. split; [reflexivity | exact Hin]. }
    unfold write_role. cbn [fst snd]. destruct choice as [role|]; [|reflexivity].
    apply lookup_insert_eq.
  - assert (write_role roles (k, label, choice) !! key = roles !! key) as Hsame.
    { unfold write_role. cbn [fst snd]. destruct choice; [|reflexivity].
      apply lookup_insert_ne. exact Hne. }
    destruct (List.find _ us) as [[[k' l'] [role|]]|]; [reflexivity | exact Hsame | exact Hsame].
Qed.

Lemma role_update_keys (a : RoleChoices) : NoDup (map (fun u => u.1.1) (role_updates a)).
Proof.
  cbn. repeat (apply NoDup_cons; split;
               [rewrite ?elem_of_cons, ?elem_of_nil; intuition discriminate|]).
  apply NoDup_nil. exact I.
Qed.

(** The run of [setup_roles] on a configuration with a roles object. *)
Lemma setup_roles_run (file : option (gmap string json)) (a : RoleChoices)
  (roles : gmap string json) :
  load_config file !! "roles"%string = Some (JObj roles) ->
  exists new_roles reply,
    setup_roles file a =
      ([SetupSave (<["roles"%string := JObj new_roles]> (load_config file));
        SetupReply reply], inr tt) /\
    forall key, new_roles !! key =
                match chosen a key with
                | Some role => Some (JInt (role_id role))
                | None => roles !! key
                end.
Proof.
  intros Hroles. unfold setup_roles.
  pose proof (apply_role_fold (role_updates a) (load_config file) roles []) as Hfold.
  rewrite (insert_id (load_config file) "roles"%string (JObj roles) Hroles) in Hfold.
  rewrite Hfold. eexists _, _. split; [reflexivity|].
  intros key. rewrite (write_role_fold_lookup _ _ _ (role_update_keys a)).
  unfold chosen. destruct (List.find _ (role_updates a)) as [[[k l] [role|]]|]; reflexivity.
Qed.

(** X14.  What [setup_roles] writes.  With a roles object in the loaded
    configuration, the command saves the configuration with, in that
    object, every key for which a role was given bound to the id of that
    role and every other key as before, all other top-level keys
    (the ticket counter among them) untouched, and replies.  With no role
    given it saves the loaded configuration unchanged and replies that
    nothing changed, whatever the file holds. *)
Theorem setup_roles_saved (file : option (gmap string json)) (a : RoleChoices) :
  (forall roles,
     load_config file !! "roles"%string = Some (JObj roles) ->
     exists saved new_roles reply,
       setup_roles file a = ([SetupSave saved; SetupReply reply], inr tt) /\
       saved !! "roles"%string = Some (JObj new_roles) /\
       (forall key, new_roles !! key =
                    match chosen a key with
                    | Some role => Some (JInt (role_id role))
                    | None => roles !! key
                    end) /\
       (forall key, key <> "roles"%string -> saved !! key = load_config file !! key)) /\
  setup_roles file no_choice =
  ([SetupSave (load_config file);
    SetupReply {| notice_title := txt "ℹ️ No Changes";
                  notice_description := txt "No roles were provided to update.";
                  notice_color := notice_orange |}], inr tt).
Proof.
  split; [|reflexivity].
  intros roles Hroles.
  destruct (setup_roles_run file a roles Hroles) as (new_roles & reply & Hrun & Hkeys).
  eexists _, new_roles, reply. split; [exact Hrun|].
  split; [apply lookup_insert_eq|]. split; [exact Hkeys|].
  intros key Hne. apply lookup_insert_ne. congruence.
Qed.

Lemma setup_roles_saved_witness :
  exists saved new_roles reply,
    setup_roles (Some sample_config)
      {| choose_belgian := None; choose_foreigner := Some president_role;
         choose_border_control := Some belgian_role; choose_minister := None;
         choose_president := None; choose_vice_president := None;
         choose_government := None |}
    = ([SetupSave saved; SetupReply reply], inr tt) /\
    saved !! "roles"%string = Some (JObj new_roles) /\
    new_roles !! "border_control"%string = Some (JInt 10) /\
    new_roles !! "president"%string = Some (JInt 12) /\
    saved !! "ticket_counter"%string = Some (JInt 0).
Proof.
  destruct (proj1 (setup_roles_saved (Some sample_config)
                     {| choose_belgian := None; choose_foreigner := Some president_role;
                        choose_border_control := Some belgian_role; choose_minister := None;
                        choose_president := None; choose_vice_president := None;
                        choose_government := None |}) sample_roles eq_refl)
    as (saved & new_roles & reply & Hrun & Hroles & Hkeys & Hrest).
  exists saved, new_roles, reply.
  split; [exact Hrun|]. split; [exact Hroles|].
  split; [rewrite Hkeys; reflexivity|].
  split; [rewrite Hkeys; reflexivity|].
  rewrite Hrest by discriminate. reflexivity.
Defined.

Lemma mod_roles_same_roles (c1 c2 : gmap string json) :
  c1 !! "roles"%string = c2 !! "roles"%string -> mod_roles c1 = mod_roles c2.
Proof. intros H. unfold mod_roles, config_role, getitem. rewrite H. reflexivity. Qed.

(** X15.  The roles [setup_roles] binds are the ones the commands then
    authorize by.  On a configuration whose roles object holds the four
    moderator keys, once [setup_roles] has saved, a command typed in a
    ticket channel turns the actor away exactly when the actor is no
    administrator and holds none of the four moderator roles as they stand
    after the update: the role given for a key where one was given, the
    former value elsewhere. *)
Theorem setup_roles_then_command (c : Command) (p : Platform)
  (file : option (gmap string json)) (a : RoleChoices) (roles : gmap string json)
  (i : Interaction) (reason : str) :
  load_config file !! "roles"%string = Some (JObj roles) ->
  Forall (fun key => is_Some (roles !! key)) moderator_keys ->
  is_ticket_channel (channel_name (channel i)) = true ->
  (run_command c p (setup_saved file (setup_roles file a).1) i reason = permission_denied <->
   authorized (map (role_after a roles) moderator_keys) (user i) = false).
Proof.
  intros Hroles Hkeys Hticket.
  destruct (setup_roles_run file a roles Hroles) as (new_roles & reply & Hrun & Hnew).
  rewrite Hrun. cbn [fst setup_saved foldl].
  rewrite (command_rejects_iff c p _ i reason Hticket).
  rewrite load_config_insert.
  assert (forall key, In key moderator_keys ->
            config_role (<["roles"%string := JObj new_roles]> (load_config file)) key
            = inr (role_after a roles key)) as Hread.
  { intros key Hin. apply (config_role_bound _ new_roles); [apply lookup_insert_eq|].
    rewrite Hnew. unfold role_after. destruct (chosen a key); [reflexivity|].
    rewrite List.Forall_forall in Hkeys. destruct (Hkeys key Hin) as [value ->].
    reflexivity. }
  rewrite (mod_roles_reads _ _ _ _ _
             (Hread "border_control"%string ltac:(cbn; tauto))
             (Hread "minister_foreign_affairs"%string ltac:(cbn; tauto))
             (Hread "president"%string ltac:(cbn; tauto))
             (Hread "vice_president"%string ltac:(cbn; tauto))).
  split.
  - intros (rs & E & Hauth). inversion E; subst rs. exact Hauth.
  - intros Hauth. eexists. split; [reflexivity | exact Hauth].
Qed.

Lemma setup_roles_then_command_witness :
  run_command Deny friendly
    (setup_saved (Some sample_config)
       (setup_roles (Some sample_config)
          {| choose_belgian := None; choose_foreigner := None;
             choose_border_control := Some president_role; choose_minister := None;
             choose_president := None; choose_vice_president := None;
             choose_government := None |}).1)
    (command_in citizen_ticket officer) (txt "late")
  = permission_denied.
Proof.
  refine (proj2 (setup_roles_then_command Deny friendly (Some sample_config)
                   {| choose_belgian := None; choose_foreigner := None;
                      choose_border_control := Some president_role; choose_minister := None;
                      choose_president := None; choose_vice_president := None;
                      choose_government := None |}
                   sample_roles (command_in citizen_ticket officer) (txt "late")
                   eq_refl _ eq_refl) _).
  - repeat (constructor; [eexists; reflexivity|]). constructor.
  - reflexivity.
Defined.

Lemma insert_fold_bound (us : list (string * Z * str)) (config : gmap string json)
  (key : string) :
  is_Some (config !! key) ->
  is_Some (foldl (fun config u => <[u.1.1 := JInt u.1.2]> config) config us !! key).
Proof.
  revert config. induction us as [|u us IH]; intros config Hk; [exact Hk|].
  cbn [foldl]. apply IH. destruct (decide (u.1.1 = key)) as [->|Hne].
  - rewrite lookup_insert_eq. eauto.
  - rewrite lookup_insert_ne by exact Hne. exact Hk.
Qed.

(** The run of [setup_channels]. *)
Lemma setup_channels_run (file : option (gmap string json))
  (w v l : option GuildChannel) :
  exists saved,
    setup_channels file w v l =
      ([SetupSave saved;
        SetupReply (setup_reply (txt "✅ Channels Updated")
                      (txt "No channels were provided to update.")
                      (map snd (channel_updates w v l)))], inr tt) /\
    (forall key, saved !! key =
                 match channel_choice w v l key with
                 | Some ch => Some (JInt (channel_id ch))
                 | None => load_config file !! key
                 end) /\
    load_config (Some saved) = saved.
Proof.
  unfold setup_channels. eexists. split; [reflexivity|]. split.
  - intros key. unfold channel_choice, channel_updates.
    destruct (String.eqb_spec key "welcome_channel_id") as [->|H1];
      [|destruct (String.eqb_spec key "verification_category_id") as [->|H2];
        [|destruct (String.eqb_spec key "log_channel_id") as [->|H3]]];
      destruct w as [w|], v as [v|], l as [l|]; cbn [app foldl fst snd];
      repeat first [rewrite lookup_insert_eq | rewrite lookup_insert_ne by congruence];
      reflexivity.
  - apply load_config_complete. intros k Hk.
    apply insert_fold_bound, default_keys_bound, Hk.
Qed.


(** X17.  The welcome channel [setup_channels] binds is where the next
    member is welcomed.  Once the command has saved, a member who joins is
    welcomed in the channel given as welcome channel, provided the guild
    knows a channel of that id, with the welcome text the configuration
    held before; and a call that gives no welcome channel leaves
    [on_member_join] as it was, whatever else it sets. *)
Theorem setup_channels_then_join (file : option (gmap string json))
  (w v l : option GuildChannel) (g : Guild) (member : Member) (member_count : Z) :
  let saved := setup_saved file (setup_channels file w v l).1 in
  (w = None ->
   on_member_join saved g member member_count = on_member_join file g member member_count) /\
  (forall ch,
     w = Some ch -> channel_id ch <> 0 ->
     is_Some (get_channel g (JInt (channel_id ch))) ->
     exists embed,
       on_member_join saved g member member_count =
       ([WelcomeSend (channel_id ch) (member_mention member) embed WelcomeView], inr tt) /\
       welcome_description embed = config_get (load_config file) "welcome_message").
Proof.
  intros saved. subst saved.
  destruct (setup_channels_run file w v l) as (saved & Hrun & Hkeys & Hload).
  rewrite Hrun. cbn [fst setup_saved foldl].
  assert (getitem saved "welcome_message" = getitem (load_config file) "welcome_message")
    as Hmsg.
  { unfold getitem. rewrite Hkeys. reflexivity. }
  split.
  - intros ->.
    assert (getitem saved "welcome_channel_id"
            = getitem (load_config file) "welcome_channel_id") as Hwc.
    { unfold getitem. rewrite Hkeys. reflexivity. }
    unfold on_member_join. rewrite Hload, Hwc, Hmsg. reflexivity.
  - intros ch -> Hnz [ch' Hch'].
    assert (getitem saved "welcome_channel_id" = inr (JInt (channel_id ch))) as Hwc.
    { unfold getitem. rewrite Hkeys. reflexivity. }
    pose proof (get_channel_id _ _ _ Hch') as Hid. injection Hid as Hid.
    unfold on_member_join. rewrite Hload, Hwc, Hmsg. cbn [truthy].
    rewrite (proj2 (Z.eqb_neq _ _) Hnz). cbn [negb]. rewrite Hch'.
    rewrite (getitem_default_key file "welcome_message") by (cbn; eauto).
    rewrite Hid. eexists. split; reflexivity.
Qed.

Lemma setup_channels_then_join_witness :
  exists embed,
    on_member_join
      (setup_saved None (setup_channels None (Some welcome_ch) None None).1)
      belgium alice 3
    = ([WelcomeSend (channel_id welcome_ch) (member_mention alice) embed WelcomeView],
       inr tt) /\
    welcome_description embed = config_get (load_config None) "welcome_message".
Proof.
  apply (proj2 (setup_channels_then_join None (Some welcome_ch) None None belgium alice 3)
           welcome_ch eq_refl).
  - discriminate.
  - eexists. reflexivity.
Defined.

(** X18.  The log channel [setup_channels] binds is where the next decision
    is logged.  Once the command has saved with a log channel the guild
    knows, a [deny] by an authorized actor in a ticket channel sends its log
    embed to that channel. *)
Theorem setup_channels_then_log (p : Platform) (file : option (gmap string json))
  (w v l : option GuildChannel) (i : Interaction) (reason : str) (roles : list json)
  (ch : GuildChannel) :
  l = Some ch -> channel_id ch <> 0 ->
  is_Some (get_channel (guild i) (JInt (channel_id ch))) ->
  is_ticket_channel (channel_name (channel i)) = true ->
  mod_roles (load_config file) = ([], inr roles) ->
  authorized roles (user i) = true ->
  In (ChannelSend (channel_id ch) None
        (deny_log_embed (user i) (requester_of (guild i) (channel_topic (channel i)))
           (request_type_of (channel_name (channel i))) reason)
        (log_send_result p))
     (deny p (setup_saved file (setup_channels file w v l).1) i reason).1.
Proof.
  intros -> Hnz [ch' Hch'] Hticket Hroles Hauth.
  destruct (setup_channels_run file w v (Some ch)) as (saved & Hrun & Hkeys & Hload).
  rewrite Hrun. cbn [fst setup_saved foldl].
  assert (mod_roles (load_config (Some saved)) = ([], inr roles)) as Hroles'.
  { rewrite Hload, <- Hroles. apply mod_roles_same_roles. rewrite Hkeys. reflexivity. }
  assert (config_get saved "log_channel_id" = JInt (channel_id ch)) as Hlc.
  { unfold config_get. rewrite Hkeys.
    unfold channel_choice. destruct w, v; reflexivity. }
  pose proof (get_channel_id _ _ _ Hch') as Hid. injection Hid as Hid.
  destruct (deny_run p (Some saved) i reason roles Hticket Hroles' Hauth)
    as (log & posted & diag & Hlog & Hdeny).
  destruct (post_log_run p (load_config (Some saved)) (guild i)
              (deny_log_embed (user i) (requester_of (guild i) (channel_topic (channel i)))
                 (request_type_of (channel_name (channel i))) reason))
    as (t & posted' & Ht & _ & Hsent).
  rewrite Hlog in Ht. inversion Ht; subst t posted'. clear Ht.
  rewrite Hdeny. cbn [fst]. right. apply in_or_app. left.
  rewrite Hid. apply Hsent; rewrite Hload, Hlc.
  - cbn [truthy]. rewrite (proj2 (Z.eqb_neq _ _) Hnz). reflexivity.
  - exact Hch'.
Qed.

Lemma setup_channels_then_log_witness :
  In (ChannelSend (channel_id log_channel_ch) None
        (deny_log_embed (user (command_in citizen_ticket officer))
           (requester_of (guild (command_in citizen_ticket officer))
              (channel_topic (channel (command_in citizen_ticket officer))))
           (request_type_of (channel_name (channel (command_in citizen_ticket officer))))
           (txt "late"))
        (log_send_result friendly))
     (deny friendly
        (setup_saved (Some quiet_config)
           (setup_channels (Some quiet_config) None None (Some log_channel_ch)).1)
        (command_in citizen_ticket officer) (txt "late")).1.
Proof.
  apply (setup_channels_then_log friendly (Some quiet_config) None None
           (Some log_channel_ch) (command_in citizen_ticket officer) (txt "late")
           [JInt 11; JNull; JInt 12; JNull] log_channel_ch eq_refl).
  - discriminate.
  - eexists. reflexivity.
  - reflexivity.
  - reflexivity.
  - reflexivity.
Defined.


(** The entry point by cases: the token of the environment when it is a
    non-empty string, otherwise the first argument when that is one. *)
Lemma main_cases (env_token : option str) (argv : list str) :
  main env_token argv =
  match env_token with
  | Some (c :: s) => Run (c :: s)
  | _ => match argv !! 1%nat with
         | Some (c :: s) => Run (c :: s)
         | _ => Exit 1
         end
  end.
Proof.
  unfold main.
  destruct argv as [|a0 [|a1 rest]]; destruct env_token as [[|c s]|];
    cbn [token_given negb andb]; try reflexivity.
  all: replace (1 <? Z.of_nat (length (a0 :: a1 :: rest))) with true
    by (symmetry; apply Z.ltb_lt; cbn [length]; lia).
  all: reflexivity.
Qed.

Ltac startup_case :=
  repeat match goal with
         | |- _ /\ _ => split
         | |- _ <-> _ => split
         | |- forall _, _ => intro
         | H : _ /\ _ |- _ => destruct H
         | H : _ \/ _ |- _ => destruct H
         | H : Run _ = Run _ |- _ => injection H as <-
         | H : Exit _ = Exit _ |- _ => injection H as <-
         | H : Some _ = Some _ |- _ => injection H as <-
         end;
  try discriminate; try congruence; try reflexivity;
  try (left; reflexivity); try (right; split; reflexivity).

(** X20.  Starting the bot.  The program exits, with status 1, exactly when
    neither the environment variable nor the first command-line argument
    is a non-empty string; otherwise it runs the bot with a non-empty
    token: the environment's when that is non-empty, whatever the command
    line holds, and the first argument's only when the environment has
    none or an empty one. *)
Theorem main_startup (env_token : option str) (argv : list str) :
  (main env_token argv = Exit 1 <->
   token_given env_token = false /\ token_given (argv !! 1%nat) = false) /\
  (forall token,
     main env_token argv = Run token <->
     token <> [] /\
     (env_token = Some token \/
      token_given env_token = false /\ argv !! 1%nat = Some token)) /\
  (forall status, main env_token argv = Exit status -> status = 1).
Proof.
  rewrite main_cases.
  destruct env_token as [[|c s]|]; destruct (argv !! 1%nat) as [[|c' s']|];
    cbn [token_given]; startup_case.
Qed.


